(** * Academic grievance DSS: the mock rule engine and the fairness scorer

    A shallow embedding of
    - [backend/services/mock_rule_engine_service.py] (class
      [MockRuleEngineService]) and
    - [backend/services/fairness_service.py] (class [FairnessService]),
    with the properties of the evaluation trace, the conflict records, the
    consistency score, the anomaly test and the recommendation bands, and
    of
    - [backend/services/mock_database_service.py] (class
      [MockDatabaseService]) and
    - the route [submit_grievance] of [backend/api/routes/grievances.py]
    on top of them.

    Python dictionaries are finite maps from strings to scalar values, a
    missing key is a lookup that gives [None], and an exception is an
    explicit [Raise] result.  Python numbers are read as exact rationals:
    an [int] or a finite [float] denotes the rational it is written as, and
    arithmetic on them is exact.  The float NaN, on which every comparison
    is false, is no value of the embedding, and neither is a grievance
    whose ['parameters'] entry is present without being a dictionary; the
    statements that depend on it say so. *)

From Stdlib Require Import ZArith QArith Qround Qabs List String Bool Lia Lqa
  Sorted.
From stdpp Require Import base option gmap strings.

Import ListNotations.
Local Open Scope string_scope.
Local Open Scope list_scope.

(** ** Python values, truth, comparison and exceptions *)

Module Py.

(** The scalars a JSON-decoded [Dict[str, Any]] carries. *)
Inductive value : Type :=
| VNone
| VBool (b : bool)
| VNum (q : Q)
| VStr (s : string).

Inductive exn : Type :=
| TypeError
| IndexError.

Inductive result (A : Type) : Type :=
| Ok (a : A)
| Raise (e : exn).
Arguments Ok {A} a.
Arguments Raise {A} e.

Definition bind {A B} (m : result A) (k : A -> result B) : result B :=
  match m with
  | Ok a => k a
  | Raise e => Raise e
  end.

(** [bool] is a subclass of [int]: [True] is 1 and [False] is 0. *)
Definition num_of (v : value) : option Q :=
  match v with
  | VBool true => Some 1%Q
  | VBool false => Some 0%Q
  | VNum q => Some q
  | VNone | VStr _ => None
  end.

Definition Qltb (x y : Q) : bool := negb (Qle_bool y x).

(** [bool(v)]. *)
Definition truthy (v : value) : bool :=
  match v with
  | VNone => false
  | VBool b => b
  | VNum q => negb (Qeq_bool q 0)
  | VStr s => negb (String.eqb s "")
  end.

(** [v < c], [v <= c], [v > c], [v >= c] against a numeric literal [c]:
    ordering a string or [None] with a number raises [TypeError]. *)
Definition lt (v : value) (c : Q) : result bool :=
  match num_of v with
  | Some q => Ok (Qltb q c)
  | None => Raise TypeError
  end.

Definition le (v : value) (c : Q) : result bool :=
  match num_of v with
  | Some q => Ok (Qle_bool q c)
  | None => Raise TypeError
  end.

Definition gt (v : value) (c : Q) : result bool :=
  match num_of v with
  | Some q => Ok (Qltb c q)
  | None => Raise TypeError
  end.

Definition ge (v : value) (c : Q) : result bool :=
  match num_of v with
  | Some q => Ok (Qle_bool c q)
  | None => Raise TypeError
  end.

(** [a == b]; never raises. *)
Definition equal (a b : value) : bool :=
  match num_of a, num_of b with
  | Some x, Some y => Qeq_bool x y
  | None, None =>
      match a, b with
      | VNone, VNone => true
      | VStr s, VStr t => String.eqb s t
      | _, _ => false
      end
  | _, _ => false
  end.

(** [d.get(key)] and [d.get(key, dflt)]. *)
Definition get (d : gmap string value) (key : string) : value :=
  default VNone (d !! key).

Definition get_or (d : gmap string value) (key : string) (dflt : value) : value :=
  default dflt (d !! key).

(** An f-string, kept as its literal pieces and the values it formats. *)
Inductive frag : Type :=
| Lit (s : string)
| Fmt (v : value)
| FmtSpec (v : value) (spec : string).

Definition fstring : Type := list frag.

(** [l[0]]. *)
Definition index0 {A} (l : list A) : result A :=
  match l with
  | x :: _ => Ok x
  | [] => Raise IndexError
  end.

(** [sum(...)] over integers. *)
Definition sum (l : list Z) : Z := fold_left Z.add l 0%Z.

(** [int(x)]: truncation towards zero. *)
Definition int_of (x : Q) : Z := Z.quot (Qnum x) (Z.pos (Qden x)).

(** The integer nearest to [y], a tie going to the even one. *)
Definition round_half_even (y : Q) : Z :=
  let f := Qfloor y in
  match Qcompare (y - inject_Z f) (1 # 2) with
  | Lt => f
  | Gt => (f + 1)%Z
  | Eq => if Z.even f then f else (f + 1)%Z
  end.

(** [round(x, ndigits)]: the nearest multiple of [10 ** -ndigits]. *)
Definition round (x : Q) (ndigits : nat) : Q :=
  let scale := inject_Z (10 ^ Z.of_nat ndigits) in
  inject_Z (round_half_even (x * scale)) / scale.

End Py.

Notation "'let!' x ':=' m 'in' k" := (Py.bind m (fun x => k))
  (at level 10, x name, m at level 100, k at level 200).

(** ** The mock rule engine ([mock_rule_engine_service.py]) *)

Module MockRuleEngine.
Import Py.

(** An entry of [rules_evaluated]. *)
Record rule_entry : Type := {
  rule_id : string;
  hierarchy_level : string;
  salience : Z;
  fired : bool;
  outcome : string;
  source : string
}.

(** An entry of [conflicts_detected]; [c_type] is the key ['type']. *)
Record conflict : Type := {
  c_type : string;
  conflicting_rules : list string;
  resolution_strategy : string;
  winning_rule : string;
  c_reason : string
}.

Record decision : Type := {
  d_outcome : string;
  applicable_rule : string;
  regulatory_source : string;
  d_hierarchy_level : string;
  d_salience : Z;
  reason : fstring;
  explanation : fstring;
  action_required : option string;
  human_review_required : bool
}.

(** [processing_time_ms] is absent until [evaluate_grievance] sets it. *)
Record trace : Type := {
  rules_evaluated : list rule_entry;
  conflicts_detected : list conflict;
  final_decision : decision;
  processing_time_ms : option Z
}.

(** The dictionary [evaluate_grievance] returns. *)
Record evaluation : Type := {
  ev_decision : decision;
  ev_trace : trace;
  rules_fired : nat
}.

(** The two keys [evaluate_grievance] reads from the grievance; [None] is
    an absent key. *)
Record grievance : Type := {
  grievance_type : option string;
  parameters : option (gmap string value)
}.

Definition UGC_Attendance_75Percent_Minimum : rule_entry := {|
  rule_id := "UGC_Attendance_75Percent_Minimum";
  hierarchy_level := "L1_National";
  salience := 1500;
  fired := true;
  outcome := "REJECT";
  source := "UGC Regulations 2018, Section 4.2"
|}.

Definition University_Medical_Excuse_Attendance : rule_entry := {|
  rule_id := "University_Medical_Excuse_Attendance";
  hierarchy_level := "L3_University";
  salience := 500;
  fired := true;
  outcome := "ACCEPT";
  source := "University Statute 12.3"
|}.

Definition attendance_conflict : conflict := {|
  c_type := "AUTHORITY_CONFLICT";
  conflicting_rules :=
    [ "UGC_Attendance_75Percent_Minimum (L1_National)";
      "University_Medical_Excuse_Attendance (L3_University)" ];
  resolution_strategy := "Authority Precedence";
  winning_rule := "UGC_Attendance_75Percent_Minimum";
  c_reason := "L1_National supersedes L3_University"
|}.

Definition attendance_reject (attendance : value) : decision := {|
  d_outcome := "REJECT";
  applicable_rule := "UGC_Attendance_75Percent_Minimum";
  regulatory_source := "UGC Regulations 2018, Section 4.2";
  d_hierarchy_level := "L1_National";
  d_salience := 1500;
  reason :=
    [ Lit "Attendance "; Fmt attendance;
      Lit "% is below UGC-mandated 75% minimum" ];
  explanation :=
    [ Lit "The University Grants Commission (UGC) mandates a minimum of 75% attendance for all students. Your attendance of ";
      Fmt attendance;
      Lit "% does not meet this requirement. Even with a medical certificate, the national regulation takes precedence over university policies." ];
  action_required := None;
  human_review_required := false
|}.

Definition attendance_accept (attendance : value) : decision := {|
  d_outcome := "ACCEPT";
  applicable_rule := "UGC_Attendance_Satisfied";
  regulatory_source := "UGC Regulations 2018, Section 4.2";
  d_hierarchy_level := "L1_National";
  d_salience := 1500;
  reason :=
    [ Lit "Attendance "; Fmt attendance; Lit "% meets UGC requirement" ];
  explanation :=
    [ Lit "Your attendance of "; Fmt attendance;
      Lit "% meets the UGC-mandated minimum of 75%." ];
  action_required := None;
  human_review_required := false
|}.

(** [_evaluate_attendance]: the two lists are threaded through the four
    [if] statements in source order. *)
Definition _evaluate_attendance (params : gmap string value)
  : result (decision * trace) :=
  let attendance := get_or params "attendance_percentage" (VNum 0) in
  let has_medical := get_or params "has_medical_certificate" (VBool false) in
  let rules_evaluated0 : list rule_entry := [] in
  let conflicts0 : list conflict := [] in
  (* L1 National Rule *)
  let! below := lt attendance 75 in
  let rules_evaluated1 :=
    if below then rules_evaluated0 ++ [UGC_Attendance_75Percent_Minimum]
    else rules_evaluated0 in
  (* L3 University Rule (if medical cert) *)
  let! medical :=
    (if truthy has_medical then ge attendance 65 else Ok false) in
  let! lists :=
    (if medical then
       let rules_evaluated2 :=
         rules_evaluated1 ++ [University_Medical_Excuse_Attendance] in
       (* Conflict detected *)
       let! below' := lt attendance 75 in
       Ok (rules_evaluated2,
           if below' then conflicts0 ++ [attendance_conflict]
           else conflicts0)
     else Ok (rules_evaluated1, conflicts0)) in
  (* Final decision (highest salience wins) *)
  let! below'' := lt attendance 75 in
  let decision :=
    if below'' then attendance_reject attendance
    else attendance_accept attendance in
  let trace := {|
    rules_evaluated := fst lists;
    conflicts_detected := snd lists;
    final_decision := decision;
    processing_time_ms := None
  |} in
  Ok (decision, trace).

(** [_evaluate_examination] *)
Definition _evaluate_examination (params : gmap string value)
  : result (decision * trace) :=
  let days_since := get_or params "days_since_result_declaration" (VNum 999) in
  let fee_paid := get_or params "revaluation_fee_paid" (VBool false) in
  let rules_evaluated0 : list rule_entry := [] in
  let! within := le days_since 15 in
  let! verdict :=
    (if within && truthy fee_paid then
       Ok ("ACCEPT",
           [Lit "Revaluation request within timeline and fee paid"])
     else
       let! late := gt days_since 15 in
       if late then
         Ok ("REJECT",
             [ Lit "Revaluation request submitted "; Fmt days_since;
               Lit " days after result (deadline: 15 days)" ])
       else
         Ok ("PENDING_CLARIFICATION",
             [Lit "Revaluation fee payment required"])) in
  let outcome := fst verdict in
  let reason := snd verdict in
  let rules_evaluated1 := rules_evaluated0 ++ [ {|
    rule_id := "University_Revaluation_Timeline";
    hierarchy_level := "L3_University";
    salience := 1000;
    fired := true;
    outcome := outcome;
    source := "University Examination Rules 2023"
  |} ] in
  let decision := {|
    d_outcome := outcome;
    applicable_rule := "University_Revaluation_Timeline";
    regulatory_source := "University Examination Rules 2023, Section 8.4";
    d_hierarchy_level := "L3_University";
    d_salience := 1000;
    reason := reason;
    explanation :=
      [ Lit "Revaluation requests must be submitted within 15 days of result declaration with the prescribed fee. Your request was submitted after ";
        Fmt days_since; Lit " days." ];
    action_required :=
      if negb (truthy fee_paid) then Some "Pay revaluation fee" else None;
    human_review_required := false
  |} in
  let trace := {|
    rules_evaluated := rules_evaluated1;
    conflicts_detected := [];
    final_decision := decision;
    processing_time_ms := None
  |} in
  Ok (decision, trace).

(** The five locals the three branches of [_evaluate_fee_waiver] set. *)
Record fee_verdict : Type := {
  fv_outcome : string;
  fv_reason : string;
  fv_rule_id : string;
  fv_hierarchy : string;
  fv_salience : Z
}.

(** [_evaluate_fee_waiver] *)
Definition _evaluate_fee_waiver (params : gmap string value)
  : result (decision * trace) :=
  let category := get_or params "student_category" (VStr "GENERAL") in
  let income := get_or params "family_income" (VNum 999999) in
  let has_income_cert := get_or params "has_income_certificate" (VBool false) in
  let rules_evaluated0 : list rule_entry := [] in
  let! verdict :=
    (* SC/ST students *)
    (if equal category (VStr "SC") || equal category (VStr "ST") then
       Ok {| fv_outcome := "ACCEPT";
             fv_reason := "SC/ST students eligible for full fee waiver";
             fv_rule_id := "National_SC_ST_Fee_Waiver";
             fv_hierarchy := "L1_National";
             fv_salience := 1500 |}
     else
       (* EWS students *)
       let! ews :=
         (if equal category (VStr "EWS") then
            let! low := lt income 800000 in
            Ok (low && truthy has_income_cert)
          else Ok false) in
       if ews then
         Ok {| fv_outcome := "ACCEPT";
               fv_reason := "EWS student with income below threshold";
               fv_rule_id := "National_EWS_Fee_Waiver";
               fv_hierarchy := "L1_National";
               fv_salience := 1400 |}
       else
         Ok {| fv_outcome := "REJECT";
               fv_reason := "Does not meet fee waiver criteria";
               fv_rule_id := "Fee_Waiver_General_Rule";
               fv_hierarchy := "L3_University";
               fv_salience := 500 |}) in
  let rules_evaluated1 := rules_evaluated0 ++ [ {|
    rule_id := fv_rule_id verdict;
    hierarchy_level := fv_hierarchy verdict;
    salience := fv_salience verdict;
    fired := true;
    outcome := fv_outcome verdict;
    source := "UGC/University Fee Rules"
  |} ] in
  let decision := {|
    d_outcome := fv_outcome verdict;
    applicable_rule := fv_rule_id verdict;
    regulatory_source := "UGC Fee Waiver Guidelines 2020";
    d_hierarchy_level := fv_hierarchy verdict;
    d_salience := fv_salience verdict;
    reason := [Lit (fv_reason verdict)];
    explanation :=
      [ Lit "Based on your category ("; Fmt category;
        Lit ") and family income (₹"; Fmt income;
        Lit "), your fee waiver request has been evaluated." ];
    action_required :=
      if negb (truthy has_income_cert) && equal category (VStr "EWS")
      then Some "Submit income certificate" else None;
    human_review_required := false
  |} in
  let trace := {|
    rules_evaluated := rules_evaluated1;
    conflicts_detected := [];
    final_decision := decision;
    processing_time_ms := None
  |} in
  Ok (decision, trace).

Definition Default_Review_Required : rule_entry := {|
  rule_id := "Default_Review_Required";
  hierarchy_level := "L3_University";
  salience := 100;
  fired := true;
  outcome := "PENDING_CLARIFICATION";
  source := "University General Rules"
|}.

(** [_default_evaluation]: default evaluation for unknown types. *)
Definition _default_evaluation : result (decision * trace) :=
  let decision := {|
    d_outcome := "PENDING_CLARIFICATION";
    applicable_rule := "Default_Review_Required";
    regulatory_source := "University General Rules";
    d_hierarchy_level := "L3_University";
    d_salience := 100;
    reason := [Lit "Grievance requires manual review"];
    explanation :=
      [Lit "This type of grievance requires human review to determine the appropriate course of action."];
    action_required := Some "Provide additional details";
    human_review_required := true
  |} in
  let trace := {|
    rules_evaluated := [Default_Review_Required];
    conflicts_detected := [];
    final_decision := decision;
    processing_time_ms := None
  |} in
  Ok (decision, trace).

(** [evaluate_grievance].  [start_time] and [end_time] are the two
    readings of [time.time()]; the log lines are left out. *)
Definition evaluate_grievance (start_time end_time : Q) (g : grievance)
  : result evaluation :=
  let grievance_type := default "" (grievance_type g) in
  let parameters := default (∅ : gmap string value) (parameters g) in
  (* Simulate rule evaluation based on type *)
  let! dt :=
    (if String.eqb grievance_type "ATTENDANCE_SHORTAGE" then
       _evaluate_attendance parameters
     else if String.eqb grievance_type "EXAMINATION_REEVAL" then
       _evaluate_examination parameters
     else if String.eqb grievance_type "FEE_WAIVER" then
       _evaluate_fee_waiver parameters
     else _default_evaluation) in
  let decision := fst dt in
  let trace := snd dt in
  let processing_time := int_of ((end_time - start_time) * 1000) in
  let trace := {|
    rules_evaluated := rules_evaluated trace;
    conflicts_detected := conflicts_detected trace;
    final_decision := final_decision trace;
    processing_time_ms := Some processing_time
  |} in
  Ok {| ev_decision := decision;
        ev_trace := trace;
        rules_fired := length (rules_evaluated trace) |}.

(** The authority tiers in their order of precedence, the smaller rank
    binding more: L1 over L2 over L3. *)
Definition tier_rank (level : string) : nat :=
  if String.eqb level "L1_National" then 1
  else if String.eqb level "L2_Accreditation" then 2
  else if String.eqb level "L3_University" then 3
  else 4.

(** A trace with one fired rule, no conflict, and the decision that rule
    gives. *)
Definition single_rule (d : decision) (t : trace) : Prop :=
  exists e,
    rules_evaluated t = [e] /\ fired e = true /\
    conflicts_detected t = [] /\ final_decision t = d /\
    d_outcome d = outcome e /\
    d_hierarchy_level d = hierarchy_level e /\
    applicable_rule d = rule_id e.

(** Inputs used below: an attendance of 80% without a certificate, an
    attendance of 68.5% with one, no parameters at all, and a type the
    engine has no routine for. *)
Definition attendance_80 : grievance := {|
  grievance_type := Some "ATTENDANCE_SHORTAGE";
  parameters := Some {[ "attendance_percentage" := VNum 80 ]}
|}.

Definition attendance_68_5_medical : grievance := {|
  grievance_type := Some "ATTENDANCE_SHORTAGE";
  parameters :=
    Some (<[ "has_medical_certificate" := VBool true ]>
            {[ "attendance_percentage" := VNum 68.5 ]})
|}.


Definition grade_appeal : grievance := {|
  grievance_type := Some "GRADE_APPEAL";
  parameters := Some ∅
|}.

End MockRuleEngine.

(** ** [collections.Counter] and [most_common(1)] *)

Module Counter.
Section WithKey.
Context {K : Type} (eqb : K -> K -> bool).

(** [c[k] += 1] on a dictionary kept as its items in insertion order:
    a key equal to a stored one bumps that item, a new key is added at
    the end. *)
Fixpoint incr (k : K) (c : list (K * nat)) : list (K * nat) :=
  match c with
  | [] => [(k, 1)]
  | (k', n) :: c' =>
      if eqb k' k then (k', S n) :: c' else (k', n) :: incr k c'
  end.

(** [Counter(iterable)] *)
Definition Counter (l : list K) : list (K * nat) :=
  fold_left (fun c k => incr k c) l [].

(** [max(items, key=itemgetter(1))] started at [best]: a later item
    replaces the best one only when its count is strictly larger. *)
Fixpoint max_from (best : K * nat) (items : list (K * nat)) : K * nat :=
  match items with
  | [] => best
  | it :: rest =>
      max_from (if Nat.ltb (snd best) (snd it) then it else best) rest
  end.

(** [c.most_common(1)], which is [heapq.nlargest(1, c.items(), key)]:
    the empty list for an empty counter, else the one maximal item. *)
Definition most_common_1 (c : list (K * nat)) : list (K * nat) :=
  match c with
  | [] => []
  | it :: rest => [max_from it rest]
  end.

(** What the counter is compared with: occurrences of the class of [k]
    in [l], and the position at which that class first occurs. *)
Fixpoint count (k : K) (l : list K) : nat :=
  match l with
  | [] => 0
  | x :: l' => (if eqb k x then 1 else 0) + count k l'
  end.

Fixpoint first_index (k : K) (l : list K) : nat :=
  match l with
  | [] => 0
  | x :: l' => if eqb k x then 0 else S (first_index k l')
  end.

(** [m], occurring [n] times, is the most frequent element of [l], the
    first encountered of those that occur as often; [m] is that first
    occurrence itself. *)
Definition most_frequent_first (l : list K) (m : K) (n : nat) : Prop :=
  nth_error l (first_index m l) = Some m /\
  n = count m l /\
  forall x, In x l ->
    count x l <= n /\
    (count x l = n -> first_index m l <= first_index x l).

(** The counter [c] holds the counts of [l]: each item is the first
    occurrence of its class with the count of that class, every element
    of [l] has an item, and the items stand in the order in which their
    classes first occur. *)
Definition represents (l : list K) (c : list (K * nat)) : Prop :=
  (forall k n, In (k, n) c ->
     n = count k l /\ nth_error l (first_index k l) = Some k) /\
  (forall x, In x l -> exists k n, In (k, n) c /\ eqb k x = true) /\
  StronglySorted (fun a b => first_index a l < first_index b l)
    (map fst c).
End WithKey.
End Counter.

(** ** The fairness service ([fairness_service.py]) *)

Module Fairness.
Import Py.

(** The one attribute of the service the scorer reads. *)
Record FairnessService : Type := {
  consistency_threshold : Q
}.

(** [__init__]: 85% consistency required. *)
Definition __init__ : FairnessService :=
  {| consistency_threshold := 0.85 |}.

Definition vnat (n : nat) : value := VNum (inject_Z (Z.of_nat n)).

(** [sum(1 for case in similar_cases if case.get(key) == current)] *)
Definition matches (key : string) (current : value)
    (similar_cases : list (gmap string value)) : Z :=
  sum (flat_map
         (fun case => if equal (get case key) current then [1%Z] else [])
         similar_cases).

(** [calculate_consistency_score] *)
Definition calculate_consistency_score
    (current_decision : gmap string value)
    (similar_cases : list (gmap string value)) : Q :=
  match similar_cases with
  | [] => 1 (* No comparison possible *)
  | _ :: _ =>
      let current_outcome := get current_decision "outcome" in
      let current_rule := get current_decision "applicable_rule" in
      let current_level := get current_decision "hierarchy_level" in
      let outcome_matches := matches "outcome" current_outcome similar_cases in
      let rule_matches := matches "applicable_rule" current_rule similar_cases in
      let level_matches := matches "hierarchy_level" current_level similar_cases in
      let total_cases := Z.of_nat (length similar_cases) in
      (* Weighted average: outcome (50%), rule (30%), level (20%) *)
      let outcome_score := inject_Z outcome_matches / inject_Z total_cases in
      let rule_score := inject_Z rule_matches / inject_Z total_cases in
      let level_score := inject_Z level_matches / inject_Z total_cases in
      let consistency_score :=
        0.5 * outcome_score + 0.3 * rule_score + 0.2 * level_score in
      round consistency_score 4
  end%Q.

(** The f-string [reason] of [detect_anomaly]. *)
Definition anomaly_reason (current_outcome most_common_outcome : value)
    (count total : nat) (consistency_score threshold : Q) : fstring :=
  [ Lit "Decision outcome '"; Fmt current_outcome;
    Lit "' differs from most common outcome '"; Fmt most_common_outcome;
    Lit "' ("; Fmt (vnat count); Lit "/"; Fmt (vnat total);
    Lit " cases). Consistency score: ";
    FmtSpec (VNum consistency_score) ".3f";
    Lit " (threshold: "; Fmt (VNum threshold); Lit ")" ].

(** [detect_anomaly] *)
Definition detect_anomaly (self : FairnessService) (consistency_score : Q)
    (current_decision : gmap string value)
    (similar_cases : list (gmap string value))
  : result (bool * option fstring) :=
  if Qltb consistency_score (consistency_threshold self) then
    (* Analyze why it's inconsistent *)
    let current_outcome := get current_decision "outcome" in
    (* Get most common outcome in similar cases *)
    let outcomes := map (fun case => get case "outcome") similar_cases in
    let outcome_counts := Counter.Counter equal outcomes in
    let! mc := index0 (Counter.most_common_1 outcome_counts) in
    let most_common_outcome := fst mc in
    let count := snd mc in
    if negb (equal current_outcome most_common_outcome) then
      Ok (true,
          Some (anomaly_reason current_outcome most_common_outcome count
                  (length similar_cases) consistency_score
                  (consistency_threshold self)))
    else Ok (false, None)
  else Ok (false, None).

Definition HUMAN_REVIEW_RECOMMENDED : string :=
  "⚠️ HUMAN REVIEW RECOMMENDED: This decision shows significant deviation from historical patterns. Please review for potential bias or exceptional circumstances.".

Definition REVIEW_SUGGESTED : string :=
  "ℹ️ REVIEW SUGGESTED: While within acceptable range, this decision shows some variation from typical outcomes. Consider reviewing for consistency.".

Definition CONSISTENT : string :=
  "✓ CONSISTENT: This decision aligns well with historical patterns for similar cases.".

(** [_generate_recommendation] *)
Definition _generate_recommendation (consistency_score : Q)
    (is_anomaly : bool) : string :=
  if is_anomaly then HUMAN_REVIEW_RECOMMENDED
  else if Qltb consistency_score 0.90 then REVIEW_SUGGESTED
  else CONSISTENT.

(** The fields of the fairness report that the scorer computes. *)
Record fairness_report : Type := {
  consistency_score : Q;
  report_threshold : Q;
  meets_threshold : bool;
  anomaly_detected : bool;
  anomaly_reason_of : option fstring;
  similar_cases_count : nat;
  recommendation : string
}.

(** [monitor_fairness], from the similar cases that the database lookup
    returned on.  The echo of the grievance id, the preview of the first
    five cases, the placeholder of [analyze_demographic_parity] and the
    guarded write to the database do not enter these fields. *)
Definition monitor_fairness (self : FairnessService)
    (decision : gmap string value)
    (similar_cases : list (gmap string value)) : result fairness_report :=
  (* Calculate consistency score *)
  let consistency_score :=
    calculate_consistency_score decision similar_cases in
  (* Detect anomaly *)
  let! anomaly :=
    detect_anomaly self consistency_score decision similar_cases in
  let is_anomaly := fst anomaly in
  let anomaly_reason := snd anomaly in
  Ok {| consistency_score := consistency_score;
        report_threshold := consistency_threshold self;
        meets_threshold :=
          Qle_bool (consistency_threshold self) consistency_score;
        anomaly_detected := is_anomaly;
        anomaly_reason_of := anomaly_reason;
        similar_cases_count := length similar_cases;
        recommendation :=
          _generate_recommendation consistency_score is_anomaly |}.

(** The fraction of the cases whose [key] equals [current]. *)
Definition match_ratio (key : string) (current : value)
    (similar_cases : list (gmap string value)) : Q :=
  inject_Z (Z.of_nat
    (length (List.filter (fun case => equal (get case key) current)
               similar_cases)))
  / inject_Z (Z.of_nat (length similar_cases)).

(** [s] is [x] rounded to four decimal places: a multiple of 1/10000 not
    further than half of 1/10000 from [x]. *)
Definition rounded_to_4_places (x s : Q) : Prop :=
  (exists k : Z, s == inject_Z k / 10000)%Q /\
  (Qabs (s - x) <= 1 # 20000)%Q.

(** Inputs used below: a decision or a prior case that has only an
    outcome, and the same with a rule and a tier. *)
Definition with_outcome (o : string) : gmap string value :=
  {[ "outcome" := VStr o ]}.

Definition summary (o rule level : string) : gmap string value :=
  <[ "outcome" := VStr o ]>
    (<[ "applicable_rule" := VStr rule ]>
       {[ "hierarchy_level" := VStr level ]}).

End Fairness.

(** ** The in-memory database ([mock_database_service.py]) *)

Module MockDatabase.
Import Py MockRuleEngine.

(** A Python [dict] with string keys, as its items in insertion order:
    assigning to a stored key replaces the value where it stands, a new
    key goes to the end. *)
Fixpoint dict_set {V} (k : string) (v : V) (d : list (string * V))
  : list (string * V) :=
  match d with
  | [] => [(k, v)]
  | (k', v') :: d' =>
      if String.eqb k' k then (k', v) :: d' else (k', v') :: dict_set k v d'
  end.

(** [d.get(k)] *)
Fixpoint dict_get {V} (k : string) (d : list (string * V)) : option V :=
  match d with
  | [] => None
  | (k', v) :: d' => if String.eqb k' k then Some v else dict_get k d'
  end.

(** [d.values()] *)
Definition dict_values {V} (d : list (string * V)) : list V := map snd d.

(** The dictionary [create_grievance] stores. *)
Record grievance_row : Type := {
  g_id : string;
  g_student_id : string;
  g_grievance_type : string;
  g_narrative : string;
  g_parameters : gmap string value;
  g_status : string;
  g_submitted_at : string;
  g_created_at : string;
  g_updated_at : string
}.

(** The dictionary [create_decision] stores, with the arguments typed as
    the grievance route passes them. *)
Record decision_row : Type := {
  dr_id : string;
  dr_grievance_id : string;
  dr_outcome : string;
  dr_applicable_rule : string;
  dr_regulatory_source : string;
  dr_hierarchy_level : string;
  dr_salience : Z;
  dr_reason : fstring;
  dr_explanation : option fstring;
  dr_action_required : option string;
  dr_human_review_required : bool;
  dr_decided_at : string;
  dr_created_at : string
}.

(** The dictionary [create_rule_trace] stores; the final decision is the
    engine's decision dictionary, to which the route has added the key
    ['id']. *)
Record trace_row : Type := {
  tr_id : string;
  tr_grievance_id : string;
  tr_decision_id : option string;
  tr_rules_evaluated : list rule_entry;
  tr_conflicts_detected : list conflict;
  tr_final_decision : decision * option string;
  tr_processing_time_ms : Z;
  tr_created_at : string
}.

(** The dictionary [create_fairness_check] stores. *)
Record fairness_check_row : Type := {
  fc_id : string;
  fc_grievance_id : string;
  fc_decision_id : option string;
  fc_consistency_score : Q;
  fc_anomaly_detected : bool;
  fc_similar_cases_count : nat;
  fc_recommendation : string;
  fc_created_at : string
}.

(** The four dictionaries of a [MockDatabaseService]. *)
Record db : Type := {
  grievances : list (string * grievance_row);
  decisions : list (string * decision_row);
  rule_traces : list (string * trace_row);
  fairness_checks : list (string * fairness_check_row)
}.

(** [__init__] *)
Definition empty_db : db :=
  {| grievances := []; decisions := []; rule_traces := [];
     fairness_checks := [] |}.

(** [create_grievance]; [uuid] is [str(uuid4())] and [now] is
    [datetime.utcnow().isoformat()]. *)
Definition create_grievance (self : db) (uuid now : string)
    (student_id grievance_type narrative : string)
    (parameters : gmap string value) (status : string) : db * string :=
  let grievance_id := uuid in
  ({| grievances :=
        dict_set grievance_id
          {| g_id := grievance_id;
             g_student_id := student_id;
             g_grievance_type := grievance_type;
             g_narrative := narrative;
             g_parameters := parameters;
             g_status := status;
             g_submitted_at := now;
             g_created_at := now;
             g_updated_at := now |}
          (grievances self);
      decisions := decisions self;
      rule_traces := rule_traces self;
      fairness_checks := fairness_checks self |},
   grievance_id).

(** [get_grievance] *)
Definition get_grievance (self : db) (grievance_id : string)
  : option grievance_row :=
  dict_get grievance_id (grievances self).

(** [update_grievance_status] *)
Definition update_grievance_status (self : db) (now : string)
    (grievance_id status : string) : db :=
  match dict_get grievance_id (grievances self) with
  | Some g =>
      {| grievances :=
           dict_set grievance_id
             {| g_id := g_id g;
                g_student_id := g_student_id g;
                g_grievance_type := g_grievance_type g;
                g_narrative := g_narrative g;
                g_parameters := g_parameters g;
                g_status := status;
                g_submitted_at := g_submitted_at g;
                g_created_at := g_created_at g;
                g_updated_at := now |}
             (grievances self);
         decisions := decisions self;
         rule_traces := rule_traces self;
         fairness_checks := fairness_checks self |}
  | None => self
  end.

(** [create_decision] *)
Definition create_decision (self : db) (uuid now : string)
    (grievance_id outcome applicable_rule regulatory_source
       hierarchy_level : string)
    (salience : Z) (reason : fstring) (explanation : option fstring)
    (action_required : option string) (human_review_required : bool)
  : db * string :=
  let decision_id := uuid in
  ({| grievances := grievances self;
      decisions :=
        dict_set decision_id
          {| dr_id := decision_id;
             dr_grievance_id := grievance_id;
             dr_outcome := outcome;
             dr_applicable_rule := applicable_rule;
             dr_regulatory_source := regulatory_source;
             dr_hierarchy_level := hierarchy_level;
             dr_salience := salience;
             dr_reason := reason;
             dr_explanation := explanation;
             dr_action_required := action_required;
             dr_human_review_required := human_review_required;
             dr_decided_at := now;
             dr_created_at := now |}
          (decisions self);
      rule_traces := rule_traces self;
      fairness_checks := fairness_checks self |},
   decision_id).

(** [get_decision] *)
Definition get_decision (self : db) (decision_id : string)
  : option decision_row :=
  dict_get decision_id (decisions self).

(** [get_decision_by_grievance]: the first stored decision of the
    grievance. *)
Definition get_decision_by_grievance (self : db) (grievance_id : string)
  : option decision_row :=
  List.find (fun decision => String.eqb (dr_grievance_id decision) grievance_id)
    (dict_values (decisions self)).

(** [create_rule_trace] *)
Definition create_rule_trace (self : db) (uuid now : string)
    (grievance_id : string) (decision_id : option string)
    (rules_evaluated : list rule_entry)
    (conflicts_detected : list conflict)
    (final_decision : decision * option string)
    (processing_time_ms : Z) : db * string :=
  let trace_id := uuid in
  ({| grievances := grievances self;
      decisions := decisions self;
      rule_traces :=
        dict_set trace_id
          {| tr_id := trace_id;
             tr_grievance_id := grievance_id;
             tr_decision_id := decision_id;
             tr_rules_evaluated := rules_evaluated;
             tr_conflicts_detected := conflicts_detected;
             tr_final_decision := final_decision;
             tr_processing_time_ms := processing_time_ms;
             tr_created_at := now |}
          (rule_traces self);
      fairness_checks := fairness_checks self |},
   trace_id).

(** [get_rule_trace] and [get_rule_trace_by_grievance] *)
Definition get_rule_trace (self : db) (trace_id : string)
  : option trace_row :=
  dict_get trace_id (rule_traces self).

Definition get_rule_trace_by_grievance (self : db) (grievance_id : string)
  : option trace_row :=
  List.find (fun trace => String.eqb (tr_grievance_id trace) grievance_id)
    (dict_values (rule_traces self)).

(** A dictionary that [find_similar_cases] builds. *)
Record similar_case : Type := {
  sc_grievance_id : string;
  sc_outcome : string;
  sc_applicable_rule : string;
  sc_hierarchy_level : string;
  sc_parameters : gmap string value
}.

(** [l[:limit]]: the first [limit] elements, and for a negative [limit]
    all but the last [-limit]. *)
Definition slice_to {A} (l : list A) (limit : Z) : list A :=
  if (0 <=? limit)%Z then firstn (Z.to_nat limit) l
  else firstn (length l - Z.to_nat (- limit)) l.

(** The loop of [find_similar_cases] over [self.grievances.items()]. *)
Definition similar_of (self : db) (grievance_type : string)
    (items : list (string * grievance_row)) : list similar_case :=
  flat_map
    (fun item =>
       let grievance_id := fst item in
       let grievance := snd item in
       if String.eqb (g_grievance_type grievance) grievance_type then
         match get_decision_by_grievance self grievance_id with
         | Some decision =>
             [ {| sc_grievance_id := grievance_id;
                  sc_outcome := dr_outcome decision;
                  sc_applicable_rule := dr_applicable_rule decision;
                  sc_hierarchy_level := dr_hierarchy_level decision;
                  sc_parameters := g_parameters grievance |} ]
         | None => []
         end
       else [])
    items.

(** [find_similar_cases] *)
Definition find_similar_cases (self : db) (grievance_type : string)
    (parameters : gmap string value) (limit : Z) : list similar_case :=
  let similar := similar_of self grievance_type (grievances self) in
  slice_to similar limit.

(** An argument passed by keyword to [create_fairness_check]. *)
Inductive argument : Type :=
| AStr (s : string)
| AOptStr (s : option string)
| ANum (q : Q)
| ABool (b : bool)
| ANat (n : nat)
| ACases (cases : list similar_case)
| ADict (d : gmap string value).

(** The parameters of [create_fairness_check], none of them with a
    default. *)
Definition create_fairness_check_parameters : list string :=
  [ "grievance_id"; "decision_id"; "consistency_score"; "anomaly_detected";
    "similar_cases_count"; "recommendation" ].

Definition keyword (name : string) (kwargs : list (string * argument))
  : option argument :=
  dict_get name kwargs.

(** [create_fairness_check] called with keyword arguments: the call
    raises [TypeError] on a keyword that is no parameter and on a
    parameter without an argument; otherwise the record is stored. *)
Definition create_fairness_check (self : db) (uuid now : string)
    (kwargs : list (string * argument)) : result (db * string) :=
  if forallb
       (fun name => existsb (String.eqb name) create_fairness_check_parameters)
       (map fst kwargs)
  then
    match keyword "grievance_id" kwargs, keyword "decision_id" kwargs,
          keyword "consistency_score" kwargs,
          keyword "anomaly_detected" kwargs,
          keyword "similar_cases_count" kwargs,
          keyword "recommendation" kwargs with
    | Some (AStr grievance_id), Some (AOptStr decision_id),
      Some (ANum consistency_score), Some (ABool anomaly_detected),
      Some (ANat similar_cases_count), Some (AStr recommendation) =>
        let check_id := uuid in
        Ok ({| grievances := grievances self;
               decisions := decisions self;
               rule_traces := rule_traces self;
               fairness_checks :=
                 dict_set check_id
                   {| fc_id := check_id;
                      fc_grievance_id := grievance_id;
                      fc_decision_id := decision_id;
                      fc_consistency_score := consistency_score;
                      fc_anomaly_detected := anomaly_detected;
                      fc_similar_cases_count := similar_cases_count;
                      fc_recommendation := recommendation;
                      fc_created_at := now |}
                   (fairness_checks self) |},
            check_id)
    | _, _, _, _, _, _ => Raise TypeError
    end
  else Raise TypeError.

End MockDatabase.

(** ** The fairness monitor on the in-memory database, and the route
    that submits a grievance ([api/routes/grievances.py]) *)

Module GrievanceRoute.
Import Py MockRuleEngine MockDatabase.

(** A similar case as the scorer reads it: the scorer looks up
    ['outcome'], ['applicable_rule'] and ['hierarchy_level'], and the
    report ['grievance_id']; the nested ['parameters'] are read by
    nobody. *)
Definition case_dict (case : similar_case) : gmap string value :=
  <[ "grievance_id" := VStr (sc_grievance_id case) ]>
    (<[ "outcome" := VStr (sc_outcome case) ]>
       (<[ "applicable_rule" := VStr (sc_applicable_rule case) ]>
          {[ "hierarchy_level" := VStr (sc_hierarchy_level case) ]})).

(** The engine's decision dictionary after the route has set ['id'], with
    its scalar entries; the two rendered texts are left out. *)
Definition decision_dict (d : decision) (decision_id : string)
  : gmap string value :=
  <[ "id" := VStr decision_id ]>
    (<[ "outcome" := VStr (d_outcome d) ]>
       (<[ "applicable_rule" := VStr (applicable_rule d) ]>
          (<[ "regulatory_source" := VStr (regulatory_source d) ]>
             (<[ "hierarchy_level" := VStr (d_hierarchy_level d) ]>
                (<[ "salience" := VNum (inject_Z (d_salience d)) ]>
                   (<[ "action_required" :=
                         match action_required d with
                         | Some a => VStr a
                         | None => VNone
                         end ]>
                      {[ "human_review_required" :=
                           VBool (human_review_required d) ]})))))).

(** [analyze_demographic_parity]: a placeholder. *)
Definition analyze_demographic_parity (grievance_type : string)
    (student_category : value) : gmap string value :=
  <[ "grievance_type" := VStr grievance_type ]>
    (<[ "student_category" := student_category ]>
       (<[ "analysis" :=
             VStr "Demographic parity analysis requires historical demographic data" ]>
          (<[ "parity_score" := VNone ]>
             {[ "recommendation" :=
                  VStr "Collect demographic data for comprehensive fairness monitoring" ]}))).

(** [FairnessService.monitor_fairness] on the in-memory database: the
    cases come from [find_similar_cases] with [limit=10], the report is
    computed from them, and the write of the check is guarded: whatever it
    raises is logged and the report is returned.  ([UUID(...)] of the
    decision id is built, or raises, inside the same guard.) *)
Definition monitor_fairness (self : Fairness.FairnessService)
    (database : db) (uuid now : string) (grievance_id : string)
    (decision : gmap string value) (grievance_type : string)
    (parameters : gmap string value)
  : result (db * Fairness.fairness_report) :=
  (* Find similar historical cases *)
  let similar_cases :=
    find_similar_cases database grievance_type parameters 10 in
  let! report :=
    Fairness.monitor_fairness self decision (map case_dict similar_cases) in
  let demographic_parity :=
    analyze_demographic_parity grievance_type
      (get parameters "student_category") in
  (* Store fairness check in database *)
  let stored :=
    create_fairness_check database uuid now
      [ ("grievance_id", AStr grievance_id);
        ("decision_id",
         AOptStr (match get decision "id" with
                  | VStr id => if truthy (VStr id) then Some id else None
                  | _ => None
                  end));
        ("similar_cases", ACases similar_cases);
        ("consistency_score", ANum (Fairness.consistency_score report));
        ("anomaly_detected", ABool (Fairness.anomaly_detected report));
        ("demographic_parity", ADict demographic_parity) ] in
  match stored with
  | Ok (database', _) => Ok (database', report)
  | Raise _ => Ok (database, report)
  end.

(** The body of a [GrievanceCreate] request. *)
Record payload : Type := {
  p_student_id : string;
  p_grievance_type : string;
  p_narrative : string;
  p_parameters : gmap string value
}.

(** What [detect_ambiguity] returned; it catches its own errors. *)
Record ambiguity_report : Type := {
  ambiguous_terms : list string;
  requires_human_review : bool;
  clarification_questions : list string
}.

(** The identifiers and clock readings one request draws. *)
Record draws : Type := {
  uuid_grievance : string;
  now_grievance : string;
  start_time : Q;
  end_time : Q;
  uuid_decision : string;
  now_decision : string;
  uuid_trace : string;
  now_trace : string;
  uuid_check : string;
  now_check : string;
  now_update : string
}.

(** The response of a successful submission. *)
Record response : Type := {
  success : bool;
  message : string;
  r_grievance_id : string;
  r_decision : decision * option string;
  r_trace_id : string;
  r_rules_fired : nat;
  r_conflicts_detected : nat;
  r_processing_time_ms : Z;
  r_requires_human_review : bool;
  r_ambiguous_terms_count : nat;
  r_clarification_questions : list string;
  r_fairness : option Fairness.fairness_report
}.

Inductive http : Type :=
| Created (r : response)
| InternalServerError.

(** [submit_grievance] with the mock engine and the in-memory database.
    An exception at any step becomes the 500 response, and what was
    stored before stays stored.  The engine's decision dictionary is
    never empty, so the branches on it are the taken ones. *)
Definition submit_grievance (fairness_service : Fairness.FairnessService)
    (database : db) (draw : draws) (ambiguity : ambiguity_report)
    (grievance : payload) : db * http :=
  (* Step 1: Create grievance in database *)
  let '(db1, grievance_id) :=
    create_grievance database (uuid_grievance draw) (now_grievance draw)
      (p_student_id grievance) (p_grievance_type grievance)
      (p_narrative grievance) (p_parameters grievance) "PENDING" in
  (* Step 3: Evaluate using rule engine *)
  match evaluate_grievance (start_time draw) (end_time draw)
          {| grievance_type := Some (p_grievance_type grievance);
             parameters := Some (p_parameters grievance) |} with
  | Raise _ => (db1, InternalServerError)
  | Ok evaluation_result =>
      let decision_data := ev_decision evaluation_result in
      let trace_data := ev_trace evaluation_result in
      (* Step 4: Store decision *)
      let '(db2, decision_id) :=
        create_decision db1 (uuid_decision draw) (now_decision draw)
          grievance_id (d_outcome decision_data)
          (applicable_rule decision_data) (regulatory_source decision_data)
          (d_hierarchy_level decision_data) (d_salience decision_data)
          (reason decision_data) (Some (explanation decision_data))
          (action_required decision_data)
          (human_review_required decision_data
           || requires_human_review ambiguity) in
      (* Step 5: Store rule trace *)
      let '(db3, trace_id) :=
        create_rule_trace db2 (uuid_trace draw) (now_trace draw)
          grievance_id (Some decision_id)
          (rules_evaluated trace_data) (conflicts_detected trace_data)
          (final_decision trace_data, Some decision_id)
          (default 0%Z (processing_time_ms trace_data)) in
      (* Step 6: Monitor fairness *)
      match monitor_fairness fairness_service db3 (uuid_check draw)
              (now_check draw) grievance_id
              (decision_dict decision_data decision_id)
              (p_grievance_type grievance) (p_parameters grievance) with
      | Raise _ => (db3, InternalServerError)
      | Ok (db4, fairness_report) =>
          (* Step 7: Update grievance status *)
          let db5 :=
            update_grievance_status db4 (now_update draw) grievance_id
              "RESOLVED" in
          (db5,
           Created
             {| success := true;
                message := "Grievance evaluated successfully";
                r_grievance_id := grievance_id;
                r_decision := (decision_data, Some decision_id);
                r_trace_id := trace_id;
                r_rules_fired := rules_fired evaluation_result;
                r_conflicts_detected :=
                  length (conflicts_detected trace_data);
                r_processing_time_ms :=
                  default 0%Z (processing_time_ms trace_data);
                r_requires_human_review := requires_human_review ambiguity;
                r_ambiguous_terms_count := length (ambiguous_terms ambiguity);
                r_clarification_questions :=
                  clarification_questions ambiguity;
                r_fairness := Some fairness_report |})
      end
  end.

(** One stored grievance with its decision, for the examples below. *)
Definition sample_draws : draws := {|
  uuid_grievance := "g-1"; now_grievance := "2024-02-01T10:00:00";
  start_time := 0; end_time := 0.004;
  uuid_decision := "d-1"; now_decision := "2024-02-01T10:00:01";
  uuid_trace := "t-1"; now_trace := "2024-02-01T10:00:02";
  uuid_check := "c-1"; now_check := "2024-02-01T10:00:03";
  now_update := "2024-02-01T10:00:04"
|}.

Definition no_ambiguity : ambiguity_report := {|
  ambiguous_terms := [];
  requires_human_review := false;
  clarification_questions := []
|}.

Definition ambiguous : ambiguity_report := {|
  ambiguous_terms := ["reasonable"];
  requires_human_review := true;
  clarification_questions := ["What counts as reasonable?"]
|}.

Definition attendance_70 : payload := {|
  p_student_id := "STU2024001";
  p_grievance_type := "ATTENDANCE_SHORTAGE";
  p_narrative := "I was absent due to medical reasons";
  p_parameters := {[ "attendance_percentage" := VNum 70 ]}
|}.

Definition attendance_not_a_number : payload := {|
  p_student_id := "STU2024001";
  p_grievance_type := "ATTENDANCE_SHORTAGE";
  p_narrative := "I was absent due to medical reasons";
  p_parameters := {[ "attendance_percentage" := VStr "seventy" ]}
|}.

End GrievanceRoute.

(** ** Facts about comparison and rounding *)

Module PyFacts.
Import Py.

Lemma Qltb_lt (x y : Q) : Qltb x y = true <-> (x < y)%Q.
Proof.
  unfold Qltb. rewrite negb_true_iff, <- not_true_iff_false, Qle_bool_iff.
  split; [apply Qnot_le_lt | apply Qlt_not_le].
Qed.

Lemma Qltb_ge (x y : Q) : Qltb x y = false <-> (y <= x)%Q.
Proof.
  unfold Qltb. rewrite negb_false_iff. apply Qle_bool_iff.
Qed.

(** [round_half_even y] is an integer nearest to [y]. *)
Lemma round_half_even_near (y : Q) :
  (Qabs (inject_Z (round_half_even y) - y) <= 1 # 2)%Q.
Proof.
  unfold round_half_even.
  pose proof (Qfloor_le y) as Hlo. pose proof (Qlt_floor y) as Hhi.
  rewrite inject_Z_plus in Hhi. change (inject_Z 1) with 1%Q in Hhi.
  apply Qabs_Qle_condition.
  destruct (Qcompare_spec (y - inject_Z (Qfloor y)) (1 # 2)) as [H | H | H].
  - destruct (Z.even (Qfloor y)).
    + split; lra.
    + rewrite inject_Z_plus. change (inject_Z 1) with 1%Q. split; lra.
  - split; lra.
  - rewrite inject_Z_plus. change (inject_Z 1) with 1%Q. split; lra.
Qed.

(** It stays within integer bounds that [y] respects. *)
Lemma round_half_even_bounds (y : Q) (N : Z) :
  (0 <= y)%Q -> (y <= inject_Z N)%Q ->
  (0 <= round_half_even y <= N)%Z.
Proof.
  intros H0 HN. unfold round_half_even.
  assert (Hf0 : (0 <= Qfloor y)%Z).
  { change 0%Z with (Qfloor 0). apply Qfloor_resp_le, H0. }
  assert (HfN : (Qfloor y <= N)%Z).
  { rewrite <- (Qfloor_Z N). apply Qfloor_resp_le, HN. }
  destruct (Qcompare_spec (y - inject_Z (Qfloor y)) (1 # 2)) as [H | H | H].
  - destruct (Z.even (Qfloor y)); [lia|].
    destruct (Z.eq_dec (Qfloor y) N) as [E | E]; [|lia].
    rewrite E in H. lra.
  - lia.
  - destruct (Z.eq_dec (Qfloor y) N) as [E | E]; [|lia].
    rewrite E in H. lra.
Qed.

End PyFacts.

(** ** Facts about the mock rule engine *)

Module MockRuleEngineFacts.
Import Py MockRuleEngine PyFacts.

(** [_evaluate_attendance] raises exactly when the attendance is not a
    number; otherwise its result is fixed by the two tests below. *)
Lemma _evaluate_attendance_eq (params : gmap string value) :
  let attendance := get_or params "attendance_percentage" (VNum 0) in
  let has_medical := get_or params "has_medical_certificate" (VBool false) in
  _evaluate_attendance params =
  match num_of attendance with
  | None => Raise TypeError
  | Some q =>
      let below := Qltb q 75 in
      let medical := truthy has_medical && Qle_bool 65 q in
      let d := if below then attendance_reject attendance
               else attendance_accept attendance in
      Ok (d,
          {| rules_evaluated :=
               (if below then [UGC_Attendance_75Percent_Minimum] else []) ++
               (if medical then [University_Medical_Excuse_Attendance]
                else []);
             conflicts_detected :=
               if medical && below then [attendance_conflict] else [];
             final_decision := d;
             processing_time_ms := None |})
  end.
Proof.
  intros attendance has_medical. unfold _evaluate_attendance.
  fold attendance has_medical. unfold lt, ge.
  destruct (num_of attendance) as [q|]; [|reflexivity].
  cbn [bind].
  destruct (truthy has_medical), (Qltb q 75), (Qle_bool 65 q); reflexivity.
Qed.

Lemma _evaluate_examination_single params d t :
  _evaluate_examination params = Ok (d, t) -> single_rule d t.
Proof.
  unfold _evaluate_examination, le, gt.
  destruct (num_of _) as [q|]; [|discriminate]. cbn [bind].
  destruct (Qle_bool q 15 && truthy _), (Qltb 15 q); cbn [bind fst snd];
    intros [= <- <-]; eexists; repeat split.
Qed.

Lemma _evaluate_fee_waiver_single params d t :
  _evaluate_fee_waiver params = Ok (d, t) -> single_rule d t.
Proof.
  unfold _evaluate_fee_waiver, lt.
  destruct (equal _ (VStr "SC") || equal _ (VStr "ST")); cbn [bind].
  - intros [= <- <-]; eexists; repeat split.
  - destruct (equal _ (VStr "EWS")); cbn [bind].
    + destruct (num_of _) as [q|]; [|discriminate]. cbn [bind].
      destruct (Qltb q 800000 && truthy _);
        intros [= <- <-]; eexists; repeat split.
    + intros [= <- <-]; eexists; repeat split.
Qed.

Lemma _default_evaluation_single d t :
  _default_evaluation = Ok (d, t) -> single_rule d t.
Proof.
  unfold _default_evaluation. intros [= <- <-]. eexists; repeat split.
Qed.

Lemma eqb_Some_neq (ty : option string) (s : string) :
  String.eqb (default "" ty) s = false -> ty <> Some s.
Proof.
  intros H ->. cbn in H. rewrite String.eqb_refl in H. discriminate.
Qed.

(** What [evaluate_grievance] returns: the attendance routine for an
    attendance shortage, and one fired rule for every other type. *)
Lemma evaluate_grievance_shape t0 t1 g res :
  evaluate_grievance t0 t1 g = Ok res ->
  let params := default (∅ : gmap string value) (parameters g) in
  let attendance := get_or params "attendance_percentage" (VNum 0) in
  let has_medical := get_or params "has_medical_certificate" (VBool false) in
  final_decision (ev_trace res) = ev_decision res /\
  rules_fired res = length (rules_evaluated (ev_trace res)) /\
  ((grievance_type g = Some "ATTENDANCE_SHORTAGE" /\
    exists q, num_of attendance = Some q /\
      let below := Qltb q 75 in
      let medical := truthy has_medical && Qle_bool 65 q in
      ev_decision res =
        (if below then attendance_reject attendance
         else attendance_accept attendance) /\
      rules_evaluated (ev_trace res) =
        (if below then [UGC_Attendance_75Percent_Minimum] else []) ++
        (if medical then [University_Medical_Excuse_Attendance] else []) /\
      conflicts_detected (ev_trace res) =
        (if medical && below then [attendance_conflict] else []))
   \/
   (grievance_type g <> Some "ATTENDANCE_SHORTAGE" /\
    single_rule (ev_decision res) (ev_trace res))).
Proof.
  intros H params attendance has_medical.
  unfold evaluate_grievance in H. fold params in H.
  destruct (String.eqb (default "" (grievance_type g)) "ATTENDANCE_SHORTAGE")
    eqn:Eatt.
  - apply String.eqb_eq in Eatt.
    assert (Hty : grievance_type g = Some "ATTENDANCE_SHORTAGE").
    { destruct (grievance_type g); cbn in Eatt; [congruence|discriminate]. }
    rewrite _evaluate_attendance_eq in H. fold attendance has_medical in H.
    destruct (num_of attendance) as [q|] eqn:Eq; [|discriminate].
    cbn [bind fst snd] in H. injection H as <-. cbn.
    split; [reflexivity|]. split; [reflexivity|]. left.
    split; [exact Hty|]. exists q. repeat split.
  - apply eqb_Some_neq in Eatt.
    assert (Hsingle : forall d t r,
      r = Ok (d, t) -> single_rule d t ->
      (let! dt := r in
       Ok {| ev_decision := fst dt;
             ev_trace :=
               {| rules_evaluated := rules_evaluated (snd dt);
                  conflicts_detected := conflicts_detected (snd dt);
                  final_decision := final_decision (snd dt);
                  processing_time_ms :=
                    Some (int_of ((t1 - t0) * 1000)) |};
             rules_fired := length (rules_evaluated (snd dt)) |}) = Ok res ->
      final_decision (ev_trace res) = ev_decision res /\
      rules_fired res = length (rules_evaluated (ev_trace res)) /\
      single_rule (ev_decision res) (ev_trace res)).
    { intros d t r -> (e & He1 & He2 & He3 & He4 & He5) [= <-]. cbn.
      split; [exact He4|]. split; [reflexivity|].
      exists e. cbn. tauto. }
    assert (Hgoal : final_decision (ev_trace res) = ev_decision res /\
      rules_fired res = length (rules_evaluated (ev_trace res)) /\
      single_rule (ev_decision res) (ev_trace res)).
    { destruct (String.eqb _ "EXAMINATION_REEVAL").
      - destruct (_evaluate_examination params) as [[d t]|] eqn:E;
          [|discriminate].
        apply (Hsingle d t (Ok (d, t)));
          [reflexivity | eauto using _evaluate_examination_single | exact H].
      - destruct (String.eqb _ "FEE_WAIVER").
        + destruct (_evaluate_fee_waiver params) as [[d t]|] eqn:E;
            [|discriminate].
          apply (Hsingle d t (Ok (d, t)));
            [reflexivity | eauto using _evaluate_fee_waiver_single | exact H].
        + destruct _default_evaluation as [[d t]|] eqn:E; [|discriminate].
          apply (Hsingle d t (Ok (d, t)));
            [reflexivity | eauto using _default_evaluation_single | exact H]. }
    tauto.
Qed.







Lemma evaluate_unknown_type t0 t1 g :
  grievance_type g <> Some "ATTENDANCE_SHORTAGE" ->
  grievance_type g <> Some "EXAMINATION_REEVAL" ->
  grievance_type g <> Some "FEE_WAIVER" ->
  exists d t ms,
    _default_evaluation = Ok (d, t) /\
    evaluate_grievance t0 t1 g =
      Ok {| ev_decision := d;
            ev_trace :=
              {| rules_evaluated := rules_evaluated t;
                 conflicts_detected := conflicts_detected t;
                 final_decision := final_decision t;
                 processing_time_ms := Some ms |};
            rules_fired := length (rules_evaluated t) |}.
Proof.
  intros H1 H2 H3. unfold evaluate_grievance.
  (* an absent type reads as the empty string, which names no routine *)
  assert (Hne : forall s, s <> "" -> grievance_type g <> Some s ->
                String.eqb (default "" (grievance_type g)) s = false).
  { intros s Hs Hty. apply String.eqb_neq. intros Heq.
    destruct (grievance_type g) as [ty|]; cbn in Heq; congruence. }
  rewrite !Hne by (assumption || discriminate).
  do 3 eexists. split; reflexivity.
Qed.

(** C2, as the code has it: no rule fires exactly for an attendance
    shortage on which both tests of the routine are false, [attendance <
    75] and a certificate with [attendance >= 65]; for an attendance that
    is a number this is an attendance of 75 or more without a medical
    certificate.  Such a grievance is accepted, with rule
    [UGC_Attendance_Satisfied], no human review and no conflict.  The
    decision [PENDING_CLARIFICATION] with human review required and no
    conflict is the one of a grievance type the engine does not know, and
    there one rule has fired. *)
Theorem no_rule_fired_decision t0 t1 g res :
  evaluate_grievance t0 t1 g = Ok res ->
  let params := default (∅ : gmap string value) (parameters g) in
  let attendance := get_or params "attendance_percentage" (VNum 0) in
  let has_medical := get_or params "has_medical_certificate" (VBool false) in
  (rules_evaluated (ev_trace res) = [] <->
     grievance_type g = Some "ATTENDANCE_SHORTAGE" /\
     lt attendance 75 = Ok false /\
     (truthy has_medical = false \/ ge attendance 65 = Ok false)) /\
  (forall q, num_of attendance = Some q ->
     (rules_evaluated (ev_trace res) = [] <->
        grievance_type g = Some "ATTENDANCE_SHORTAGE" /\
        (75 <= q)%Q /\ truthy has_medical = false)) /\
  (rules_evaluated (ev_trace res) = [] ->
     grievance_type g = Some "ATTENDANCE_SHORTAGE" /\
     d_outcome (ev_decision res) = "ACCEPT" /\
     applicable_rule (ev_decision res) = "UGC_Attendance_Satisfied" /\
     human_review_required (ev_decision res) = false /\
     conflicts_detected (ev_trace res) = []) /\
  (grievance_type g <> Some "ATTENDANCE_SHORTAGE" ->
   grievance_type g <> Some "EXAMINATION_REEVAL" ->
   grievance_type g <> Some "FEE_WAIVER" ->
     d_outcome (ev_decision res) = "PENDING_CLARIFICATION" /\
     human_review_required (ev_decision res) = true /\
     conflicts_detected (ev_trace res) = [] /\
     rules_evaluated (ev_trace res) = [Default_Review_Required]).
Proof.
  intros H params attendance has_medical.
  destruct (evaluate_grievance_shape _ _ _ _ H) as (_ & _ & Hshape).
  fold params attendance has_medical in Hshape.
  assert (Hempty : forall q, num_of attendance = Some q ->
    (rules_evaluated (ev_trace res) = [] <->
       grievance_type g = Some "ATTENDANCE_SHORTAGE" /\
       Qltb q 75 = false /\ truthy has_medical && Qle_bool 65 q = false)).
  { intros q Hq.
    destruct Hshape as [(Hty & q' & Hq' & Hd & Hr & Hc) | (Hty & e & He & _)].
    - assert (q' = q) as -> by congruence. cbv zeta in Hr. rewrite Hr.
      destruct (Qltb q 75), (truthy has_medical && Qle_bool 65 q); cbn;
        intuition discriminate.
    - rewrite He. intuition discriminate. }
  split; [|split; [|split]].
  - destruct (num_of attendance) as [q|] eqn:Eq.
    + rewrite (Hempty q eq_refl). unfold lt, ge. rewrite Eq.
      destruct (Qltb q 75), (truthy has_medical), (Qle_bool 65 q); cbn;
        intuition congruence.
    + destruct Hshape as [(_ & q & Hq & _) | (Hty & e & He & _)];
        [congruence|]. rewrite He. intuition discriminate.
  - intros q Hq. rewrite (Hempty q Hq).
    destruct (Qltb q 75) eqn:Elt.
    + apply Qltb_lt in Elt.
      assert (Hn : ~ (75 <= q)%Q) by (apply Qlt_not_le, Elt).
      intuition discriminate.
    + apply Qltb_ge in Elt.
      assert (Hle : Qle_bool 65 q = true).
      { apply Qle_bool_iff. apply Qle_trans with (y := 75%Q); [|exact Elt].
        discriminate. }
      rewrite Hle, andb_true_r. tauto.
  - intros Hnil.
    destruct Hshape as [(Hty & q & Hq & Hd & Hr & Hc) | (Hty & e & He & _)].
    + cbv zeta in Hd, Hr, Hc. rewrite Hr in Hnil.
      destruct (Qltb q 75); [discriminate|].
      destruct (truthy _ && Qle_bool 65 q); [discriminate|].
      rewrite Hd, Hc. repeat split. exact Hty.
    + congruence.
  - intros H1 H2 H3.
    destruct (evaluate_unknown_type t0 t1 g H1 H2 H3)
      as (d & t & ms & [= <- <-] & Heq).
    rewrite Heq in H. injection H as <-. repeat split.
Qed.

Lemma no_rule_fired_decision_witness :
  (exists res,
     evaluate_grievance 0 0 attendance_80 = Ok res /\
     rules_evaluated (ev_trace res) = [] /\
     d_outcome (ev_decision res) = "ACCEPT" /\
     human_review_required (ev_decision res) = false) /\
  (exists res,
     evaluate_grievance 0 0 attendance_68_5_medical = Ok res /\
     rules_evaluated (ev_trace res) <> []) /\
  (exists res,
     evaluate_grievance 0 0 grade_appeal = Ok res /\
     d_outcome (ev_decision res) = "PENDING_CLARIFICATION" /\
     human_review_required (ev_decision res) = true).
Proof.
  split; [|split].
  - eexists. split; [vm_compute; reflexivity|].
    split; [reflexivity|].
    destruct (no_rule_fired_decision 0 0 attendance_80 _ eq_refl)
      as (_ & _ & Hnone & _).
    destruct (Hnone eq_refl) as (_ & Hout & _ & Hhrr & _).
    split; [exact Hout | exact Hhrr].
  - destruct (evaluate_grievance 0 0 attendance_68_5_medical) as [res|e]
      eqn:E; [|vm_compute in E; discriminate].
    exists res. split; [reflexivity|].
    destruct (no_rule_fired_decision 0 0 attendance_68_5_medical res E)
      as (_ & Hnum & _).
    intros Hnil. apply (Hnum 68.5%Q eq_refl) in Hnil.
    destruct Hnil as (_ & Hge & _). vm_compute in Hge. apply Hge. reflexivity.
  - eexists. split; [vm_compute; reflexivity|].
    destruct (no_rule_fired_decision 0 0 grade_appeal _ eq_refl)
      as (_ & _ & _ & Hdflt).
    destruct Hdflt as (Hout & Hhrr & _); [discriminate..|].
    split; [exact Hout | exact Hhrr].
Defined.

(** C2 fails as stated: with an attendance of 80% no rule fires, and the
    decision is ACCEPT without human review. *)
Lemma attendance_80_accepted_without_rule :
  exists res,
    evaluate_grievance 0 0 attendance_80 = Ok res /\
    rules_evaluated (ev_trace res) = [] /\
    d_outcome (ev_decision res) = "ACCEPT" /\
    d_outcome (ev_decision res) <> "PENDING_CLARIFICATION" /\
    human_review_required (ev_decision res) = false.
Proof.
  eexists. split; [vm_compute; reflexivity|].
  repeat split. discriminate.
Qed.

(** C9, as the code has it: a grievance whose type is none of
    ATTENDANCE_SHORTAGE, EXAMINATION_REEVAL and FEE_WAIVER is evaluated
    without an error, and its trace has exactly one entry, the rule
    [Default_Review_Required] with [fired = true]; one rule is counted as
    fired and the decision is PENDING_CLARIFICATION with human review. *)
Theorem unknown_type_fires_default_rule t0 t1 g :
  grievance_type g <> Some "ATTENDANCE_SHORTAGE" ->
  grievance_type g <> Some "EXAMINATION_REEVAL" ->
  grievance_type g <> Some "FEE_WAIVER" ->
  exists res,
    evaluate_grievance t0 t1 g = Ok res /\
    rules_evaluated (ev_trace res) = [Default_Review_Required] /\
    fired Default_Review_Required = true /\
    rules_fired res = 1 /\
    d_outcome (ev_decision res) = "PENDING_CLARIFICATION" /\
    human_review_required (ev_decision res) = true.
Proof.
  intros H1 H2 H3.
  destruct (evaluate_unknown_type t0 t1 g H1 H2 H3)
    as (d & t & ms & [= <- <-] & Heq).
  eexists. split; [exact Heq|]. repeat split.
Qed.

Lemma unknown_type_fires_default_rule_witness :
  exists res,
    evaluate_grievance 0 0 grade_appeal = Ok res /\
    rules_evaluated (ev_trace res) = [Default_Review_Required] /\
    rules_fired res = 1.
Proof.
  destruct (unknown_type_fires_default_rule 0 0 grade_appeal)
    as (res & Hres & Hrules & _ & Hn & _); [discriminate..|].
  exists res. auto.
Defined.

(** C9 fails as stated: for the type GRADE_APPEAL the trace is not
    empty, it holds one entry with [fired = true]. *)
Lemma grade_appeal_has_one_firing :
  exists res e,
    evaluate_grievance 0 0 grade_appeal = Ok res /\
    rules_evaluated (ev_trace res) = [e] /\
    fired e = true /\
    rules_evaluated (ev_trace res) <> [].
Proof.
  do 2 eexists. split; [vm_compute; reflexivity|].
  repeat split. discriminate.
Qed.





(** Two entries with different outcomes occur only when the attendance
    routine fired both of its rules. *)
Lemma disagreement_shape t0 t1 g res e1 e2 :
  evaluate_grievance t0 t1 g = Ok res ->
  In e1 (rules_evaluated (ev_trace res)) ->
  In e2 (rules_evaluated (ev_trace res)) ->
  outcome e1 <> outcome e2 ->
  exists attendance,
    rules_evaluated (ev_trace res) =
      [UGC_Attendance_75Percent_Minimum;
       University_Medical_Excuse_Attendance] /\
    conflicts_detected (ev_trace res) = [attendance_conflict] /\
    ev_decision res = attendance_reject attendance.
Proof.
  intros H H1 H2 Hne.
  destruct (evaluate_grievance_shape _ _ _ _ H) as (_ & _ & Hshape).
  destruct Hshape as [(Hty & q & Hq & Hd & Hr & Hc) | (Hty & e & He & _)].
  - cbv zeta in Hd, Hr, Hc. rewrite Hr in H1, H2. rewrite Hr, Hc, Hd.
    destruct (Qltb q 75), (truthy _ && Qle_bool 65 q); cbn in *;
      try (eexists; repeat split; fail);
      exfalso; intuition (subst; congruence).
  - rewrite He in H1, H2. cbn in H1, H2.
    exfalso; intuition (subst; congruence).
Qed.

(** C4: when two fired rules of different tiers disagree on the outcome,
    the trace records exactly one conflict, of type AUTHORITY_CONFLICT
    and with strategy "Authority Precedence"; its winning rule is a fired
    rule of the highest tier present, and the decision carries that
    rule's outcome, tier and identifier. *)
Theorem authority_conflict_resolved t0 t1 g res e1 e2 :
  evaluate_grievance t0 t1 g = Ok res ->
  In e1 (rules_evaluated (ev_trace res)) ->
  In e2 (rules_evaluated (ev_trace res)) ->
  fired e1 = true -> fired e2 = true ->
  outcome e1 <> outcome e2 ->
  hierarchy_level e1 <> hierarchy_level e2 ->
  exists c w,
    conflicts_detected (ev_trace res) = [c] /\
    c_type c = "AUTHORITY_CONFLICT" /\
    resolution_strategy c = "Authority Precedence" /\
    In w (rules_evaluated (ev_trace res)) /\
    fired w = true /\
    winning_rule c = rule_id w /\
    (forall e, In e (rules_evaluated (ev_trace res)) ->
       tier_rank (hierarchy_level w) <= tier_rank (hierarchy_level e)) /\
    d_outcome (ev_decision res) = outcome w /\
    d_hierarchy_level (ev_decision res) = hierarchy_level w /\
    applicable_rule (ev_decision res) = rule_id w.
Proof.
  intros H H1 H2 _ _ Hout _.
  destruct (disagreement_shape _ _ _ _ _ _ H H1 H2 Hout)
    as (attendance & Hr & Hc & Hd).
  exists attendance_conflict, UGC_Attendance_75Percent_Minimum.
  rewrite Hr, Hc, Hd. repeat split.
  - left. reflexivity.
  - intros e [<- | [<- | []]]; cbn; lia.
Qed.

Lemma authority_conflict_resolved_witness :
  exists res c,
    evaluate_grievance 0 0 attendance_68_5_medical = Ok res /\
    conflicts_detected (ev_trace res) = [c] /\
    c_type c = "AUTHORITY_CONFLICT" /\
    resolution_strategy c = "Authority Precedence" /\
    winning_rule c = "UGC_Attendance_75Percent_Minimum" /\
    d_outcome (ev_decision res) = "REJECT" /\
    d_hierarchy_level (ev_decision res) = "L1_National".
Proof.
  eexists. eexists. split; [vm_compute; reflexivity|].
  destruct (authority_conflict_resolved 0 0 attendance_68_5_medical _
              UGC_Attendance_75Percent_Minimum
              University_Medical_Excuse_Attendance eq_refl)
    as (c & w & Hc & _);
    [ left; reflexivity | right; left; reflexivity | reflexivity
    | reflexivity | discriminate | discriminate | ].
  repeat split.
Defined.

(** C5: a conflict is recorded only when two fired rules disagree on the
    outcome, and whenever all the rules that fired give the same outcome
    the conflicts list is empty, whatever their tiers and saliences. *)
Theorem conflict_only_on_disagreement t0 t1 g res :
  evaluate_grievance t0 t1 g = Ok res ->
  (conflicts_detected (ev_trace res) <> [] ->
     exists e1 e2,
       In e1 (rules_evaluated (ev_trace res)) /\
       In e2 (rules_evaluated (ev_trace res)) /\
       fired e1 = true /\ fired e2 = true /\
       outcome e1 <> outcome e2) /\
  ((forall e1 e2,
      In e1 (rules_evaluated (ev_trace res)) ->
      In e2 (rules_evaluated (ev_trace res)) ->
      fired e1 = true -> fired e2 = true ->
      outcome e1 = outcome e2) ->
   conflicts_detected (ev_trace res) = []).
Proof.
  intros H.
  destruct (evaluate_grievance_shape _ _ _ _ H) as (_ & _ & Hshape).
  destruct Hshape as [(Hty & q & Hq & Hd & Hr & Hc) | (Hty & e & He & Hf & Hc & _)].
  - cbv zeta in Hr, Hc. rewrite Hr, Hc.
    destruct (truthy _ && Qle_bool 65 q), (Qltb q 75); cbn [andb app];
      split; try congruence.
    + intros _. exists UGC_Attendance_75Percent_Minimum,
                       University_Medical_Excuse_Attendance.
      cbn. repeat split; auto; discriminate.
    + intros Hagree. exfalso.
      assert (Heq : outcome UGC_Attendance_75Percent_Minimum =
                    outcome University_Medical_Excuse_Attendance)
        by (apply Hagree; cbn; auto).
      discriminate.
  - rewrite Hc. split; congruence.
Qed.

Lemma conflict_only_on_disagreement_witness :
  (exists res,
     evaluate_grievance 0 0 attendance_68_5_medical = Ok res /\
     exists e1 e2,
       In e1 (rules_evaluated (ev_trace res)) /\
       In e2 (rules_evaluated (ev_trace res)) /\
       fired e1 = true /\ fired e2 = true /\
       outcome e1 <> outcome e2) /\
  (exists res,
     evaluate_grievance 0 0 grade_appeal = Ok res /\
     conflicts_detected (ev_trace res) = []).
Proof.
  split; eexists; (split; [vm_compute; reflexivity|]).
  - apply (conflict_only_on_disagreement 0 0 attendance_68_5_medical _ eq_refl).
    discriminate.
  - apply (conflict_only_on_disagreement 0 0 grade_appeal _ eq_refl).
    cbn. intros e1 e2 [<- | []] [<- | []] _ _. reflexivity.
Defined.

End MockRuleEngineFacts.


(** ** Facts about the counter *)

Module CounterFacts.
Import Counter.
Section WithKey.
Context {K : Type} (eqb : K -> K -> bool).
Hypothesis eqb_refl : forall x, eqb x x = true.
Hypothesis eqb_sym : forall x y, eqb x y = eqb y x.
Hypothesis eqb_trans :
  forall x y z, eqb x y = true -> eqb y z = true -> eqb x z = true.

Lemma eqb_class a b x : eqb a b = true -> eqb a x = eqb b x.
Proof.
  intros Hab. destruct (eqb a x) eqn:Ea, (eqb b x) eqn:Eb; try reflexivity.
  - rewrite eqb_sym in Hab. rewrite (eqb_trans _ _ _ Hab Ea) in Eb.
    discriminate.
  - rewrite (eqb_trans _ _ _ Hab Eb) in Ea. discriminate.
Qed.

Lemma count_class a b l : eqb a b = true -> count eqb a l = count eqb b l.
Proof.
  intros Hab. induction l as [|x l IH]; cbn; [reflexivity|].
  rewrite (eqb_class _ _ x Hab), IH. reflexivity.
Qed.

Lemma first_index_class a b l :
  eqb a b = true -> first_index eqb a l = first_index eqb b l.
Proof.
  intros Hab. induction l as [|x l IH]; cbn; [reflexivity|].
  rewrite (eqb_class _ _ x Hab), IH. reflexivity.
Qed.

Lemma count_app k l l' :
  count eqb k (l ++ l') = count eqb k l + count eqb k l'.
Proof. induction l as [|x l IH]; cbn; [reflexivity|]. rewrite IH. lia. Qed.

Lemma count_none k l :
  (forall y, In y l -> eqb k y = false) -> count eqb k l = 0.
Proof.
  induction l as [|x l IH]; cbn; intros H; [reflexivity|].
  rewrite (H x) by auto. rewrite IH by auto. reflexivity.
Qed.

Lemma first_index_le k l : first_index eqb k l <= length l.
Proof. induction l as [|x l IH]; cbn; [lia|]. destruct (eqb k x); lia. Qed.

Lemma first_index_none k l :
  (forall y, In y l -> eqb k y = false) -> first_index eqb k l = length l.
Proof.
  induction l as [|x l IH]; cbn; intros H; [reflexivity|].
  rewrite (H x) by auto. rewrite IH by auto. reflexivity.
Qed.

Lemma first_index_app_l k l l' :
  first_index eqb k l < length l ->
  first_index eqb k (l ++ l') = first_index eqb k l.
Proof.
  induction l as [|x l IH]; cbn; [lia|].
  destruct (eqb k x); [reflexivity|]. intros H. rewrite IH by lia.
  reflexivity.
Qed.

Lemma first_index_app_r k l l' :
  (forall y, In y l -> eqb k y = false) ->
  first_index eqb k (l ++ l') = length l + first_index eqb k l'.
Proof.
  induction l as [|x l IH]; cbn; intros H; [reflexivity|].
  rewrite (H x) by auto. rewrite IH by auto. reflexivity.
Qed.

Lemma nth_first_index_lt k l :
  nth_error l (first_index eqb k l) = Some k ->
  first_index eqb k l < length l.
Proof. intros H. apply nth_error_Some. congruence. Qed.

(** *** [incr] keeps the invariant *)

Lemma incr_keeps_key x c k n :
  In (k, n) c -> exists n', In (k, n') (incr eqb x c).
Proof.
  induction c as [|[k0 n0] c IH]; cbn; [tauto|].
  intros [[= -> ->] | Hin].
  - destruct (eqb k x); eexists; left; reflexivity.
  - destruct (IH Hin) as [n' Hn']. destruct (eqb k0 x).
    + exists n. right. exact Hin.
    + exists n'. right. exact Hn'.
Qed.

Lemma incr_covers x c :
  exists k n, In (k, n) (incr eqb x c) /\ eqb k x = true.
Proof.
  induction c as [|[k0 n0] c (k & n & Hin & Hk)]; cbn.
  - exists x, 1. split; [left; reflexivity | apply eqb_refl].
  - destruct (eqb k0 x) eqn:E.
    + exists k0, (S n0). split; [left; reflexivity | exact E].
    + exists k, n. split; [right; exact Hin | exact Hk].
Qed.

Lemma incr_keys x c :
  map fst (incr eqb x c) = map fst c \/
  (map fst (incr eqb x c) = map fst c ++ [x] /\
   forall p, In p c -> eqb (fst p) x = false).
Proof.
  induction c as [|[k0 n0] c IH]; cbn.
  - right. split; [reflexivity | tauto].
  - destruct (eqb k0 x) eqn:E; cbn; [left; reflexivity|].
    destruct IH as [-> | [-> Hno]]; [left; reflexivity|].
    right. split; [reflexivity|]. intros p [<- | Hp]; auto.
Qed.

Lemma incr_items l x c :
  StronglySorted
    (fun a b => first_index eqb a l < first_index eqb b l) (map fst c) ->
  forall k' n', In (k', n') (incr eqb x c) ->
    (exists n, In (k', n) c /\ n' = n + (if eqb k' x then 1 else 0)) \/
    ((k', n') = (x, 1) /\ forall p, In p c -> eqb (fst p) x = false).
Proof.
  induction c as [|[k0 n0] c IH]; cbn; intros Hs k' n'.
  - intros [[= <- <-] | []]. right. split; [reflexivity | tauto].
  - apply StronglySorted_inv in Hs as [Hs Hall].
    rewrite List.Forall_forall in Hall.
    destruct (eqb k0 x) eqn:E; cbn.
    + intros [[= <- <-] | Hin]; left.
      * exists n0. rewrite E. split; [auto | lia].
      * exists n'. split; [auto|].
        destruct (eqb k' x) eqn:E'; [exfalso | lia].
        assert (Hlt : first_index eqb k0 l < first_index eqb k' l).
        { apply Hall. apply in_map_iff. exists (k', n'). auto. }
        rewrite eqb_sym in E'.
        rewrite (first_index_class k0 k' l) in Hlt; [lia | eauto].
    + intros [[= <- <-] | Hin].
      * left. exists n0. rewrite E. split; [auto | lia].
      * destruct (IH Hs _ _ Hin) as [(n & Hn & ->) | [Heq Hno]].
        -- left. exists n. auto.
        -- right. split; [exact Heq|]. intros p [<- | Hp]; auto.
Qed.

Lemma sorted_snoc (R : K -> K -> Prop) ks x :
  StronglySorted R ks -> (forall k, In k ks -> R k x) ->
  StronglySorted R (ks ++ [x]).
Proof.
  induction 1 as [|k ks Hs IH Hall]; cbn; intros Hx.
  - repeat constructor.
  - constructor; [apply IH; auto|].
    apply Forall_app. split; [exact Hall|]. repeat constructor. auto.
Qed.

Lemma sorted_transfer (R R' : K -> K -> Prop) ks :
  StronglySorted R ks ->
  (forall a b, In a ks -> In b ks -> R a b -> R' a b) ->
  StronglySorted R' ks.
Proof.
  induction 1 as [|k ks Hs IH Hall]; intros HR; constructor.
  - apply IH. intros a b Ha Hb. apply HR; right; assumption.
  - rewrite List.Forall_forall in *. intros b Hb.
    apply HR; [left; reflexivity | right; exact Hb | auto].
Qed.

Lemma represents_incr l x c :
  represents eqb l c -> represents eqb (l ++ [x]) (incr eqb x c).
Proof.
  intros (Hitems & Hcover & Hsorted).
  assert (Hfresh : (forall p, In p c -> eqb (fst p) x = false) ->
                   forall y, In y l -> eqb x y = false).
  { intros Hno y Hy. destruct (Hcover y Hy) as (k & n & Hin & Hk).
    destruct (eqb x y) eqn:E; [|reflexivity].
    rewrite eqb_sym in E. rewrite <- (Hno _ Hin). cbn.
    symmetry. eauto. }
  assert (Hold : forall k n, In (k, n) c ->
            first_index eqb k (l ++ [x]) = first_index eqb k l /\
            first_index eqb k l < length l).
  { intros k n Hin. destruct (Hitems k n Hin) as [_ Hnth].
    apply nth_first_index_lt in Hnth.
    split; [apply first_index_app_l|]; exact Hnth. }
  assert (Hkeys : StronglySorted
    (fun a b => first_index eqb a (l ++ [x]) < first_index eqb b (l ++ [x]))
    (map fst c)).
  { apply (sorted_transfer _ _ _ Hsorted). intros a b Ha Hb Hab.
    apply in_map_iff in Ha as ([a' na] & <- & Ha).
    apply in_map_iff in Hb as ([b' nb] & <- & Hb). cbn in *.
    destruct (Hold _ _ Ha) as [-> _]. destruct (Hold _ _ Hb) as [-> _].
    exact Hab. }
  split; [|split].
  - intros k n H.
    destruct (incr_items l x c Hsorted k n H)
      as [(n0 & Hin & ->) | [[= -> ->] Hno]].
    + destruct (Hitems _ _ Hin) as [-> Hnth].
      destruct (Hold _ _ Hin) as [-> Hlt].
      rewrite count_app, nth_error_app1 by exact Hlt. cbn.
      split; [lia | exact Hnth].
    + rewrite count_app, (count_none _ _ (Hfresh Hno)).
      rewrite (first_index_app_r _ _ _ (Hfresh Hno)). cbn.
      rewrite eqb_refl, nth_error_app2 by lia.
      replace (length l + 0 - length l) with 0 by lia.
      split; reflexivity.
  - intros y Hy. apply in_app_iff in Hy as [Hy | [<- | []]].
    + destruct (Hcover y Hy) as (k & n & Hin & Hk).
      destruct (incr_keeps_key x c k n Hin) as [n' Hn']. eauto.
    + apply incr_covers.
  - destruct (incr_keys x c) as [-> | [-> Hno]]; [exact Hkeys|].
    apply sorted_snoc; [exact Hkeys|].
    intros k Hk. apply in_map_iff in Hk as ([k' nk] & <- & Hk). cbn.
    destruct (Hold _ _ Hk) as [-> Hlt].
    rewrite (first_index_app_r _ _ _ (Hfresh Hno)). lia.
Qed.

Lemma represents_fold l2 : forall l1 c,
  represents eqb l1 c ->
  represents eqb (l1 ++ l2) (fold_left (fun c k => incr eqb k c) l2 c).
Proof.
  induction l2 as [|x l2 IH]; cbn; intros l1 c H.
  - rewrite app_nil_r. exact H.
  - replace (l1 ++ x :: l2) with ((l1 ++ [x]) ++ l2)
      by (rewrite <- app_assoc; reflexivity).
    apply IH, represents_incr, H.
Qed.

(** [Counter(l)] holds the counts of [l]. *)
Lemma Counter_represents l : represents eqb l (Counter eqb l).
Proof.
  apply (represents_fold l [] []). split; [|split]; cbn; try tauto.
  constructor.
Qed.

(** *** The item [most_common(1)] picks *)

Lemma max_from_split (items : list (K * nat)) : forall best : K * nat,
  exists c1 c2 : list (K * nat),
    best :: items = c1 ++ max_from best items :: c2 /\
    (forall p, In p c1 -> snd p < snd (max_from best items)) /\
    (forall p, In p c2 -> snd p <= snd (max_from best items)).
Proof.
  induction items as [|it rest IH]; intros best; cbn [max_from].
  - exists [], []. repeat split; cbn; tauto.
  - destruct (Nat.ltb_spec (snd best) (snd it)) as [Hlt | Hge].
    + destruct (IH it) as (c1 & c2 & Heq & H1 & H2).
      exists (best :: c1), c2. cbn. rewrite Heq. repeat split; [|exact H2].
      assert (Hit : snd it <= snd (max_from it rest)).
      { assert (Hin : In it (c1 ++ max_from it rest :: c2))
          by (rewrite <- Heq; left; reflexivity).
        apply in_app_iff in Hin as [Hin | [Hin | Hin]];
          [apply H1 in Hin | rewrite Hin | apply H2 in Hin]; lia. }
      intros p [<- | Hp]; [lia | auto].
    + destruct (IH best) as (c1 & c2 & Heq & H1 & H2).
      destruct c1 as [|b c1]; cbn in Heq; injection Heq as Hb Hrest.
      * exists [], (it :: c2). cbn. rewrite <- Hb, Hrest.
        repeat split; [tauto|]. intros p [<- | Hp]; [lia|].
        apply H2 in Hp. rewrite <- Hb in Hp. exact Hp.
      * subst b. exists (best :: it :: c1), c2.
        split; [cbn; do 2 f_equal; exact Hrest|]. split; [|exact H2].
        assert (Hbest : snd best < snd (max_from best rest))
          by (apply H1; left; reflexivity).
        intros p [<- | [<- | Hp]]; [lia | lia |]. apply H1. right. exact Hp.
Qed.

Lemma sorted_app_inv (R : K -> K -> Prop) ks1 k ks2 :
  StronglySorted R (ks1 ++ k :: ks2) -> forall k', In k' ks2 -> R k k'.
Proof.
  induction ks1 as [|a ks1 IH]; cbn; intros Hs.
  - apply StronglySorted_inv in Hs as [_ Hall].
    rewrite List.Forall_forall in Hall. exact Hall.
  - apply StronglySorted_inv in Hs as [Hs _]. auto.
Qed.

(** [Counter(l).most_common(1)] is the most frequent element of [l] with
    its count, the first encountered among those that occur as often. *)
Lemma most_common_1_spec l :
  l <> [] ->
  exists m n,
    most_common_1 (Counter eqb l) = [(m, n)] /\
    most_frequent_first eqb l m n.
Proof.
  intros Hne. destruct (Counter_represents l) as (Hitems & Hcover & Hsorted).
  destruct (Counter eqb l) as [|it rest] eqn:Ec.
  { destruct l as [|x l]; [congruence|].
    destruct (Hcover x) as (k & n & [] & _). left. reflexivity. }
  cbn [most_common_1].
  destruct (max_from_split rest it) as (c1 & c2 & Heq & H1 & H2).
  destruct (max_from it rest) as [m n] eqn:Em. cbn [snd] in H1, H2.
  exists m, n. split; [reflexivity|].
  assert (Hm : In (m, n) (it :: rest))
    by (rewrite Heq; apply in_app_iff; right; left; reflexivity).
  destruct (Hitems m n Hm) as [Hcount Hnth].
  split; [exact Hnth|]. split; [exact Hcount|].
  intros x Hx. destruct (Hcover x Hx) as (k & nk & Hk & Hkx).
  destruct (Hitems k nk Hk) as [Hnk _].
  rewrite <- (count_class k x l Hkx), <- Hnk.
  rewrite <- (first_index_class k x l Hkx).
  rewrite Heq in Hk, Hsorted.
  apply in_app_iff in Hk as [Hk | [[= <- <-] | Hk]].
  - apply H1 in Hk. cbn in Hk. split; lia.
  - split; lia.
  - split; [apply H2 in Hk; exact Hk|]. intros _.
    rewrite map_app in Hsorted. cbn in Hsorted.
    apply Nat.lt_le_incl.
    apply (sorted_app_inv _ _ _ _ Hsorted k).
    apply in_map_iff. exists (k, nk). auto.
Qed.

(** The most frequent element, first encountered among ties, is unique. *)
Lemma most_frequent_first_unique l m n m' n' :
  most_frequent_first eqb l m n -> most_frequent_first eqb l m' n' ->
  m = m' /\ n = n'.
Proof.
  intros (Hnth & Hn & Hmax) (Hnth' & Hn' & Hmax').
  destruct (Hmax m' (nth_error_In _ _ Hnth')) as [Hle Htie].
  destruct (Hmax' m (nth_error_In _ _ Hnth)) as [Hle' Htie'].
  assert (Heq : n = n') by lia. split; [|exact Heq].
  assert (Hidx : first_index eqb m l = first_index eqb m' l)
    by (apply Nat.le_antisymm; [apply Htie | apply Htie']; lia).
  rewrite Hidx in Hnth. congruence.
Qed.

End WithKey.
End CounterFacts.


(** ** Facts about the fairness service *)

Module FairnessFacts.
Import Py Fairness PyFacts.

Lemma equal_refl (x : value) : equal x x = true.
Proof.
  destruct x as [|[]|q|s]; cbn; try reflexivity.
  - apply Qeq_bool_refl.
  - apply String.eqb_refl.
Qed.

Lemma equal_sym (x y : value) : equal x y = equal y x.
Proof.
  unfold equal.
  destruct (num_of x) as [p|] eqn:Ex, (num_of y) as [q|] eqn:Ey;
    try reflexivity.
  - destruct (Qeq_bool p q) eqn:E.
    + symmetry. apply Qeq_bool_sym, E.
    + destruct (Qeq_bool q p) eqn:E'; [|reflexivity].
      apply Qeq_bool_sym in E'. congruence.
  - destruct x as [|[]| |], y as [|[]| |]; try reflexivity.
    apply String.eqb_sym.
Qed.

Lemma equal_trans (x y z : value) :
  equal x y = true -> equal y z = true -> equal x z = true.
Proof.
  unfold equal.
  destruct (num_of x) as [p|] eqn:Ex, (num_of y) as [q|] eqn:Ey,
    (num_of z) as [r|] eqn:Ez; try discriminate.
  - apply Qeq_bool_trans.
  - destruct x as [|[]| |], y as [|[]| |], z as [|[]| |];
      try discriminate; try reflexivity.
    rewrite !String.eqb_eq. congruence.
Qed.

(** [Counter(outcomes).most_common(1)] on the outcomes of the cases. *)
Lemma most_common_outcome (outcomes : list value) :
  outcomes <> [] ->
  exists m n,
    Counter.most_common_1 (Counter.Counter equal outcomes) = [(m, n)] /\
    Counter.most_frequent_first equal outcomes m n.
Proof.
  apply (CounterFacts.most_common_1_spec equal);
    [apply equal_refl | apply equal_sym | apply equal_trans].
Qed.

(** C7: for a non-empty list of similar cases [detect_anomaly] returns,
    and it reports an anomaly exactly when the score is strictly below the
    threshold and the current outcome differs from the most frequent
    outcome of the cases, the first encountered among the most frequent
    ones; the reason then formats the current outcome, that majority
    outcome, its count, the number of cases, the score and the threshold,
    and there is no reason otherwise. *)
Theorem anomaly_iff_below_threshold_and_off_majority
    (self : FairnessService) (score : Q)
    (current_decision : gmap string value)
    (similar_cases : list (gmap string value)) :
  similar_cases <> [] ->
  let current := get current_decision "outcome" in
  let outcomes := map (fun case => get case "outcome") similar_cases in
  let threshold := consistency_threshold self in
  exists majority count is_anomaly reason,
    Counter.most_frequent_first equal outcomes majority count /\
    detect_anomaly self score current_decision similar_cases =
      Ok (is_anomaly, reason) /\
    (is_anomaly = true <->
       (score < threshold)%Q /\ equal current majority = false) /\
    (is_anomaly = true ->
       exists text, reason = Some text /\
         In (Fmt current) text /\ In (Fmt majority) text /\
         In (Fmt (vnat count)) text /\
         In (Fmt (vnat (length similar_cases))) text /\
         In (FmtSpec (VNum score) ".3f") text /\
         In (Fmt (VNum threshold)) text) /\
    (is_anomaly = false -> reason = None).
Proof.
  intros Hne current outcomes threshold.
  assert (Hout : outcomes <> []).
  { subst outcomes. destruct similar_cases; [congruence | discriminate]. }
  destruct (most_common_outcome outcomes Hout) as (m & n & Hmc & Hspec).
  exists m, n. unfold detect_anomaly.
  fold current outcomes threshold. rewrite Hmc. cbn [index0 bind fst snd].
  destruct (Qltb score threshold) eqn:Elt.
  - apply Qltb_lt in Elt. destruct (equal current m) eqn:Eeq; cbn [negb].
    + exists false, None. split; [exact Hspec|]. split; [reflexivity|].
      split; [|split].
      * split; [discriminate | intros [_ H]; discriminate].
      * discriminate.
      * reflexivity.
    + exists true, (Some (anomaly_reason current m n (length similar_cases)
                            score threshold)).
      split; [exact Hspec|]. split; [reflexivity|]. split; [|split].
      * split; [intros _; split; [exact Elt | reflexivity] | reflexivity].
      * intros _. eexists. split; [reflexivity|].
        unfold anomaly_reason. cbn. tauto.
      * discriminate.
  - apply Qltb_ge in Elt. exists false, None.
    split; [exact Hspec|]. split; [reflexivity|]. split; [|split].
    + split; [discriminate|].
      intros [H _]. exfalso. apply (Qlt_not_le _ _ H Elt).
    + discriminate.
    + reflexivity.
Qed.

Lemma anomaly_iff_below_threshold_and_off_majority_witness :
  let cases :=
    [with_outcome "REJECT"; with_outcome "REJECT"; with_outcome "REJECT"] in
  exists majority count reason,
    Counter.most_frequent_first equal
      (map (fun case => get case "outcome") cases) majority count /\
    detect_anomaly __init__ 0.3 (with_outcome "ACCEPT") cases =
      Ok (true, reason).
Proof.
  intros cases.
  destruct (anomaly_iff_below_threshold_and_off_majority __init__ 0.3
              (with_outcome "ACCEPT") cases)
    as (m & n & b & r & Hspec & Hres & _); [discriminate|].
  exists m, n, r. split; [exact Hspec|].
  rewrite Hres. vm_compute in Hres. injection Hres as <- _. reflexivity.
Defined.

(** C8: the recommendation is one of three texts.  With an anomaly it is
    the human-review text; without one it is the review-suggested text for
    a score from 0.85 up to, and not including, 0.90, and the consistent
    text for a score of 0.90 or more.  A score below 0.85 without an
    anomaly gets no further text: it gets the review-suggested one. *)
Theorem recommendation_bands (score : Q) (is_anomaly : bool) :
  let r := _generate_recommendation score is_anomaly in
  (is_anomaly = true -> r = HUMAN_REVIEW_RECOMMENDED) /\
  (is_anomaly = false -> (0.85 <= score)%Q -> (score < 0.90)%Q ->
     r = REVIEW_SUGGESTED) /\
  (is_anomaly = false -> (0.90 <= score)%Q -> r = CONSISTENT) /\
  (r = HUMAN_REVIEW_RECOMMENDED \/ r = REVIEW_SUGGESTED \/ r = CONSISTENT) /\
  (is_anomaly = false -> (score < 0.85)%Q -> r = REVIEW_SUGGESTED).
Proof.
  unfold _generate_recommendation. cbv zeta.
  destruct is_anomaly; repeat split; try discriminate; auto.
  - intros _ _ H. apply Qltb_lt in H. rewrite H. reflexivity.
  - intros _ H. apply Qltb_ge in H. rewrite H. reflexivity.
  - destruct (Qltb score 0.90); auto.
  - intros _ H.
    assert (H' : (score < 0.90)%Q)
      by (eapply Qlt_trans; [exact H | reflexivity]).
    apply Qltb_lt in H'. rewrite H'. reflexivity.
Qed.

Lemma recommendation_bands_witness :
  _generate_recommendation 0.3 true = HUMAN_REVIEW_RECOMMENDED /\
  _generate_recommendation 0.87 false = REVIEW_SUGGESTED /\
  _generate_recommendation 0.95 false = CONSISTENT /\
  _generate_recommendation 0.5 false = REVIEW_SUGGESTED.
Proof.
  destruct (recommendation_bands 0.3 true) as (Hhuman & _).
  destruct (recommendation_bands 0.87 false) as (_ & Hreview & _).
  destruct (recommendation_bands 0.95 false) as (_ & _ & Hconsistent & _).
  destruct (recommendation_bands 0.5 false) as (_ & _ & _ & _ & Hlow).
  split; [apply Hhuman; reflexivity|].
  split; [apply Hreview; [reflexivity | discriminate | reflexivity]|].
  split; [apply Hconsistent; [reflexivity | discriminate]|].
  apply Hlow; reflexivity.
Defined.

(** C10: called on an empty list of similar cases with a score strictly
    below the threshold, [detect_anomaly] raises [IndexError] and does not
    return [(False, None)].  [monitor_fairness] does not raise on an empty
    list, because the score it passes on is then 1.0, which is not below
    the threshold of 0.85 (nor below any threshold up to 1); with a
    threshold above 1 it would raise as well. *)
Theorem detect_anomaly_empty_raises
    (self : FairnessService) (score : Q)
    (current_decision : gmap string value) :
  (score < consistency_threshold self)%Q ->
  detect_anomaly self score current_decision [] = Raise IndexError /\
  detect_anomaly self score current_decision [] <> Ok (false, None) /\
  calculate_consistency_score current_decision [] = 1%Q /\
  detect_anomaly __init__ (calculate_consistency_score current_decision [])
    current_decision [] = Ok (false, None) /\
  (exists report,
     monitor_fairness __init__ current_decision [] = Ok report /\
     consistency_score report = 1%Q /\
     anomaly_detected report = false /\
     anomaly_reason_of report = None) /\
  ((1 < consistency_threshold self)%Q ->
     monitor_fairness self current_decision [] = Raise IndexError).
Proof.
  intros Hlt. assert (Hraise :
    detect_anomaly self score current_decision [] = Raise IndexError).
  { unfold detect_anomaly. apply Qltb_lt in Hlt. rewrite Hlt. reflexivity. }
  split; [exact Hraise|]. split; [rewrite Hraise; discriminate|].
  split; [reflexivity|]. split; [reflexivity|].
  split; [eexists; split; [reflexivity|]; repeat split|].
  intros H1. unfold monitor_fairness, detect_anomaly. cbn [calculate_consistency_score].
  apply Qltb_lt in H1. rewrite H1. reflexivity.
Qed.

Lemma detect_anomaly_empty_raises_witness :
  detect_anomaly __init__ 0.3 (with_outcome "ACCEPT") [] = Raise IndexError /\
  exists report,
    monitor_fairness __init__ (with_outcome "ACCEPT") [] = Ok report /\
    anomaly_detected report = false.
Proof.
  destruct (detect_anomaly_empty_raises __init__ 0.3 (with_outcome "ACCEPT"))
    as (Hraise & _ & _ & _ & (report & Hok & _ & Hno & _) & _);
    [reflexivity|].
  split; [exact Hraise|]. exists report. split; [exact Hok | exact Hno].
Defined.

(** The generator sum of [calculate_consistency_score] counts the cases
    that match. *)
Lemma matches_count key current (similar_cases : list (gmap string value)) :
  matches key current similar_cases =
  Z.of_nat (length (List.filter (fun case => equal (get case key) current)
                      similar_cases)).
Proof.
  unfold matches, sum.
  assert (Hacc : forall a : Z,
    fold_left Z.add
      (flat_map (fun case => if equal (get case key) current then [1%Z] else [])
         similar_cases) a =
    (a + Z.of_nat (length (List.filter
                             (fun case => equal (get case key) current)
                             similar_cases)))%Z).
  { induction similar_cases as [|case cases IH]; intros a; cbn [flat_map List.filter].
    - cbn. lia.
    - rewrite fold_left_app, IH.
      destruct (equal (get case key) current); cbn [fold_left length]; lia. }
  apply Hacc.
Qed.

Lemma match_ratio_bounds key current (similar_cases : list (gmap string value)) :
  similar_cases <> [] ->
  (0 <= match_ratio key current similar_cases <= 1)%Q.
Proof.
  intros Hne. unfold match_ratio.
  set (a := length (List.filter _ similar_cases)).
  set (n := length similar_cases).
  assert (Han : a <= n) by apply List.filter_length_le.
  assert (Hn : 0 < n)
    by (subst n; destruct similar_cases; [congruence | cbn; lia]).
  assert (Hpos : (0 < inject_Z (Z.of_nat n))%Q).
  { change 0%Q with (inject_Z 0). rewrite <- Zlt_Qlt. lia. }
  split.
  - apply Qle_shift_div_l; [exact Hpos|]. rewrite Qmult_0_l.
    change 0%Q with (inject_Z 0). rewrite <- Zle_Qle. lia.
  - apply Qle_shift_div_r; [exact Hpos|]. rewrite Qmult_1_l.
    rewrite <- Zle_Qle. lia.
Qed.

(** [round(x, 4)] is [x] rounded to four decimal places. *)
Lemma round_4_places (x : Q) : rounded_to_4_places x (round x 4).
Proof.
  unfold rounded_to_4_places, round.
  change (inject_Z (10 ^ Z.of_nat 4)) with 10000%Q.
  split; [eexists; reflexivity|].
  pose proof (round_half_even_near (x * 10000)) as Hnear.
  apply Qabs_Qle_condition in Hnear. apply Qabs_Qle_condition.
  set (k := inject_Z (round_half_even (x * 10000))) in *.
  assert (Hk : (k / 10000 == k * (1 # 10000))%Q) by reflexivity.
  rewrite Hk. split; lra.
Qed.

Lemma round_4_unit (x : Q) :
  (0 <= x <= 1)%Q -> (0 <= round x 4 <= 1)%Q.
Proof.
  intros [H0 H1]. unfold round.
  change (inject_Z (10 ^ Z.of_nat 4)) with 10000%Q.
  destruct (round_half_even_bounds (x * 10000) 10000) as [Hk0 Hk1].
  { lra. }
  { change (inject_Z 10000) with 10000%Q. lra. }
  rewrite Zle_Qle in Hk0, Hk1.
  change (inject_Z 0) with 0%Q in Hk0.
  change (inject_Z 10000) with 10000%Q in Hk1.
  set (k := inject_Z (round_half_even (x * 10000))) in *.
  assert (Hk : (k / 10000 == k * (1 # 10000))%Q) by reflexivity.
  rewrite Hk. split; lra.
Qed.

(** C6: for an empty list of similar cases the score is exactly 1.0; for a
    non-empty list it is 0.5 times the fraction of cases with the same
    outcome plus 0.3 times the fraction with the same applicable rule plus
    0.2 times the fraction with the same hierarchy level, rounded to four
    decimal places, and it lies in [0, 1]. *)
Theorem consistency_score_weighted_ratios
    (current_decision : gmap string value)
    (similar_cases : list (gmap string value)) :
  calculate_consistency_score current_decision [] = 1%Q /\
  (similar_cases <> [] ->
     let ratio key :=
       match_ratio key (get current_decision key) similar_cases in
     let score := calculate_consistency_score current_decision similar_cases in
     rounded_to_4_places
       (0.5 * ratio "outcome" + 0.3 * ratio "applicable_rule"
        + 0.2 * ratio "hierarchy_level")%Q
       score /\
     (0 <= score <= 1)%Q).
Proof.
  split; [reflexivity|]. intros Hne ratio score.
  assert (Hscore : score =
    round (0.5 * ratio "outcome" + 0.3 * ratio "applicable_rule"
           + 0.2 * ratio "hierarchy_level")%Q 4).
  { subst score ratio. unfold calculate_consistency_score, match_ratio.
    destruct similar_cases as [|case cases]; [congruence|].
    rewrite !matches_count. reflexivity. }
  rewrite Hscore. split; [apply round_4_places|].
  apply round_4_unit.
  pose proof (match_ratio_bounds "outcome"
                (get current_decision "outcome") _ Hne).
  pose proof (match_ratio_bounds "applicable_rule"
                (get current_decision "applicable_rule") _ Hne).
  pose proof (match_ratio_bounds "hierarchy_level"
                (get current_decision "hierarchy_level") _ Hne).
  fold (ratio "outcome") in *. fold (ratio "applicable_rule") in *.
  fold (ratio "hierarchy_level") in *.
  split; lra.
Qed.

Lemma consistency_score_weighted_ratios_witness :
  let d := with_outcome "ACCEPT" in
  let cases :=
    [with_outcome "REJECT"; with_outcome "ACCEPT"; with_outcome "ACCEPT"] in
  let ratio key := match_ratio key (get d key) cases in
  rounded_to_4_places
    (0.5 * ratio "outcome" + 0.3 * ratio "applicable_rule"
     + 0.2 * ratio "hierarchy_level")%Q
    (calculate_consistency_score d cases) /\
  (0 <= calculate_consistency_score d cases <= 1)%Q.
Proof.
  intros d cases.
  apply (consistency_score_weighted_ratios d cases). discriminate.
Defined.

(** Three prior rejections under the same rule and tier: a rejection
    scores 1.0 against them, an acceptance under another rule and tier
    scores 0.0 and is an anomaly. *)
Example three_rejections_agree :
  let prior := summary "REJECT" "UGC_Attendance_75Percent_Minimum"
                 "L1_National" in
  (calculate_consistency_score prior [prior; prior; prior] == 1)%Q.
Proof. vm_compute. reflexivity. Qed.

Example three_rejections_disagree :
  let prior := summary "REJECT" "UGC_Attendance_75Percent_Minimum"
                 "L1_National" in
  let current := summary "ACCEPT" "University_Medical_Excuse_Attendance"
                   "L3_University" in
  (calculate_consistency_score current [prior; prior; prior] == 0)%Q /\
  exists report,
    monitor_fairness __init__ current [prior; prior; prior] = Ok report /\
    anomaly_detected report = true /\
    recommendation report = HUMAN_REVIEW_RECOMMENDED.
Proof.
  split; [vm_compute; reflexivity|].
  eexists. split; [vm_compute; reflexivity|]. split; reflexivity.
Qed.

(** Two outcomes that occur equally often: the one met first is the
    majority, so a current ACCEPT is an anomaly against
    REJECT, ACCEPT, REJECT, ACCEPT and a current REJECT is not. *)
Example tie_goes_to_first_encountered :
  let cases := [with_outcome "REJECT"; with_outcome "ACCEPT";
                with_outcome "REJECT"; with_outcome "ACCEPT"] in
  Counter.most_common_1
    (Counter.Counter equal (map (fun case => get case "outcome") cases))
  = [(VStr "REJECT", 2)] /\
  (exists reason,
     detect_anomaly __init__ 0.3 (with_outcome "ACCEPT") cases =
       Ok (true, Some reason)) /\
  detect_anomaly __init__ 0.3 (with_outcome "REJECT") cases =
    Ok (false, None).
Proof.
  split; [vm_compute; reflexivity|].
  split; [eexists|]; vm_compute; reflexivity.
Qed.

End FairnessFacts.

(** ** Further facts about the mock rule engine: the decision tables,
    the failures and the invariants of a result *)

Module EvaluationFacts.
Import Py MockRuleEngine PyFacts MockRuleEngineFacts.

(** The result of the examination routine, for a number of days. *)
Lemma _evaluate_examination_cases (params : gmap string value) :
  let days_since := get_or params "days_since_result_declaration" (VNum 999) in
  let fee_paid := get_or params "revaluation_fee_paid" (VBool false) in
  match num_of days_since with
  | None => _evaluate_examination params = Raise TypeError
  | Some q =>
      exists d t,
        _evaluate_examination params = Ok (d, t) /\
        d_outcome d =
          (if Qle_bool q 15
           then if truthy fee_paid then "ACCEPT" else "PENDING_CLARIFICATION"
           else "REJECT") /\
        action_required d =
          (if truthy fee_paid then None else Some "Pay revaluation fee") /\
        applicable_rule d = "University_Revaluation_Timeline" /\
        human_review_required d = false
  end.
Proof.
  intros days_since fee_paid. unfold _evaluate_examination, le, gt.
  fold days_since fee_paid.
  destruct (num_of days_since) as [q|]; [|reflexivity].
  cbn [bind]. unfold Qltb.
  destruct (Qle_bool q 15), (truthy fee_paid); cbn;
    do 2 eexists; (split; [reflexivity|]); repeat split.
Qed.

(** X4: on a number of days that is a number other than NaN (an int, a
    bool or a finite float) the examination routine returns: it accepts
    exactly a request within 15 days with the fee paid, rejects exactly a
    request after more than 15 days, and asks for clarification exactly
    within 15 days without the fee; it asks to pay the fee whenever the
    fee is not paid, also on a request it rejects as late. *)
Theorem examination_decision_table (params : gmap string value) (q : Q) :
  let days_since := get_or params "days_since_result_declaration" (VNum 999) in
  let fee_paid := get_or params "revaluation_fee_paid" (VBool false) in
  num_of days_since = Some q ->
  exists d t,
    _evaluate_examination params = Ok (d, t) /\
    (d_outcome d = "ACCEPT" <-> (q <= 15)%Q /\ truthy fee_paid = true) /\
    (d_outcome d = "REJECT" <-> (15 < q)%Q) /\
    (d_outcome d = "PENDING_CLARIFICATION" <->
       (q <= 15)%Q /\ truthy fee_paid = false) /\
    (action_required d = Some "Pay revaluation fee" <->
       truthy fee_paid = false) /\
    (action_required d = None <-> truthy fee_paid = true).
Proof.
  intros days_since fee_paid Hq.
  pose proof (_evaluate_examination_cases params) as H. cbv zeta in H.
  fold days_since fee_paid in H. rewrite Hq in H.
  destruct H as (d & t & Hev & Hout & Hact & _).
  exists d, t. split; [exact Hev|]. rewrite Hout, Hact.
  destruct (Qle_bool q 15) eqn:Ele.
  - apply Qle_bool_iff in Ele.
    assert (Hnlt : ~ (15 < q)%Q) by (apply Qle_not_lt, Ele).
    destruct (truthy fee_paid); intuition congruence.
  - assert (Hlt : (15 < q)%Q).
    { apply Qnot_le_lt. intros Hle. apply Qle_bool_iff in Hle. congruence. }
    assert (Hnle : ~ (q <= 15)%Q) by (apply Qlt_not_le, Hlt).
    destruct (truthy fee_paid); intuition congruence.
Qed.

Lemma examination_decision_table_witness :
  exists d t,
    _evaluate_examination
      (<[ "revaluation_fee_paid" := VBool false ]>
         {[ "days_since_result_declaration" := VNum 16 ]}) = Ok (d, t) /\
    d_outcome d = "REJECT" /\
    action_required d = Some "Pay revaluation fee".
Proof.
  destruct (examination_decision_table
              (<[ "revaluation_fee_paid" := VBool false ]>
                 {[ "days_since_result_declaration" := VNum 16 ]}) 16)
    as (d & t & Hev & _ & Hrej & _ & Hact & _); [reflexivity|].
  exists d, t. split; [exact Hev|].
  split; [apply Hrej; reflexivity | apply Hact; reflexivity].
Defined.

(** The result of the fee waiver routine. *)
Lemma _evaluate_fee_waiver_cases (params : gmap string value) :
  let category := get_or params "student_category" (VStr "GENERAL") in
  let income := get_or params "family_income" (VNum 999999) in
  let has_income_cert := get_or params "has_income_certificate" (VBool false) in
  let verdict (rule level o : string) (s : Z) :=
    exists d t,
      _evaluate_fee_waiver params = Ok (d, t) /\
      d_outcome d = o /\ applicable_rule d = rule /\
      d_hierarchy_level d = level /\ d_salience d = s /\
      human_review_required d = false /\
      action_required d =
        (if negb (truthy has_income_cert) && equal category (VStr "EWS")
         then Some "Submit income certificate" else None) in
  if equal category (VStr "SC") || equal category (VStr "ST") then
    verdict "National_SC_ST_Fee_Waiver" "L1_National" "ACCEPT" 1500%Z
  else if equal category (VStr "EWS") then
    match num_of income with
    | None => _evaluate_fee_waiver params = Raise TypeError
    | Some q =>
        if Qltb q 800000 && truthy has_income_cert
        then verdict "National_EWS_Fee_Waiver" "L1_National" "ACCEPT" 1400%Z
        else verdict "Fee_Waiver_General_Rule" "L3_University" "REJECT" 500%Z
    end
  else verdict "Fee_Waiver_General_Rule" "L3_University" "REJECT" 500%Z.
Proof.
  intros category income has_income_cert verdict. subst verdict.
  unfold _evaluate_fee_waiver, lt. fold category income has_income_cert.
  destruct (equal category (VStr "SC") || equal category (VStr "ST")).
  - cbn [bind]. do 2 eexists. split; [reflexivity|]. repeat split.
  - destruct (equal category (VStr "EWS")).
    + destruct (num_of income) as [q|]; [|reflexivity]. cbn [bind].
      destruct (Qltb q 800000 && truthy has_income_cert); cbn [bind];
        do 2 eexists; (split; [reflexivity|]); repeat split.
    + cbn [bind]. do 2 eexists. split; [reflexivity|]. repeat split.
Qed.

(** X5: the fee waiver routine accepts every SC or ST student under the
    national rule, whatever the income and the certificate, even an income
    that is not a number.  Every other student is rejected under the
    general rule, except an EWS student, who is accepted exactly when the
    income is below 800000 and an income certificate is held; only for an
    EWS student does an income that is not a number raise [TypeError]. *)
Theorem fee_waiver_decision_table (params : gmap string value) :
  let category := get_or params "student_category" (VStr "GENERAL") in
  let income := get_or params "family_income" (VNum 999999) in
  let has_income_cert := get_or params "has_income_certificate" (VBool false) in
  let sc_st := equal category (VStr "SC") || equal category (VStr "ST") in
  let ews := equal category (VStr "EWS") in
  (sc_st = true ->
     exists d t, _evaluate_fee_waiver params = Ok (d, t) /\
       d_outcome d = "ACCEPT" /\
       applicable_rule d = "National_SC_ST_Fee_Waiver") /\
  (sc_st = false -> ews = false ->
     exists d t, _evaluate_fee_waiver params = Ok (d, t) /\
       d_outcome d = "REJECT" /\
       applicable_rule d = "Fee_Waiver_General_Rule") /\
  (sc_st = false -> ews = true -> forall q, num_of income = Some q ->
     exists d t, _evaluate_fee_waiver params = Ok (d, t) /\
       (d_outcome d = "ACCEPT" <->
          (q < 800000)%Q /\ truthy has_income_cert = true) /\
       (d_outcome d = "ACCEPT" ->
          applicable_rule d = "National_EWS_Fee_Waiver") /\
       (d_outcome d <> "ACCEPT" ->
          d_outcome d = "REJECT" /\
          applicable_rule d = "Fee_Waiver_General_Rule")) /\
  (sc_st = false -> ews = true -> num_of income = None ->
     _evaluate_fee_waiver params = Raise TypeError).
Proof.
  intros category income has_income_cert sc_st ews.
  pose proof (_evaluate_fee_waiver_cases params) as H. cbv zeta in H.
  fold category income has_income_cert in H. fold sc_st ews in H.
  split; [|split; [|split]].
  - intros E. rewrite E in H. destruct H as (d & t & Hev & Ho & Hr & _).
    eauto.
  - intros E E'. rewrite E, E' in H.
    destruct H as (d & t & Hev & Ho & Hr & _). eauto.
  - intros E E' q Hq. rewrite E, E', Hq in H.
    destruct (Qltb q 800000) eqn:Elt.
    + apply Qltb_lt in Elt. destruct (truthy has_income_cert);
        cbn [andb] in H; destruct H as (d & t & Hev & Ho & Hr & _);
        exists d, t; (split; [exact Hev|]); rewrite Ho, Hr;
        intuition congruence.
    + apply Qltb_ge in Elt. cbn [andb] in H.
      destruct H as (d & t & Hev & Ho & Hr & _).
      exists d, t. split; [exact Hev|]. rewrite Ho, Hr.
      assert (Hnlt : ~ (q < 800000)%Q) by (apply Qle_not_lt, Elt).
      intuition congruence.
  - intros E E' Hq. rewrite E, E', Hq in H. exact H.
Qed.

Lemma fee_waiver_decision_table_witness :
  (exists d t,
     _evaluate_fee_waiver
       (<[ "family_income" := VStr "unknown" ]>
          {[ "student_category" := VStr "SC" ]}) = Ok (d, t) /\
     d_outcome d = "ACCEPT") /\
  _evaluate_fee_waiver
    (<[ "family_income" := VStr "unknown" ]>
       {[ "student_category" := VStr "EWS" ]}) = Raise TypeError /\
  (exists d t,
     _evaluate_fee_waiver
       (<[ "family_income" := VNum 500000 ]>
          {[ "student_category" := VStr "EWS" ]}) = Ok (d, t) /\
     d_outcome d = "REJECT").
Proof.
  split; [|split].
  - destruct (fee_waiver_decision_table
                (<[ "family_income" := VStr "unknown" ]>
                   {[ "student_category" := VStr "SC" ]}))
      as ((d & t & Hev & Ho & _) & _); [reflexivity|]. eauto.
  - apply (fee_waiver_decision_table
             (<[ "family_income" := VStr "unknown" ]>
                {[ "student_category" := VStr "EWS" ]})); reflexivity.
  - destruct (fee_waiver_decision_table
                (<[ "family_income" := VNum 500000 ]>
                   {[ "student_category" := VStr "EWS" ]}))
      as (_ & _ & Hews & _).
    destruct (Hews eq_refl eq_refl 500000%Q eq_refl)
      as (d & t & Hev & Hacc & _ & Hrej).
    exists d, t. split; [exact Hev|]. apply Hrej.
    intros Ho. apply Hacc in Ho as [_ Hc]. vm_compute in Hc. discriminate.
Defined.

(** X2: on an attendance that is a number other than NaN (an int, a bool
    or a finite float) the attendance routine returns, and the attendance
    alone decides: REJECT exactly below 75 and ACCEPT exactly from 75 on.
    The national rule has an entry exactly below 75, the medical rule
    exactly with a certificate from 65 on (also at 75 and above), and a
    conflict is recorded exactly with a certificate from 65 up to, and
    not including, 75. *)
Theorem attendance_decision_table (params : gmap string value) (q : Q) :
  let attendance := get_or params "attendance_percentage" (VNum 0) in
  let has_medical := get_or params "has_medical_certificate" (VBool false) in
  num_of attendance = Some q ->
  exists d t,
    _evaluate_attendance params = Ok (d, t) /\
    (d_outcome d = "REJECT" <-> (q < 75)%Q) /\
    (d_outcome d = "ACCEPT" <-> (75 <= q)%Q) /\
    (In UGC_Attendance_75Percent_Minimum (rules_evaluated t) <->
       (q < 75)%Q) /\
    (In University_Medical_Excuse_Attendance (rules_evaluated t) <->
       truthy has_medical = true /\ (65 <= q)%Q) /\
    (conflicts_detected t <> [] <->
       truthy has_medical = true /\ (65 <= q)%Q /\ (q < 75)%Q).
Proof.
  intros attendance has_medical Hq.
  rewrite _evaluate_attendance_eq. fold attendance has_medical.
  rewrite Hq. do 2 eexists. split; [reflexivity|]. cbn [rules_evaluated
    conflicts_detected].
  destruct (Qltb q 75) eqn:Elt;
    [apply Qltb_lt in Elt;
     assert (Hn : ~ (75 <= q)%Q) by (apply Qlt_not_le, Elt)
    |apply Qltb_ge in Elt;
     assert (Hn : ~ (q < 75)%Q) by (apply Qle_not_lt, Elt)];
  (destruct (Qle_bool 65 q) eqn:Ele;
    [apply Qle_bool_iff in Ele
    |assert (Hn' : ~ (65 <= q)%Q)
       by (intros Hle; apply Qle_bool_iff in Hle; congruence)]);
  destruct (truthy has_medical); cbn;
    repeat split; intros; try congruence; try tauto;
    intuition (try congruence; try discriminate).
Qed.

Lemma attendance_decision_table_witness :
  exists d t,
    _evaluate_attendance
      (<[ "has_medical_certificate" := VBool true ]>
         {[ "attendance_percentage" := VNum 80 ]}) = Ok (d, t) /\
    d_outcome d = "ACCEPT" /\
    In University_Medical_Excuse_Attendance (rules_evaluated t) /\
    conflicts_detected t = [].
Proof.
  destruct (attendance_decision_table
              (<[ "has_medical_certificate" := VBool true ]>
                 {[ "attendance_percentage" := VNum 80 ]}) 80)
    as (d & t & Hev & _ & Hacc & _ & Hmed & Hconf); [reflexivity|].
  exists d, t. split; [exact Hev|].
  split; [apply Hacc; discriminate|].
  split; [apply Hmed; split; [reflexivity | discriminate]|].
  destruct (conflicts_detected t) as [|c cs]; [reflexivity|].
  exfalso. destruct Hconf as [Hconf _].
  destruct Hconf as (_ & _ & Hlt); [discriminate|].
  vm_compute in Hlt. discriminate.
Defined.

(** X3: a medical certificate never changes the decision of the
    attendance routine: two parameter maps with the same
    [attendance_percentage] get the same decision, or both raise. *)
Theorem attendance_decision_ignores_certificate
    (params1 params2 : gmap string value) :
  params1 !! "attendance_percentage" = params2 !! "attendance_percentage" ->
  match _evaluate_attendance params1, _evaluate_attendance params2 with
  | Ok (d1, _), Ok (d2, _) => d1 = d2
  | Raise e1, Raise e2 => e1 = e2
  | _, _ => False
  end.
Proof.
  intros Hsame. rewrite !_evaluate_attendance_eq. unfold get_or.
  rewrite Hsame. destruct (num_of _); reflexivity.
Qed.

Lemma attendance_decision_ignores_certificate_witness :
  match
    _evaluate_attendance {[ "attendance_percentage" := VNum 70 ]},
    _evaluate_attendance
      (<[ "has_medical_certificate" := VBool true ]>
         {[ "attendance_percentage" := VNum 70 ]})
  with
  | Ok (d1, _), Ok (d2, _) => d1 = d2 /\ d_outcome d1 = "REJECT"
  | _, _ => False
  end.
Proof.
  pose proof (attendance_decision_ignores_certificate
                {[ "attendance_percentage" := VNum 70 ]}
                (<[ "has_medical_certificate" := VBool true ]>
                   {[ "attendance_percentage" := VNum 70 ]}) eq_refl) as H.
  vm_compute in H |- *. split; [exact H | reflexivity].
Defined.

(** *** The dispatch of [evaluate_grievance] *)

(** A result of [evaluate_grievance] is the result of the routine of the
    grievance type, with the processing time added to the trace. *)
Lemma evaluate_grievance_inv t0 t1 g res :
  evaluate_grievance t0 t1 g = Ok res ->
  let ty := default "" (grievance_type g) in
  let params := default (∅ : gmap string value) (parameters g) in
  exists d t,
    ((ty = "ATTENDANCE_SHORTAGE" /\ _evaluate_attendance params = Ok (d, t)) \/
     (ty = "EXAMINATION_REEVAL" /\ _evaluate_examination params = Ok (d, t)) \/
     (ty = "FEE_WAIVER" /\ _evaluate_fee_waiver params = Ok (d, t)) \/
     (ty <> "ATTENDANCE_SHORTAGE" /\ ty <> "EXAMINATION_REEVAL" /\
      ty <> "FEE_WAIVER" /\ _default_evaluation = Ok (d, t))) /\
    res = {| ev_decision := d;
             ev_trace :=
               {| rules_evaluated := rules_evaluated t;
                  conflicts_detected := conflicts_detected t;
                  final_decision := final_decision t;
                  processing_time_ms :=
                    Some (int_of ((t1 - t0) * 1000)) |};
             rules_fired := length (rules_evaluated t) |}.
Proof.
  intros H ty params. unfold evaluate_grievance in H. fold ty params in H.
  destruct (String.eqb_spec ty "ATTENDANCE_SHORTAGE") as [E1 | E1].
  { destruct (_evaluate_attendance params) as [[d t]|]; [|discriminate].
    injection H as <-. exists d, t. auto. }
  destruct (String.eqb_spec ty "EXAMINATION_REEVAL") as [E2 | E2].
  { destruct (_evaluate_examination params) as [[d t]|]; [|discriminate].
    injection H as <-. exists d, t. auto. }
  destruct (String.eqb_spec ty "FEE_WAIVER") as [E3 | E3].
  { destruct (_evaluate_fee_waiver params) as [[d t]|]; [|discriminate].
    injection H as <-. exists d, t. auto 6. }
  destruct _default_evaluation as [[d t]|] eqn:E; [|discriminate].
  injection H as <-. exists d, t. split; [|reflexivity].
  right. right. right. auto.
Qed.

(** The three routines that fire one rule copy its attributes into the
    decision. *)
Lemma one_rule_decision (r : result (decision * trace)) d t :
  (exists params, r = _evaluate_examination params) \/
  (exists params, r = _evaluate_fee_waiver params) \/
  r = _default_evaluation ->
  r = Ok (d, t) ->
  exists e,
    rules_evaluated t = [e] /\ conflicts_detected t = [] /\
    final_decision t = d /\
    rule_id e = applicable_rule d /\ outcome e = d_outcome d /\
    hierarchy_level e = d_hierarchy_level d /\ salience e = d_salience d /\
    (human_review_required d = true <-> r = _default_evaluation).
Proof.
  intros [[params ->] | [[params ->] | ->]].
  - unfold _evaluate_examination, le, gt.
    destruct (num_of _) as [q|]; [|discriminate]. cbn [bind].
    destruct (Qle_bool q 15 && truthy _), (Qltb 15 q); cbn [bind fst snd];
      intros [= <- <-]; eexists; repeat split; discriminate.
  - unfold _evaluate_fee_waiver, lt.
    destruct (equal _ (VStr "SC") || equal _ (VStr "ST")); cbn [bind].
    + intros [= <- <-]; eexists; repeat split; discriminate.
    + destruct (equal _ (VStr "EWS")); cbn [bind].
      * destruct (num_of _) as [q|]; [|discriminate]. cbn [bind].
        destruct (Qltb q 800000 && truthy _);
          intros [= <- <-]; eexists; repeat split; discriminate.
      * intros [= <- <-]; eexists; repeat split; discriminate.
  - unfold _default_evaluation. intros [= <- <-]. eexists. repeat split.
Qed.

(** X1: on a grievance whose parameters are a dictionary, or absent,
    [evaluate_grievance] fails in exactly three ways, each with
    [TypeError]: an attendance shortage whose attendance is neither a
    number nor a bool (a string, or [None]), a revaluation whose number
    of days is neither, and a fee waiver of an EWS student whose family
    income is neither.  On such a grievance it never fails for a type it
    does not know, and never with [IndexError]. *)
Theorem evaluate_grievance_raises_iff t0 t1 g :
  let ty := default "" (grievance_type g) in
  let params := default (∅ : gmap string value) (parameters g) in
  let category := get_or params "student_category" (VStr "GENERAL") in
  (evaluate_grievance t0 t1 g = Raise TypeError <->
     (ty = "ATTENDANCE_SHORTAGE" /\
      num_of (get_or params "attendance_percentage" (VNum 0)) = None) \/
     (ty = "EXAMINATION_REEVAL" /\
      num_of (get_or params "days_since_result_declaration" (VNum 999))
        = None) \/
     (ty = "FEE_WAIVER" /\
      equal category (VStr "SC") || equal category (VStr "ST") = false /\
      equal category (VStr "EWS") = true /\
      num_of (get_or params "family_income" (VNum 999999)) = None)) /\
  evaluate_grievance t0 t1 g <> Raise IndexError.
Proof.
  intros ty params category. unfold evaluate_grievance. fold ty params.
  destruct (String.eqb_spec ty "ATTENDANCE_SHORTAGE") as [E1 | E1].
  { rewrite _evaluate_attendance_eq.
    destruct (num_of _) as [q|]; cbn [bind]; rewrite E1;
      (split; [split|]); try discriminate; auto.
    intros [[_ H] | [[H _] | [H _]]]; discriminate. }
  destruct (String.eqb_spec ty "EXAMINATION_REEVAL") as [E2 | E2].
  { pose proof (_evaluate_examination_cases params) as H. cbv zeta in H.
    destruct (num_of _) as [q|].
    - destruct H as (d & t & -> & _). cbn [bind]. rewrite E2.
      (split; [split|]); try discriminate.
      intros [[H _] | [[_ H] | [H _]]]; discriminate.
    - rewrite H. cbn [bind]. (split; [split|]); try discriminate; auto. }
  destruct (String.eqb_spec ty "FEE_WAIVER") as [E3 | E3].
  { pose proof (_evaluate_fee_waiver_cases params) as H. cbv zeta in H.
    fold category in H.
    destruct (equal category (VStr "SC") || equal category (VStr "ST")).
    - destruct H as (d & t & -> & _). cbn [bind]. rewrite E3.
      (split; [split|]); try discriminate.
      intros [[H _] | [[H _] | (_ & H & _)]]; discriminate.
    - destruct (equal category (VStr "EWS")).
      + destruct (num_of _) as [q|].
        * assert (Hok : exists d t, _evaluate_fee_waiver params = Ok (d, t))
            by (destruct (Qltb q 800000 && truthy _);
                destruct H as (d & t & Hev & _); eauto).
          destruct Hok as (d & t & ->). cbn [bind]. rewrite E3.
          (split; [split|]); try discriminate.
          intros [[H' _] | [[H' _] | (_ & _ & _ & H')]]; discriminate.
        * rewrite H. cbn [bind]. (split; [split|]); try discriminate.
          -- intros _. right. right. repeat split. exact E3.
          -- reflexivity.
      + destruct H as (d & t & -> & _). cbn [bind]. rewrite E3.
        (split; [split|]); try discriminate.
        intros [[H _] | [[H _] | (_ & _ & H & _)]]; discriminate. }
  cbn [_default_evaluation bind]. (split; [split|]); try discriminate.
  intros [[H _] | [[H _] | [H _]]]; contradiction.
Qed.

(** X6: the decision prevails over every rule that fired: no entry of
    the trace has a larger salience than the decision, and none stands
    on a higher tier. *)
Theorem decision_dominates_fired_rules t0 t1 g res :
  evaluate_grievance t0 t1 g = Ok res ->
  forall e, In e (rules_evaluated (ev_trace res)) ->
    (salience e <= d_salience (ev_decision res))%Z /\
    tier_rank (d_hierarchy_level (ev_decision res))
      <= tier_rank (hierarchy_level e).
Proof.
  intros H e He.
  destruct (evaluate_grievance_inv _ _ _ _ H) as (d & t & Hroutine & ->).
  cbn [ev_trace ev_decision rules_evaluated] in *.
  destruct Hroutine as [[_ Heq] | Hone].
  - rewrite _evaluate_attendance_eq in Heq.
    destruct (num_of _) as [q|]; [|discriminate].
    injection Heq as <- <-. cbn [rules_evaluated] in He.
    destruct (Qltb q 75), (truthy _ && Qle_bool 65 q); cbn in He;
      intuition (subst; cbn; lia).
  - assert (Hone' : exists e',
      rules_evaluated t = [e'] /\
      hierarchy_level e' = d_hierarchy_level d /\
      salience e' = d_salience d).
    { destruct Hone as [[_ Heq] | [[_ Heq] | (_ & _ & _ & Heq)]];
        (edestruct one_rule_decision
           as (e' & Hr & _ & _ & _ & _ & Hl & Hs & _);
         [ | exact Heq | ]); eauto. }
    destruct Hone' as (e' & Hr & Hl & Hs).
    rewrite Hr in He. destruct He as [<- | []]. rewrite Hl, Hs. lia.
Qed.

Lemma decision_dominates_fired_rules_witness :
  exists res,
    evaluate_grievance 0 0 attendance_68_5_medical = Ok res /\
    forall e, In e (rules_evaluated (ev_trace res)) ->
      (salience e <= 1500)%Z.
Proof.
  eexists. split; [vm_compute; reflexivity|]. intros e He.
  apply (decision_dominates_fired_rules 0 0 attendance_68_5_medical _
           eq_refl e He).
Defined.

Lemma evaluate_grievance_raises_iff_witness :
  evaluate_grievance 0 0
    {| grievance_type := Some "ATTENDANCE_SHORTAGE";
       parameters :=
         Some {[ "attendance_percentage" := VStr "seventy" ]} |}
  = Raise TypeError.
Proof.
  apply (evaluate_grievance_raises_iff 0 0
           {| grievance_type := Some "ATTENDANCE_SHORTAGE";
              parameters :=
                Some {[ "attendance_percentage" := VStr "seventy" ]} |}).
  left. split; reflexivity.
Defined.

(** X7: the rule a decision cites is a rule of the trace, with the same
    outcome and tier, in every case but one: an accepted attendance cites
    [UGC_Attendance_Satisfied], and no trace ever has an entry with that
    name. *)
Theorem decision_cites_fired_rule_or_attendance_satisfied t0 t1 g res :
  evaluate_grievance t0 t1 g = Ok res ->
  let d := ev_decision res in
  let rules := rules_evaluated (ev_trace res) in
  (forall e, In e rules -> rule_id e <> "UGC_Attendance_Satisfied") /\
  ((exists e, In e rules /\ rule_id e = applicable_rule d /\
              outcome e = d_outcome d /\
              hierarchy_level e = d_hierarchy_level d) \/
   (grievance_type g = Some "ATTENDANCE_SHORTAGE" /\
    d_outcome d = "ACCEPT" /\
    applicable_rule d = "UGC_Attendance_Satisfied")).
Proof.
  intros H d rules. subst d rules.
  destruct (evaluate_grievance_inv _ _ _ _ H) as (d & t & Hroutine & ->).
  cbn [ev_trace ev_decision rules_evaluated].
  destruct Hroutine as [[Hty Heq] | Hone].
  - assert (Htype : grievance_type g = Some "ATTENDANCE_SHORTAGE").
    { destruct (grievance_type g); cbn in Hty; [congruence|discriminate]. }
    rewrite _evaluate_attendance_eq in Heq.
    destruct (num_of _) as [q|]; [|discriminate].
    injection Heq as <- <-. cbn [rules_evaluated].
    destruct (Qltb q 75), (truthy _ && Qle_bool 65 q); cbn; split;
      try (intros e He; intuition (subst; discriminate));
      try (right; repeat split; assumption);
      left; exists UGC_Attendance_75Percent_Minimum; cbn; auto.
  - assert (Hone' : exists e',
      rules_evaluated t = [e'] /\ rule_id e' = applicable_rule d /\
      outcome e' = d_outcome d /\
      hierarchy_level e' = d_hierarchy_level d /\
      applicable_rule d <> "UGC_Attendance_Satisfied").
    { destruct Hone as [[_ Heq] | [[_ Heq] | (_ & _ & _ & Heq)]].
      - pose proof (_evaluate_examination_cases
                      (default (∅ : gmap string value) (parameters g)))
          as Hc. cbv zeta in Hc.
        destruct (num_of _); [|congruence].
        destruct Hc as (d' & t' & Hev & _ & _ & Hrule & _).
        rewrite Heq in Hev. injection Hev as <- <-.
        edestruct one_rule_decision
          as (e' & Hr & _ & _ & Hid & Ho & Hl & _); [ | exact Heq | ];
          [eauto|]. exists e'. rewrite Hrule.
        repeat split; auto; first [congruence | discriminate].
      - edestruct one_rule_decision
          as (e' & Hr & _ & _ & Hid & Ho & Hl & _); [ | exact Heq | ];
          [eauto|]. exists e'. repeat split; auto.
        pose proof (_evaluate_fee_waiver_cases
                      (default (∅ : gmap string value) (parameters g)))
          as Hc. cbv zeta in Hc. rewrite Heq in Hc.
        destruct (_ || _);
          [|destruct (equal _ (VStr "EWS"));
            [destruct (num_of _); [destruct (_ && _)|discriminate]|]];
          destruct Hc as (d' & t' & [= <- <-] & _ & -> & _); discriminate.
      - unfold _default_evaluation in Heq. injection Heq as <- <-.
        eexists. repeat split. discriminate. }
    destruct Hone' as (e' & Hr & Hid & Ho & Hl & Hne). rewrite Hr. split.
    + intros e [<- | []]. congruence.
    + left. exists e'. cbn. auto.
Qed.

Lemma decision_cites_fired_rule_or_attendance_satisfied_witness :
  exists res,
    evaluate_grievance 0 0 attendance_80 = Ok res /\
    applicable_rule (ev_decision res) = "UGC_Attendance_Satisfied" /\
    forall e, In e (rules_evaluated (ev_trace res)) ->
      rule_id e <> applicable_rule (ev_decision res).
Proof.
  eexists. split; [vm_compute; reflexivity|]. split; [reflexivity|].
  apply (decision_cites_fired_rule_or_attendance_satisfied
           0 0 attendance_80 _ eq_refl).
Defined.

(** X8: the engine asks for human review exactly for a grievance type it
    does not know; a decision on an attendance shortage, a revaluation or
    a fee waiver never carries the flag, not even the revaluation that is
    pending clarification. *)
Theorem human_review_iff_unknown_type t0 t1 g res :
  evaluate_grievance t0 t1 g = Ok res ->
  (human_review_required (ev_decision res) = true <->
     grievance_type g <> Some "ATTENDANCE_SHORTAGE" /\
     grievance_type g <> Some "EXAMINATION_REEVAL" /\
     grievance_type g <> Some "FEE_WAIVER").
Proof.
  intros H.
  destruct (evaluate_grievance_inv _ _ _ _ H) as (d & t & Hroutine & ->).
  cbn [ev_decision].
  assert (Hsome : forall s, s <> "" ->
            (default "" (grievance_type g) = s <->
             grievance_type g = Some s)).
  { intros s Hs. destruct (grievance_type g); cbn; split; congruence. }
  rewrite <- !Hsome by discriminate.
  destruct Hroutine
    as [[Hty Heq] | [[Hty Heq] | [[Hty Heq] | (H1 & H2 & H3 & Heq)]]].
  - rewrite _evaluate_attendance_eq in Heq.
    destruct (num_of _) as [q|]; [|discriminate].
    injection Heq as <- <-. destruct (Qltb q 75); cbn;
      split; [discriminate | tauto | discriminate | tauto].
  - edestruct one_rule_decision as (e' & _ & _ & _ & _ & _ & _ & _ & Hh);
      [ | exact Heq | ]; [eauto|].
    rewrite Hh. split; [|tauto]. intros Hd. exfalso.
    pose proof (_evaluate_examination_cases
                  (default (∅ : gmap string value) (parameters g))) as Hc.
    cbv zeta in Hc. rewrite Hd in Hc.
    destruct (num_of _); [|discriminate].
    destruct Hc as (d' & t' & [= <- <-] & _ & _ & Hr & _). discriminate.
  - edestruct one_rule_decision as (e' & _ & _ & _ & _ & _ & _ & _ & Hh);
      [ | exact Heq | ]; [eauto|].
    rewrite Hh. split; [|tauto]. intros Hd. exfalso.
    rewrite Hd in Heq. unfold _default_evaluation in Heq.
    injection Heq as <- _.
    pose proof (_evaluate_fee_waiver_cases
                  (default (∅ : gmap string value) (parameters g))) as Hc.
    cbv zeta in Hc. rewrite Hd in Hc.
    destruct (_ || _);
      [|destruct (equal _ (VStr "EWS"));
        [destruct (num_of _); [destruct (_ && _)|discriminate]|]];
      destruct Hc as (d' & t' & [= <- <-] & _ & Hr & _); discriminate.
  - unfold _default_evaluation in Heq. injection Heq as <- <-. cbn. tauto.
Qed.

Lemma human_review_iff_unknown_type_witness :
  (exists res,
     evaluate_grievance 0 0 grade_appeal = Ok res /\
     human_review_required (ev_decision res) = true) /\
  (exists res,
     evaluate_grievance 0 0
       {| grievance_type := Some "EXAMINATION_REEVAL";
          parameters :=
            Some {[ "days_since_result_declaration" := VNum 10 ]} |}
     = Ok res /\
     d_outcome (ev_decision res) = "PENDING_CLARIFICATION" /\
     human_review_required (ev_decision res) <> true).
Proof.
  split.
  - eexists. split; [vm_compute; reflexivity|].
    apply (human_review_iff_unknown_type 0 0 grade_appeal _ eq_refl).
    repeat split; discriminate.
  - destruct (evaluate_grievance 0 0
       {| grievance_type := Some "EXAMINATION_REEVAL";
          parameters :=
            Some {[ "days_since_result_declaration" := VNum 10 ]} |})
      as [res|e] eqn:E; [|vm_compute in E; discriminate].
    exists res. split; [reflexivity|]. split.
    + vm_compute in E. injection E as <-. reflexivity.
    + intros Hh. apply (human_review_iff_unknown_type _ _ _ _ E) in Hh.
      destruct Hh as (_ & Hh & _). apply Hh. reflexivity.
Defined.

End EvaluationFacts.

(** ** Further facts about the fairness service: the report, agreement
    and disagreement with the prior cases, and the order of the cases *)

Module ScorerFacts.
Import Py Fairness PyFacts FairnessFacts.

(** [detect_anomaly] on a non-empty list, in one equation. *)
Lemma detect_anomaly_nonempty (current_decision : gmap string value)
    (similar_cases : list (gmap string value)) :
  similar_cases <> [] ->
  let current := get current_decision "outcome" in
  let outcomes := map (fun case => get case "outcome") similar_cases in
  exists m n,
    Counter.most_frequent_first equal outcomes m n /\
    forall (self : FairnessService) (score : Q),
      detect_anomaly self score current_decision similar_cases =
        if Qltb score (consistency_threshold self) && negb (equal current m)
        then Ok (true,
                 Some (anomaly_reason current m n (length similar_cases)
                         score (consistency_threshold self)))
        else Ok (false, None).
Proof.
  intros Hne current outcomes.
  assert (Hout : outcomes <> []).
  { subst outcomes. destruct similar_cases; [congruence | discriminate]. }
  destruct (most_common_outcome outcomes Hout) as (m & n & Hmc & Hspec).
  exists m, n. split; [exact Hspec|]. intros self score.
  unfold detect_anomaly.
  fold current outcomes. rewrite Hmc. cbn [index0 bind fst snd].
  destruct (Qltb score _), (negb (equal current m)); reflexivity.
Qed.

(** The majority outcome is the outcome of one of the cases. *)
Lemma majority_is_an_outcome (similar_cases : list (gmap string value)) m n :
  Counter.most_frequent_first equal
    (map (fun case => get case "outcome") similar_cases) m n ->
  exists case, In case similar_cases /\ get case "outcome" = m.
Proof.
  intros (Hnth & _). apply nth_error_In in Hnth.
  apply in_map_iff in Hnth as (case & Hc & Hin). eauto.
Qed.

Lemma round_half_even_lower (y : Q) (N : Z) :
  (inject_Z N <= y)%Q -> (N <= round_half_even y)%Z.
Proof.
  intros HN. unfold round_half_even.
  assert (HfN : (N <= Qfloor y)%Z).
  { rewrite <- (Qfloor_Z N). apply Qfloor_resp_le, HN. }
  destruct (Qcompare _ _); [destruct (Z.even _)| |]; lia.
Qed.

(** [round(x, 4)] does not cross a multiple of 1/10000. *)
Lemma round_4_between (x : Q) (lo hi : Z) :
  (0 <= x)%Q -> (lo # 10000 <= x)%Q -> (x <= hi # 10000)%Q ->
  (lo # 10000 <= round x 4)%Q /\ (round x 4 <= hi # 10000)%Q.
Proof.
  intros H0 Hlo Hhi. unfold round.
  change (inject_Z (10 ^ Z.of_nat 4)) with 10000%Q.
  assert (Hdiv : forall k : Q, (k / 10000 == k * (1 # 10000))%Q)
    by (intros k; reflexivity).
  assert (Hmake : forall k : Z, (k # 10000 == inject_Z k * (1 # 10000))%Q).
  { intros k. rewrite (Qmake_Qdiv k 10000). apply Hdiv. }
  rewrite (Hmake lo) in Hlo. rewrite (Hmake hi) in Hhi.
  rewrite (Hmake lo), (Hmake hi).
  pose proof (round_half_even_lower (x * 10000) lo) as Hl.
  destruct (round_half_even_bounds (x * 10000) hi) as [_ Hh];
    [lra | lra |].
  rewrite Zle_Qle in Hh. rewrite !Hdiv.
  assert (Hl' : (lo <= round_half_even (x * 10000))%Z) by (apply Hl; lra).
  rewrite Zle_Qle in Hl'. split; lra.
Qed.

Ltac round_4_bounds lo hi :=
  match goal with
  | |- context [round ?x 4] =>
      destruct (round_4_between x lo hi) as [? ?]; [lra | lra | lra | ]
  end.

(** The score of a non-empty list is the rounded weighted sum of the
    three match ratios. *)
Lemma score_nonempty (current_decision : gmap string value)
    (similar_cases : list (gmap string value)) :
  similar_cases <> [] ->
  calculate_consistency_score current_decision similar_cases =
  round (0.5 * match_ratio "outcome" (get current_decision "outcome")
                 similar_cases
         + 0.3 * match_ratio "applicable_rule"
                   (get current_decision "applicable_rule") similar_cases
         + 0.2 * match_ratio "hierarchy_level"
                   (get current_decision "hierarchy_level") similar_cases)%Q
        4.
Proof.
  intros Hne. unfold calculate_consistency_score, match_ratio.
  destruct similar_cases as [|case cases]; [congruence|].
  rewrite !matches_count. reflexivity.
Qed.

Lemma match_ratio_none key current (similar_cases : list (gmap string value)) :
  (forall case, In case similar_cases ->
     equal (get case key) current = false) ->
  (match_ratio key current similar_cases == 0)%Q.
Proof.
  intros Hnone. unfold match_ratio.
  replace (List.filter _ similar_cases) with (@nil (gmap string value)).
  - cbn. unfold Qdiv. apply Qmult_0_l.
  - symmetry. induction similar_cases as [|c cs IH]; cbn; [reflexivity|].
    rewrite (Hnone c) by (left; reflexivity).
    apply IH. intros c' Hc'. apply Hnone. right. exact Hc'.
Qed.

Lemma match_ratio_all key current (similar_cases : list (gmap string value)) :
  similar_cases <> [] ->
  (forall case, In case similar_cases ->
     equal (get case key) current = true) ->
  (match_ratio key current similar_cases == 1)%Q.
Proof.
  intros Hne Hall. unfold match_ratio.
  replace (List.filter _ similar_cases) with similar_cases.
  - apply Qmult_inv_r. destruct similar_cases; [congruence|]. discriminate.
  - symmetry. clear Hne. induction similar_cases as [|c cs IH]; cbn;
      [reflexivity|].
    rewrite (Hall c) by (left; reflexivity). f_equal.
    apply IH. intros c' Hc'. apply Hall. right. exact Hc'.
Qed.

(** X10: [monitor_fairness] returns a report whenever there is a similar
    case or the threshold is at most 1.  The report counts the cases, it
    meets the threshold exactly when the score is not below it, and an
    anomaly is reported only with a score below the threshold, always
    with a reason and with the human-review recommendation; without an
    anomaly there is no reason and another recommendation. *)
Theorem monitor_fairness_report (self : FairnessService)
    (decision : gmap string value)
    (similar_cases : list (gmap string value)) :
  similar_cases <> [] \/ (consistency_threshold self <= 1)%Q ->
  exists report,
    monitor_fairness self decision similar_cases = Ok report /\
    consistency_score report =
      calculate_consistency_score decision similar_cases /\
    similar_cases_count report = length similar_cases /\
    (meets_threshold report = true <->
       (consistency_threshold self <= consistency_score report)%Q) /\
    (anomaly_detected report = true ->
       meets_threshold report = false /\
       anomaly_reason_of report <> None /\
       recommendation report = HUMAN_REVIEW_RECOMMENDED) /\
    (anomaly_detected report = false ->
       anomaly_reason_of report = None /\
       recommendation report <> HUMAN_REVIEW_RECOMMENDED).
Proof.
  intros Hpre. unfold monitor_fairness.
  set (score := calculate_consistency_score decision similar_cases).
  assert (Hdet :
    (detect_anomaly self score decision similar_cases = Ok (false, None)) \/
    (exists text,
       detect_anomaly self score decision similar_cases
         = Ok (true, Some text) /\
       Qltb score (consistency_threshold self) = true)).
  { destruct similar_cases as [|c cs] eqn:Ecases.
    - destruct Hpre as [Hne | Hthr]; [congruence|]. left.
      unfold detect_anomaly. subst score. cbn [calculate_consistency_score].
      apply Qltb_ge in Hthr. rewrite Hthr. reflexivity.
    - destruct (detect_anomaly_nonempty decision (c :: cs))
        as (m & n & _ & Hdet); [discriminate|]. rewrite Hdet.
      destruct (Qltb score _); cbn [andb]; [|auto].
      destruct (negb _); eauto. }
  destruct Hdet as [-> | (text & -> & Hlt)]; cbn [bind fst snd];
    eexists; (split; [reflexivity|]); cbn;
    (split; [reflexivity|]); (split; [reflexivity|]);
    (split; [apply Qle_bool_iff|]).
  - split; [discriminate|]. intros _. split; [reflexivity|].
    unfold _generate_recommendation.
    destruct (Qltb score 0.90); discriminate.
  - split; [|discriminate]. intros _.
    unfold Qltb in Hlt. apply negb_true_iff in Hlt.
    repeat split; [exact Hlt | discriminate].
Qed.

Lemma monitor_fairness_report_witness :
  exists report,
    monitor_fairness __init__ (with_outcome "ACCEPT")
      [with_outcome "REJECT"] = Ok report /\
    similar_cases_count report = 1 /\
    anomaly_detected report = true /\
    meets_threshold report = false.
Proof.
  destruct (monitor_fairness_report __init__ (with_outcome "ACCEPT")
              [with_outcome "REJECT"])
    as (report & Hok & _ & Hcount & _ & Han & _);
    [left; discriminate|].
  exists report. split; [exact Hok|]. split; [exact Hcount|].
  assert (Ha : anomaly_detected report = true)
    by (vm_compute in Hok; injection Hok as <-; reflexivity).
  split; [exact Ha | apply Han, Ha].
Defined.

(** X11: when there is at least one similar case and none has the
    outcome of the current decision, the score is at most 0.5, and every
    service whose threshold is above 0.5, the default one included,
    reports an anomaly and recommends human review, however well rules
    and tiers agree. *)
Theorem outcome_shared_by_no_case_is_anomaly (self : FairnessService)
    (decision : gmap string value)
    (similar_cases : list (gmap string value)) :
  similar_cases <> [] ->
  (forall case, In case similar_cases ->
     equal (get case "outcome") (get decision "outcome") = false) ->
  (0.5 < consistency_threshold self)%Q ->
  (calculate_consistency_score decision similar_cases <= 0.5)%Q /\
  exists report,
    monitor_fairness self decision similar_cases = Ok report /\
    anomaly_detected report = true /\
    recommendation report = HUMAN_REVIEW_RECOMMENDED.
Proof.
  intros Hne Hnone Hthr.
  assert (Hscore : (calculate_consistency_score decision similar_cases
                    <= 0.5)%Q).
  { rewrite (score_nonempty _ _ Hne).
    pose proof (match_ratio_none _ _ _ Hnone) as H0.
    pose proof (match_ratio_bounds "applicable_rule"
                  (get decision "applicable_rule") _ Hne) as H1.
    pose proof (match_ratio_bounds "hierarchy_level"
                  (get decision "hierarchy_level") _ Hne) as H2.
    destruct H1, H2. round_4_bounds 0%Z 5000%Z. lra. }
  split; [exact Hscore|]. unfold monitor_fairness.
  destruct (detect_anomaly_nonempty decision similar_cases Hne)
    as (m & n & Hm & Hdet). rewrite Hdet.
  assert (Hlt : Qltb (calculate_consistency_score decision similar_cases)
                  (consistency_threshold self) = true)
    by (apply Qltb_lt; lra).
  destruct (majority_is_an_outcome _ _ _ Hm) as (case & Hin & <-).
  rewrite Hlt, equal_sym, (Hnone case Hin). cbn.
  eexists. split; [reflexivity|]. split; reflexivity.
Qed.

Lemma outcome_shared_by_no_case_is_anomaly_witness :
  let prior := summary "REJECT" "UGC_Attendance_75Percent_Minimum"
                 "L1_National" in
  let current := summary "ACCEPT" "UGC_Attendance_75Percent_Minimum"
                   "L1_National" in
  exists report,
    monitor_fairness __init__ current [prior; prior] = Ok report /\
    anomaly_detected report = true.
Proof.
  intros prior current.
  destruct (outcome_shared_by_no_case_is_anomaly __init__ current
              [prior; prior])
    as (_ & report & Hok & Han & _);
    [discriminate | | reflexivity | eauto].
  intros case [<- | [<- | []]]; reflexivity.
Defined.

(** X12: when there is at least one similar case and every one has the
    outcome of the current decision, no anomaly is ever detected,
    whatever score and threshold are passed, and the score is at least
    0.5. *)
Theorem outcome_shared_by_all_cases_is_no_anomaly (self : FairnessService)
    (score : Q) (decision : gmap string value)
    (similar_cases : list (gmap string value)) :
  similar_cases <> [] ->
  (forall case, In case similar_cases ->
     equal (get case "outcome") (get decision "outcome") = true) ->
  detect_anomaly self score decision similar_cases = Ok (false, None) /\
  (0.5 <= calculate_consistency_score decision similar_cases)%Q.
Proof.
  intros Hne Hall. split.
  - destruct (detect_anomaly_nonempty decision similar_cases Hne)
      as (m & n & Hm & Hdet). rewrite Hdet.
    destruct (majority_is_an_outcome _ _ _ Hm) as (case & Hin & <-).
    rewrite equal_sym, (Hall case Hin), andb_false_r. reflexivity.
  - rewrite (score_nonempty _ _ Hne).
    pose proof (match_ratio_all _ _ _ Hne Hall) as H0.
    pose proof (match_ratio_bounds "applicable_rule"
                  (get decision "applicable_rule") _ Hne) as H1.
    pose proof (match_ratio_bounds "hierarchy_level"
                  (get decision "hierarchy_level") _ Hne) as H2.
    destruct H1, H2. round_4_bounds 5000%Z 10000%Z. lra.
Qed.

Lemma outcome_shared_by_all_cases_is_no_anomaly_witness :
  let prior := summary "REJECT" "Some_Other_Rule" "L3_University" in
  let current := summary "REJECT" "UGC_Attendance_75Percent_Minimum"
                   "L1_National" in
  detect_anomaly __init__ 0 current [prior; prior] = Ok (false, None) /\
  (0.5 <= calculate_consistency_score current [prior; prior])%Q.
Proof.
  intros prior current.
  apply (outcome_shared_by_all_cases_is_no_anomaly __init__ 0 current
           [prior; prior]); [discriminate|].
  intros case [<- | [<- | []]]; reflexivity.
Defined.

(** X13: when every similar case agrees with the current decision on
    outcome, rule and tier, the score is 1, and the default service
    reports no anomaly, a met threshold and the consistent
    recommendation. *)
Theorem full_agreement_is_consistent (decision : gmap string value)
    (similar_cases : list (gmap string value)) :
  similar_cases <> [] ->
  (forall case key, In case similar_cases ->
     key = "outcome" \/ key = "applicable_rule" \/ key = "hierarchy_level" ->
     equal (get case key) (get decision key) = true) ->
  (calculate_consistency_score decision similar_cases == 1)%Q /\
  exists report,
    monitor_fairness __init__ decision similar_cases = Ok report /\
    anomaly_detected report = false /\
    meets_threshold report = true /\
    recommendation report = CONSISTENT.
Proof.
  intros Hne Hall.
  assert (Hscore :
    (calculate_consistency_score decision similar_cases == 1)%Q).
  { rewrite (score_nonempty _ _ Hne).
    assert (H0 := match_ratio_all "outcome" _ _ Hne
                    (fun c Hc => Hall c _ Hc (or_introl eq_refl))).
    assert (H1 := match_ratio_all "applicable_rule" _ _ Hne
                    (fun c Hc => Hall c _ Hc (or_intror (or_introl eq_refl)))).
    assert (H2 := match_ratio_all "hierarchy_level" _ _ Hne
                    (fun c Hc => Hall c _ Hc (or_intror (or_intror eq_refl)))).
    round_4_bounds 10000%Z 10000%Z. apply Qle_antisym; lra. }
  split; [exact Hscore|]. unfold monitor_fairness.
  destruct (detect_anomaly_nonempty decision similar_cases Hne)
    as (m & n & Hm & Hdet). rewrite Hdet.
  destruct (majority_is_an_outcome _ _ _ Hm) as (case & Hin & <-).
  rewrite equal_sym, (Hall case "outcome" Hin (or_introl eq_refl)).
  rewrite andb_false_r. cbn [bind fst snd].
  eexists. split; [reflexivity|]. cbn. split; [reflexivity|].
  split.
  - apply Qle_bool_iff. rewrite Hscore. discriminate.
  - unfold _generate_recommendation.
    assert (Hge : Qltb (calculate_consistency_score decision similar_cases)
                    0.90 = false)
      by (apply Qltb_ge; rewrite Hscore; discriminate).
    rewrite Hge. reflexivity.
Qed.

Lemma full_agreement_is_consistent_witness :
  let prior := summary "REJECT" "UGC_Attendance_75Percent_Minimum"
                 "L1_National" in
  (calculate_consistency_score prior [prior; prior; prior] == 1)%Q /\
  exists report,
    monitor_fairness __init__ prior [prior; prior; prior] = Ok report /\
    recommendation report = CONSISTENT.
Proof.
  intros prior.
  destruct (full_agreement_is_consistent prior [prior; prior; prior])
    as (Hscore & report & Hok & _ & _ & Hrec); [discriminate | | eauto].
  intros case key [<- | [<- | [<- | []]]] [-> | [-> | ->]]; reflexivity.
Defined.

Lemma filter_length_Permutation {A} (f : A -> bool) (l l' : list A) :
  Permutation l l' ->
  length (List.filter f l) = length (List.filter f l').
Proof.
  induction 1 as [|x l l' _ IH|x y l|l l' l'' _ IH1 _ IH2]; cbn.
  - reflexivity.
  - destruct (f x); cbn; congruence.
  - destruct (f x), (f y); reflexivity.
  - congruence.
Qed.

(** X14: the consistency score does not depend on the order of the
    similar cases; the anomaly test does, when two outcomes occur equally
    often: against REJECT, ACCEPT an accepted decision is an anomaly, and
    against ACCEPT, REJECT it is not. *)
Theorem score_ignores_case_order_anomaly_does_not :
  (forall (decision : gmap string value)
          (cases cases' : list (gmap string value)),
     Permutation cases cases' ->
     calculate_consistency_score decision cases =
     calculate_consistency_score decision cases') /\
  (exists reason,
     detect_anomaly __init__ 0.5 (with_outcome "ACCEPT")
       [with_outcome "REJECT"; with_outcome "ACCEPT"]
       = Ok (true, Some reason)) /\
  detect_anomaly __init__ 0.5 (with_outcome "ACCEPT")
    [with_outcome "ACCEPT"; with_outcome "REJECT"] = Ok (false, None).
Proof.
  split; [|split; [eexists|]; vm_compute; reflexivity].
  intros decision cases cases' Hperm.
  destruct cases as [|c cs].
  { apply Permutation_nil in Hperm. subst. reflexivity. }
  assert (Hne' : cases' <> []).
  { intros ->. apply Permutation_sym, Permutation_nil in Hperm.
    discriminate. }
  rewrite !score_nonempty by (assumption || discriminate).
  unfold match_ratio.
  rewrite !(filter_length_Permutation _ _ _ Hperm).
  rewrite (Permutation_length Hperm). reflexivity.
Qed.

Lemma score_ignores_case_order_anomaly_does_not_witness :
  calculate_consistency_score (with_outcome "ACCEPT")
    [with_outcome "REJECT"; with_outcome "ACCEPT"] =
  calculate_consistency_score (with_outcome "ACCEPT")
    [with_outcome "ACCEPT"; with_outcome "REJECT"].
Proof.
  apply score_ignores_case_order_anomaly_does_not. apply perm_swap.
Defined.

(** X15: an anomaly does not go away when the score gets lower or the
    threshold higher: if [detect_anomaly] reports one, it reports one for
    the same decision and cases at every lower score and under every
    higher threshold. *)
Theorem anomaly_persists_below (self self' : FairnessService)
    (score score' : Q) (decision : gmap string value)
    (similar_cases : list (gmap string value)) reason :
  detect_anomaly self score decision similar_cases = Ok (true, reason) ->
  (score' <= score)%Q ->
  (consistency_threshold self <= consistency_threshold self')%Q ->
  exists reason',
    detect_anomaly self' score' decision similar_cases = Ok (true, reason').
Proof.
  intros Hdet Hs Ht.
  destruct similar_cases as [|c cs].
  { unfold detect_anomaly in Hdet. destruct (Qltb _ _); discriminate. }
  destruct (detect_anomaly_nonempty decision (c :: cs))
    as (m & n & _ & Heq); [discriminate|].
  rewrite Heq in Hdet. rewrite Heq.
  destruct (Qltb score _) eqn:Elt; [|discriminate].
  destruct (negb _); [|discriminate].
  apply Qltb_lt in Elt.
  assert (Elt' : Qltb score' (consistency_threshold self') = true)
    by (apply Qltb_lt; lra).
  rewrite Elt'. eexists. reflexivity.
Qed.

Lemma anomaly_persists_below_witness :
  exists reason',
    detect_anomaly {| consistency_threshold := 0.9 |} 0.1
      (with_outcome "ACCEPT") [with_outcome "REJECT"] = Ok (true, reason').
Proof.
  eapply (anomaly_persists_below __init__ _ 0.3 0.1 (with_outcome "ACCEPT")
            [with_outcome "REJECT"]);
    [vm_compute; reflexivity | discriminate | discriminate].
Defined.

End ScorerFacts.

(** ** Facts about the in-memory database *)

Module MockDatabaseFacts.
Import Py MockRuleEngine MockDatabase.

Section Dict.
Context {V : Type}.
Implicit Types (d : list (string * V)) (k : string) (v : V).

Lemma dict_get_set_eq k v d : dict_get k (dict_set k v d) = Some v.
Proof.
  induction d as [|[k' v'] d IH]; cbn.
  - rewrite String.eqb_refl. reflexivity.
  - destruct (String.eqb k' k) eqn:E; cbn; rewrite E; [reflexivity | exact IH].
Qed.

Lemma dict_get_set_ne k k' v d :
  k <> k' -> dict_get k' (dict_set k v d) = dict_get k' d.
Proof.
  intros Hne. induction d as [|[k0 v0] d IH]; cbn.
  - apply String.eqb_neq in Hne. rewrite Hne. reflexivity.
  - destruct (String.eqb k0 k) eqn:E; cbn.
    + apply String.eqb_eq in E. subst k0.
      apply String.eqb_neq in Hne. rewrite Hne. reflexivity.
    + destruct (String.eqb k0 k'); [reflexivity | exact IH].
Qed.

(** A new key is added at the end. *)
Lemma dict_set_fresh k v d :
  dict_get k d = None -> dict_set k v d = d ++ [(k, v)].
Proof.
  induction d as [|[k' v'] d IH]; cbn; [reflexivity|].
  destruct (String.eqb k' k); [discriminate|]. intros H. rewrite IH by exact H.
  reflexivity.
Qed.

(** A stored key keeps its place, and no key is added or lost. *)
Lemma dict_set_stored_keys k v v0 d :
  dict_get k d = Some v0 -> map fst (dict_set k v d) = map fst d.
Proof.
  induction d as [|[k' v'] d IH]; cbn; [discriminate|].
  destruct (String.eqb k' k); cbn; [reflexivity|].
  intros H. rewrite IH by exact H. reflexivity.
Qed.

Lemma dict_get_In k v d : dict_get k d = Some v -> In (k, v) d.
Proof.
  induction d as [|[k' v'] d IH]; cbn; [discriminate|].
  destruct (String.eqb k' k) eqn:E.
  - apply String.eqb_eq in E. intros [= ->]. left. congruence.
  - intros H. right. apply IH, H.
Qed.

End Dict.

(** X16: a grievance that was created is read back under the identifier
    that [create_grievance] returns, with the fields it was given and
    the same time in all three time stamps; every other identifier reads
    as before, and the other three tables are untouched. *)
Theorem create_grievance_get_grievance (self : db) (uuid now : string)
    (student_id grievance_type narrative : string)
    (parameters : gmap string value) (status : string) :
  let created :=
    create_grievance self uuid now student_id grievance_type narrative
      parameters status in
  snd created = uuid /\
  get_grievance (fst created) (snd created) =
    Some {| g_id := uuid; g_student_id := student_id;
            g_grievance_type := grievance_type; g_narrative := narrative;
            g_parameters := parameters; g_status := status;
            g_submitted_at := now; g_created_at := now;
            g_updated_at := now |} /\
  (forall other, other <> uuid ->
     get_grievance (fst created) other = get_grievance self other) /\
  decisions (fst created) = decisions self /\
  rule_traces (fst created) = rule_traces self /\
  fairness_checks (fst created) = fairness_checks self.
Proof.
  cbn. unfold get_grievance. cbn. split; [reflexivity|].
  split; [apply dict_get_set_eq|]. split; [|auto].
  intros other Hne. apply dict_get_set_ne. congruence.
Qed.

Lemma create_grievance_get_grievance_witness :
  let created :=
    create_grievance empty_db "g-1" "2024-02-01T10:00:00" "STU2024001"
      "FEE_WAIVER" "I request a fee waiver" ∅ "PENDING" in
  get_grievance (fst created) "g-2" = None /\
  exists g, get_grievance (fst created) "g-1" = Some g /\
            g_status g = "PENDING".
Proof.
  intros created.
  destruct (create_grievance_get_grievance empty_db "g-1"
              "2024-02-01T10:00:00" "STU2024001" "FEE_WAIVER"
              "I request a fee waiver" ∅ "PENDING")
    as (_ & Hget & Hother & _).
  subst created. split.
  - rewrite (Hother "g-2") by discriminate. reflexivity.
  - eexists. split; [exact Hget | reflexivity].
Defined.

(** X17: [update_grievance_status] on an identifier that is not stored
    changes nothing; on a stored one it replaces the status and the
    update time of that grievance and nothing else: its other fields,
    the other grievances and the order of the table stay. *)
Theorem update_grievance_status_only_status (self : db)
    (now grievance_id status : string) :
  let updated := update_grievance_status self now grievance_id status in
  (get_grievance self grievance_id = None -> updated = self) /\
  (forall g, get_grievance self grievance_id = Some g ->
     get_grievance updated grievance_id =
       Some {| g_id := g_id g; g_student_id := g_student_id g;
               g_grievance_type := g_grievance_type g;
               g_narrative := g_narrative g;
               g_parameters := g_parameters g; g_status := status;
               g_submitted_at := g_submitted_at g;
               g_created_at := g_created_at g; g_updated_at := now |}) /\
  (forall other, other <> grievance_id ->
     get_grievance updated other = get_grievance self other) /\
  map fst (grievances updated) = map fst (grievances self) /\
  decisions updated = decisions self /\
  rule_traces updated = rule_traces self /\
  fairness_checks updated = fairness_checks self.
Proof.
  cbv zeta. unfold update_grievance_status, get_grievance.
  destruct (dict_get grievance_id (grievances self)) as [g|] eqn:E.
  - cbn. split; [discriminate|]. split.
    + intros g' [= <-]. apply dict_get_set_eq.
    + split; [intros other Hne; apply dict_get_set_ne; congruence|].
      split; [eapply dict_set_stored_keys, E | auto].
  - split; [reflexivity|]. split; [discriminate | auto].
Qed.

Lemma update_grievance_status_only_status_witness :
  let stored :=
    fst (create_grievance empty_db "g-1" "2024-02-01T10:00:00" "STU2024001"
           "FEE_WAIVER" "I request a fee waiver" ∅ "PENDING") in
  update_grievance_status empty_db "2024-02-01T10:00:04" "g-1" "RESOLVED"
  = empty_db /\
  exists g,
    get_grievance
      (update_grievance_status stored "2024-02-01T10:00:04" "g-1" "RESOLVED")
      "g-1" = Some g /\
    g_status g = "RESOLVED" /\
    g_created_at g = "2024-02-01T10:00:00" /\
    g_updated_at g = "2024-02-01T10:00:04".
Proof.
  intros stored. split.
  - apply (update_grievance_status_only_status empty_db
             "2024-02-01T10:00:04" "g-1" "RESOLVED"). reflexivity.
  - destruct (update_grievance_status_only_status stored
                "2024-02-01T10:00:04" "g-1" "RESOLVED") as (_ & Hset & _).
    eexists. split; [apply Hset; reflexivity|]. cbn. auto.
Defined.

Lemma find_snoc {A} (f : A -> bool) (l : list A) (x : A) :
  List.find f (l ++ [x]) =
  match List.find f l with
  | Some y => Some y
  | None => if f x then Some x else None
  end.
Proof.
  induction l as [|a l IH]; cbn; [reflexivity|].
  destruct (f a); [reflexivity | exact IH].
Qed.

(** After [create_decision] under a new identifier, the decision of a
    grievance is the one stored first. *)
Lemma get_decision_by_grievance_after_create (self : db)
    (uuid grievance_id other : string) (row : decision_row) :
  dict_get uuid (decisions self) = None ->
  dr_grievance_id row = grievance_id ->
  List.find (fun decision => String.eqb (dr_grievance_id decision) other)
    (dict_values (dict_set uuid row (decisions self))) =
  match get_decision_by_grievance self other with
  | Some d => Some d
  | None => if String.eqb grievance_id other then Some row else None
  end.
Proof.
  intros Hfresh Hrow. rewrite (dict_set_fresh _ _ _ Hfresh).
  unfold dict_values. rewrite map_app. cbn [map snd].
  rewrite find_snoc, Hrow. reflexivity.
Qed.

(** X18: a decision created under a new identifier is read back under
    that identifier, but [get_decision_by_grievance] keeps returning the
    decision that was stored first for the grievance: a second decision
    for the same grievance is stored and never found by grievance. *)
Theorem first_decision_of_grievance_wins (self : db) (uuid now : string)
    (grievance_id outcome applicable_rule regulatory_source
       hierarchy_level : string)
    (salience : Z) (reason : fstring) (explanation : option fstring)
    (action_required : option string) (human_review_required : bool) :
  dict_get uuid (decisions self) = None ->
  let created :=
    create_decision self uuid now grievance_id outcome applicable_rule
      regulatory_source hierarchy_level salience reason explanation
      action_required human_review_required in
  exists row,
    get_decision (fst created) (snd created) = Some row /\
    dr_grievance_id row = grievance_id /\ dr_outcome row = outcome /\
    dr_human_review_required row = human_review_required /\
    get_decision_by_grievance (fst created) grievance_id =
      match get_decision_by_grievance self grievance_id with
      | Some first => Some first
      | None => Some row
      end /\
    (forall other, other <> grievance_id ->
       get_decision_by_grievance (fst created) other =
       get_decision_by_grievance self other).
Proof.
  intros Hfresh created. subst created. unfold create_decision.
  cbn [fst snd].
  match goal with |- context [dict_set uuid ?r _] => set (row := r) end.
  exists row.
  split; [unfold get_decision; cbn [decisions]; apply dict_get_set_eq|].
  split; [reflexivity|]. split; [reflexivity|]. split; [reflexivity|].
  split.
  - unfold get_decision_by_grievance at 1. cbn [decisions].
    rewrite (get_decision_by_grievance_after_create _ _ grievance_id)
      by (assumption || reflexivity).
    rewrite String.eqb_refl. reflexivity.
  - intros other Hne.
    unfold get_decision_by_grievance at 1. cbn [decisions].
    rewrite (get_decision_by_grievance_after_create _ _ grievance_id)
      by (assumption || reflexivity).
    apply not_eq_sym, String.eqb_neq in Hne. rewrite Hne.
    destruct (get_decision_by_grievance self other); reflexivity.
Qed.

Lemma first_decision_of_grievance_wins_witness :
  let first :=
    fst (create_decision empty_db "d-1" "2024-02-01" "g-1" "REJECT" "rule"
           "source" "L1_National" 1500 [] None None false) in
  let second :=
    fst (create_decision first "d-2" "2024-02-02" "g-1" "ACCEPT" "rule"
           "source" "L1_National" 1500 [] None None false) in
  (exists row, get_decision second "d-2" = Some row /\
               dr_outcome row = "ACCEPT") /\
  exists row, get_decision_by_grievance second "g-1" = Some row /\
              dr_outcome row = "REJECT".
Proof.
  intros first second.
  destruct (first_decision_of_grievance_wins first "d-2" "2024-02-02" "g-1"
              "ACCEPT" "rule" "source" "L1_National" 1500 [] None None
              false eq_refl)
    as (row & Hget & _ & Hout & _ & Hby & _).
  split; [exists row; split; [exact Hget | exact Hout]|].
  eexists. split; [exact Hby | reflexivity].
Defined.




End MockDatabaseFacts.

(** ** The fairness monitor and the submission route on the in-memory
    database *)

Module GrievanceRouteFacts.
Import Py MockRuleEngine Fairness MockDatabase GrievanceRoute.
Import PyFacts FairnessFacts ScorerFacts MockDatabaseFacts.

(** The keywords that the monitor passes are not the parameters of the
    in-memory [create_fairness_check]. *)
Lemma create_fairness_check_unexpected_keyword (database : db)
    (uuid now : string) (grievance_id : string) (decision_id : option string)
    (similar_cases : list similar_case) (consistency_score : Q)
    (anomaly_detected : bool) (demographic_parity : gmap string value) :
  create_fairness_check database uuid now
    [ ("grievance_id", AStr grievance_id);
      ("decision_id", AOptStr decision_id);
      ("similar_cases", ACases similar_cases);
      ("consistency_score", ANum consistency_score);
      ("anomaly_detected", ABool anomaly_detected);
      ("demographic_parity", ADict demographic_parity) ] =
  Raise TypeError.
Proof. reflexivity. Qed.

Lemma monitor_fairness_eq (self : FairnessService) (database : db)
    (uuid now grievance_id : string) (decision : gmap string value)
    (grievance_type : string) (parameters : gmap string value) :
  GrievanceRoute.monitor_fairness self database uuid now grievance_id
    decision grievance_type parameters =
  let! report :=
    Fairness.monitor_fairness self decision
      (map case_dict
         (find_similar_cases database grievance_type parameters 10)) in
  Ok (database, report).
Proof.
  unfold GrievanceRoute.monitor_fairness.
  destruct (Fairness.monitor_fairness self decision _) as [report|e];
    [|reflexivity].
  cbn [bind]. rewrite create_fairness_check_unexpected_keyword. reflexivity.
Qed.

(** X20: on the in-memory database a fairness check is never stored.
    The monitor calls [create_fairness_check] with the keywords
    [similar_cases] and [demographic_parity], which this database does
    not take; the [TypeError] is caught, so the monitor returns the
    scorer's report (or its error) and leaves the database as it was.
    Called with the six parameters of its signature, the same method
    stores the check under the new identifier. *)
Theorem fairness_check_is_never_stored (self : FairnessService)
    (database : db) (uuid now grievance_id : string)
    (decision : gmap string value) (grievance_type : string)
    (parameters : gmap string value) :
  (GrievanceRoute.monitor_fairness self database uuid now grievance_id
     decision grievance_type parameters =
   let! report :=
     Fairness.monitor_fairness self decision
       (map case_dict
          (find_similar_cases database grievance_type parameters 10)) in
   Ok (database, report)) /\
  (forall decision_id score anomaly count text,
     exists stored row,
       create_fairness_check database uuid now
         [ ("grievance_id", AStr grievance_id);
           ("decision_id", AOptStr decision_id);
           ("consistency_score", ANum score);
           ("anomaly_detected", ABool anomaly);
           ("similar_cases_count", ANat count);
           ("recommendation", AStr text) ] = Ok (stored, uuid) /\
       dict_get uuid (fairness_checks stored) = Some row /\
       fc_grievance_id row = grievance_id /\
       fc_consistency_score row = score /\
       fc_similar_cases_count row = count).
Proof.
  split; [apply monitor_fairness_eq|].
  intros decision_id score anomaly count text.
  eexists. eexists. split; [reflexivity|]. cbn [fairness_checks].
  split; [apply dict_get_set_eq|]. cbn. auto.
Qed.

Lemma flat_map_nonempty {A B} (f : A -> list B) (l : list A) (x : A) :
  In x l -> f x <> [] -> flat_map f l <> [].
Proof.
  induction l as [|a l IH]; cbn; [tauto|].
  intros [-> | Hin] Hx H; apply app_eq_nil in H as [Ha Hl].
  - exact (Hx Ha).
  - exact (IH Hin Hx Hl).
Qed.

Lemma find_some_of_In {A} (f : A -> bool) (l : list A) (x : A) :
  In x l -> f x = true -> exists y, List.find f l = Some y.
Proof.
  intros Hin Hx. destruct (List.find f l) as [y|] eqn:E; [eauto|].
  rewrite (List.find_none f l E x Hin) in Hx. discriminate.
Qed.

(** A stored grievance that has a stored decision is a similar case of
    its own type. *)
Lemma find_similar_cases_nonempty (self : db) (grievance_id : string)
    (g : grievance_row) (decision_id : string) (d : decision_row)
    (parameters : gmap string value) :
  dict_get grievance_id (grievances self) = Some g ->
  dict_get decision_id (decisions self) = Some d ->
  dr_grievance_id d = grievance_id ->
  find_similar_cases self (g_grievance_type g) parameters 10 <> [].
Proof.
  intros Hg Hd Hid.
  assert (Hall : similar_of self (g_grievance_type g) (grievances self)
                 <> []).
  { unfold similar_of.
    apply (flat_map_nonempty _ _ (grievance_id, g));
      [apply dict_get_In, Hg|].
    cbn [fst snd]. rewrite String.eqb_refl.
    destruct (find_some_of_In
                (fun decision =>
                   String.eqb (dr_grievance_id decision) grievance_id)
                (dict_values (decisions self)) d) as (y & Hy).
    - apply (in_map snd _ (decision_id, d)), dict_get_In, Hd.
    - rewrite Hid. apply String.eqb_refl.
    - unfold get_decision_by_grievance. rewrite Hy. discriminate. }
  unfold find_similar_cases.
  destruct (similar_of self (g_grievance_type g) (grievances self));
    [congruence | discriminate].
Qed.

(** With at least one case the scorer returns a report. *)
Lemma monitor_fairness_nonempty (self : FairnessService)
    (decision : gmap string value)
    (similar_cases : list (gmap string value)) :
  similar_cases <> [] ->
  exists report,
    Fairness.monitor_fairness self decision similar_cases = Ok report /\
    similar_cases_count report = length similar_cases /\
    consistency_score report =
      calculate_consistency_score decision similar_cases.
Proof.
  intros Hne. unfold Fairness.monitor_fairness.
  destruct (detect_anomaly_nonempty decision similar_cases Hne)
    as (m & n & _ & Hdet). rewrite Hdet.
  destruct (_ && _); cbn [bind]; eexists; (split; [reflexivity|]);
    split; reflexivity.
Qed.

(** What a submission that the engine can evaluate does, step by step. *)
Lemma submit_grievance_ok (fairness_service : FairnessService)
    (database : db) (draw : draws) (ambiguity : ambiguity_report)
    (grievance : payload) (res : evaluation) :
  evaluate_grievance (start_time draw) (end_time draw)
    {| grievance_type := Some (p_grievance_type grievance);
       parameters := Some (p_parameters grievance) |} = Ok res ->
  let db1 :=
    fst (create_grievance database (uuid_grievance draw)
           (now_grievance draw) (p_student_id grievance)
           (p_grievance_type grievance) (p_narrative grievance)
           (p_parameters grievance) "PENDING") in
  let db2 :=
    fst (create_decision db1 (uuid_decision draw) (now_decision draw)
           (uuid_grievance draw) (d_outcome (ev_decision res))
           (applicable_rule (ev_decision res))
           (regulatory_source (ev_decision res))
           (d_hierarchy_level (ev_decision res))
           (d_salience (ev_decision res)) (reason (ev_decision res))
           (Some (explanation (ev_decision res)))
           (action_required (ev_decision res))
           (human_review_required (ev_decision res)
            || requires_human_review ambiguity)) in
  let db3 :=
    fst (create_rule_trace db2 (uuid_trace draw) (now_trace draw)
           (uuid_grievance draw) (Some (uuid_decision draw))
           (rules_evaluated (ev_trace res))
           (conflicts_detected (ev_trace res))
           (final_decision (ev_trace res), Some (uuid_decision draw))
           (default 0%Z (processing_time_ms (ev_trace res)))) in
  exists report,
    Fairness.monitor_fairness fairness_service
      (decision_dict (ev_decision res) (uuid_decision draw))
      (map case_dict
         (find_similar_cases db3 (p_grievance_type grievance)
            (p_parameters grievance) 10)) = Ok report /\
    submit_grievance fairness_service database draw ambiguity grievance =
    (update_grievance_status db3 (now_update draw) (uuid_grievance draw)
       "RESOLVED",
     Created
       {| success := true;
          message := "Grievance evaluated successfully";
          r_grievance_id := uuid_grievance draw;
          r_decision := (ev_decision res, Some (uuid_decision draw));
          r_trace_id := uuid_trace draw;
          r_rules_fired := rules_fired res;
          r_conflicts_detected := length (conflicts_detected (ev_trace res));
          r_processing_time_ms :=
            default 0%Z (processing_time_ms (ev_trace res));
          r_requires_human_review := requires_human_review ambiguity;
          r_ambiguous_terms_count := length (ambiguous_terms ambiguity);
          r_clarification_questions := clarification_questions ambiguity;
          r_fairness := Some report |}).
Proof.
  intros Heval db1 db2 db3.
  destruct (monitor_fairness_nonempty fairness_service
              (decision_dict (ev_decision res) (uuid_decision draw))
              (map case_dict
                 (find_similar_cases db3 (p_grievance_type grievance)
                    (p_parameters grievance) 10)))
    as (report & Hreport & _).
  { intros Hnil. apply map_eq_nil in Hnil. revert Hnil.
    eapply (find_similar_cases_nonempty db3 (uuid_grievance draw)
              {| g_id := uuid_grievance draw;
                 g_student_id := p_student_id grievance;
                 g_grievance_type := p_grievance_type grievance;
                 g_narrative := p_narrative grievance;
                 g_parameters := p_parameters grievance;
                 g_status := "PENDING";
                 g_submitted_at := now_grievance draw;
                 g_created_at := now_grievance draw;
                 g_updated_at := now_grievance draw |}
              (uuid_decision draw)).
    - apply dict_get_set_eq.
    - apply dict_get_set_eq.
    - reflexivity. }
  exists report. split; [exact Hreport|].
  unfold submit_grievance. cbv beta iota delta [create_grievance].
  rewrite Heval. cbv beta iota zeta delta [create_decision create_rule_trace].
  rewrite monitor_fairness_eq.
  subst db1 db2 db3.
  cbv beta iota zeta delta [create_grievance create_decision
                              create_rule_trace fst] in Hreport.
  rewrite Hreport. reflexivity.
Qed.

(** X21: when the engine raises, the request is answered with the 500
    response, and the grievance that was stored before the evaluation
    stays stored with the status PENDING; no decision, trace or fairness
    check is written. *)
Theorem engine_failure_leaves_pending_grievance
    (fairness_service : FairnessService) (database : db) (draw : draws)
    (ambiguity : ambiguity_report) (grievance : payload) (e : exn) :
  evaluate_grievance (start_time draw) (end_time draw)
    {| grievance_type := Some (p_grievance_type grievance);
       parameters := Some (p_parameters grievance) |} = Raise e ->
  exists stored row,
    submit_grievance fairness_service database draw ambiguity grievance =
      (stored, InternalServerError) /\
    get_grievance stored (uuid_grievance draw) = Some row /\
    g_status row = "PENDING" /\
    g_student_id row = p_student_id grievance /\
    g_parameters row = p_parameters grievance /\
    decisions stored = decisions database /\
    rule_traces stored = rule_traces database /\
    fairness_checks stored = fairness_checks database.
Proof.
  intros Heval. unfold submit_grievance.
  cbv beta iota delta [create_grievance]. rewrite Heval.
  eexists. eexists. split; [reflexivity|].
  split; [apply dict_get_set_eq|]. cbn. auto 10.
Qed.

Lemma engine_failure_leaves_pending_grievance_witness :
  exists stored row,
    submit_grievance __init__ empty_db sample_draws no_ambiguity
      attendance_not_a_number = (stored, InternalServerError) /\
    get_grievance stored "g-1" = Some row /\
    g_status row = "PENDING" /\
    decisions stored = [].
Proof.
  destruct (engine_failure_leaves_pending_grievance __init__ empty_db
              sample_draws no_ambiguity attendance_not_a_number TypeError
              eq_refl)
    as (stored & row & Hsubmit & Hget & Hstatus & _ & _ & Hdec & _).
  exists stored, row. auto.
Defined.

(** X22: when the engine returns, the request is answered with the
    created response whatever the database held, so the fairness monitor
    never fails a request.  Afterwards the grievance is stored with the
    status RESOLVED and the update time of the last step, the decision is
    stored under the identifier that the response gives, for this
    grievance and with the engine's outcome, and the trace is stored
    under the identifier of the response and names both; the table of
    fairness checks is as it was. *)
Theorem accepted_submission_is_stored
    (fairness_service : FairnessService) (database : db) (draw : draws)
    (ambiguity : ambiguity_report) (grievance : payload) (res : evaluation) :
  evaluate_grievance (start_time draw) (end_time draw)
    {| grievance_type := Some (p_grievance_type grievance);
       parameters := Some (p_parameters grievance) |} = Ok res ->
  exists stored r g d t,
    submit_grievance fairness_service database draw ambiguity grievance =
      (stored, Created r) /\
    r_grievance_id r = uuid_grievance draw /\
    r_decision r = (ev_decision res, Some (uuid_decision draw)) /\
    r_rules_fired r = rules_fired res /\
    get_grievance stored (r_grievance_id r) = Some g /\
    g_status g = "RESOLVED" /\
    g_grievance_type g = p_grievance_type grievance /\
    g_parameters g = p_parameters grievance /\
    g_updated_at g = now_update draw /\
    get_decision stored (uuid_decision draw) = Some d /\
    dr_grievance_id d = r_grievance_id r /\
    dr_outcome d = d_outcome (ev_decision res) /\
    dr_applicable_rule d = applicable_rule (ev_decision res) /\
    get_rule_trace stored (r_trace_id r) = Some t /\
    tr_grievance_id t = r_grievance_id r /\
    tr_decision_id t = Some (uuid_decision draw) /\
    tr_final_decision t = r_decision r /\
    fairness_checks stored = fairness_checks database.
Proof.
  intros Heval.
  destruct (submit_grievance_ok fairness_service database draw ambiguity
              grievance res Heval) as (report & _ & Hsubmit).
  rewrite Hsubmit. clear Hsubmit.
  unfold update_grievance_status, create_rule_trace, create_decision,
    create_grievance. cbn [fst snd grievances decisions rule_traces
                             fairness_checks].
  rewrite dict_get_set_eq.
  eexists. eexists. eexists. eexists. eexists.
  split; [reflexivity|]. cbn [r_grievance_id r_decision r_trace_id
                                 r_rules_fired].
  unfold get_grievance, get_decision, get_rule_trace.
  cbn [grievances decisions rule_traces fairness_checks].
  rewrite !dict_get_set_eq.
  pose proof (MockRuleEngineFacts.evaluate_grievance_shape _ _ _ _ Heval)
    as Hshape.
  cbv zeta in Hshape. destruct Hshape as (Hfinal & _).
  cbn. rewrite Hfinal. auto 20.
Qed.

Lemma accepted_submission_is_stored_witness :
  exists stored r g,
    submit_grievance __init__ empty_db sample_draws ambiguous
      attendance_70 = (stored, Created r) /\
    get_grievance stored "g-1" = Some g /\
    g_status g = "RESOLVED" /\
    fairness_checks stored = [].
Proof.
  destruct (evaluate_grievance (start_time sample_draws)
              (end_time sample_draws)
              {| grievance_type := Some (p_grievance_type attendance_70);
                 parameters := Some (p_parameters attendance_70) |})
    as [res|e] eqn:E; [|vm_compute in E; discriminate].
  destruct (accepted_submission_is_stored __init__ empty_db sample_draws
              ambiguous attendance_70 res E)
    as (stored & r & g & d & t & Hsubmit & Hid & _ & _ & Hget & Hstatus
        & _ & _ & _ & _ & _ & _ & _ & _ & _ & _ & _ & Hchecks).
  exists stored, r, g. rewrite Hid in Hget. auto.
Defined.

(** X23: the stored decision requires human review when the engine's
    decision or the ambiguity report does, while the decision in the
    response carries the engine's flag alone: for an ambiguous narrative
    that the engine decides without review the response says false and
    the database true. *)
Theorem stored_review_flag_includes_ambiguity
    (fairness_service : FairnessService) (database : db) (draw : draws)
    (ambiguity : ambiguity_report) (grievance : payload) (res : evaluation) :
  evaluate_grievance (start_time draw) (end_time draw)
    {| grievance_type := Some (p_grievance_type grievance);
       parameters := Some (p_parameters grievance) |} = Ok res ->
  exists stored r d,
    submit_grievance fairness_service database draw ambiguity grievance =
      (stored, Created r) /\
    snd (r_decision r) = Some (dr_id d) /\
    get_decision stored (dr_id d) = Some d /\
    human_review_required (fst (r_decision r)) =
      human_review_required (ev_decision res) /\
    r_requires_human_review r = requires_human_review ambiguity /\
    dr_human_review_required d =
      human_review_required (ev_decision res)
      || requires_human_review ambiguity.
Proof.
  intros Heval.
  destruct (submit_grievance_ok fairness_service database draw ambiguity
              grievance res Heval) as (report & _ & Hsubmit).
  rewrite Hsubmit. clear Hsubmit.
  unfold update_grievance_status, create_rule_trace, create_decision,
    create_grievance. cbn [fst snd grievances decisions rule_traces
                             fairness_checks].
  rewrite dict_get_set_eq.
  eexists. eexists.
  exists {| dr_id := uuid_decision draw;
            dr_grievance_id := uuid_grievance draw;
            dr_outcome := d_outcome (ev_decision res);
            dr_applicable_rule := applicable_rule (ev_decision res);
            dr_regulatory_source := regulatory_source (ev_decision res);
            dr_hierarchy_level := d_hierarchy_level (ev_decision res);
            dr_salience := d_salience (ev_decision res);
            dr_reason := reason (ev_decision res);
            dr_explanation := Some (explanation (ev_decision res));
            dr_action_required := action_required (ev_decision res);
            dr_human_review_required :=
              human_review_required (ev_decision res)
              || requires_human_review ambiguity;
            dr_decided_at := now_decision draw;
            dr_created_at := now_decision draw |}.
  split; [reflexivity|]. cbn [r_decision r_requires_human_review fst snd
                                 dr_id dr_human_review_required].
  split; [reflexivity|].
  split; [unfold get_decision; cbn [decisions]; apply dict_get_set_eq|].
  auto.
Qed.

Lemma stored_review_flag_includes_ambiguity_witness :
  exists stored r d,
    submit_grievance __init__ empty_db sample_draws ambiguous
      attendance_70 = (stored, Created r) /\
    get_decision stored (dr_id d) = Some d /\
    human_review_required (fst (r_decision r)) = false /\
    dr_human_review_required d = true.
Proof.
  destruct (evaluate_grievance (start_time sample_draws)
              (end_time sample_draws)
              {| grievance_type := Some (p_grievance_type attendance_70);
                 parameters := Some (p_parameters attendance_70) |})
    as [res|e] eqn:E; [|vm_compute in E; discriminate].
  destruct (stored_review_flag_includes_ambiguity __init__ empty_db
              sample_draws ambiguous attendance_70 res E)
    as (stored & r & d & Hsubmit & Hid & Hget & Hresp & _ & Hrow).
  exists stored, r, d. split; [exact Hsubmit|]. split; [exact Hget|].
  assert (Hflag : human_review_required (ev_decision res) = false)
    by (vm_compute in E; injection E as <-; reflexivity).
  rewrite Hresp, Hrow, Hflag. split; reflexivity.
Defined.

Lemma dict_get_None_key {V} (k k' : string) (v : V)
    (d : list (string * V)) :
  dict_get k d = None -> In (k', v) d -> k' <> k.
Proof.
  induction d as [|[k0 v0] d IH]; cbn; [tauto|].
  destruct (String.eqb_spec k0 k) as [|Hne]; [discriminate|].
  intros Hnone [[= <- <-] | Hin]; [exact Hne | exact (IH Hnone Hin)].
Qed.

(** After a grievance and its decision have been stored under new
    identifiers, the cases of its type are the earlier ones followed by
    the grievance itself. *)
Lemma similar_of_own_case (self self' : db) (grievance_id : string)
    (g : grievance_row) (decision_id : string) (d : decision_row) :
  dict_get grievance_id (grievances self) = None ->
  dict_get decision_id (decisions self) = None ->
  get_decision_by_grievance self grievance_id = None ->
  dr_grievance_id d = grievance_id ->
  grievances self' = dict_set grievance_id g (grievances self) ->
  decisions self' = dict_set decision_id d (decisions self) ->
  similar_of self' (g_grievance_type g) (grievances self') =
  similar_of self (g_grievance_type g) (grievances self) ++
  [ {| sc_grievance_id := grievance_id;
       sc_outcome := dr_outcome d;
       sc_applicable_rule := dr_applicable_rule d;
       sc_hierarchy_level := dr_hierarchy_level d;
       sc_parameters := g_parameters g |} ].
Proof.
  intros Hg Hd Hby Hid Hgs Hds.
  assert (Hfind : forall other,
    get_decision_by_grievance self' other =
    match get_decision_by_grievance self other with
    | Some first => Some first
    | None => if String.eqb grievance_id other then Some d else None
    end).
  { intros other. unfold get_decision_by_grievance at 1. rewrite Hds.
    apply get_decision_by_grievance_after_create; assumption. }
  rewrite Hgs, (dict_set_fresh _ _ _ Hg). unfold similar_of.
  rewrite flat_map_app. f_equal.
  - assert (Hkeys : forall id g0, In (id, g0) (grievances self) ->
                      id <> grievance_id)
      by (intros id g0; apply dict_get_None_key, Hg).
    revert Hkeys. generalize (grievances self) as items.
    induction items as [|[id g0] items IH]; intros Hkeys; [reflexivity|].
    cbn [flat_map fst snd]. rewrite IH by (intros; eapply Hkeys; right; eauto).
    f_equal. rewrite Hfind.
    assert (Hne : String.eqb grievance_id id = false)
      by (apply String.eqb_neq, not_eq_sym, (Hkeys id g0); left; reflexivity).
    rewrite Hne. destruct (get_decision_by_grievance self id); reflexivity.
  - cbn [flat_map fst snd]. rewrite String.eqb_refl, Hfind, Hby.
    rewrite String.eqb_refl. reflexivity.
Qed.

(** A report on cases that all agree with the decision. *)
Lemma monitor_fairness_agreement (self : FairnessService)
    (decision : gmap string value)
    (similar_cases : list (gmap string value)) :
  similar_cases <> [] ->
  (forall case key, In case similar_cases ->
     key = "outcome" \/ key = "applicable_rule" \/ key = "hierarchy_level" ->
     equal (get case key) (get decision key) = true) ->
  exists report,
    Fairness.monitor_fairness self decision similar_cases = Ok report /\
    similar_cases_count report = length similar_cases /\
    (consistency_score report == 1)%Q /\
    anomaly_detected report = false /\
    recommendation report = CONSISTENT.
Proof.
  intros Hne Hall.
  assert (Hscore :
    (calculate_consistency_score decision similar_cases == 1)%Q).
  { rewrite (score_nonempty _ _ Hne).
    assert (H0 := match_ratio_all "outcome" _ _ Hne
                    (fun c Hc => Hall c _ Hc (or_introl eq_refl))).
    assert (H1 := match_ratio_all "applicable_rule" _ _ Hne
                    (fun c Hc => Hall c _ Hc (or_intror (or_introl eq_refl)))).
    assert (H2 := match_ratio_all "hierarchy_level" _ _ Hne
                    (fun c Hc => Hall c _ Hc (or_intror (or_intror eq_refl)))).
    round_4_bounds 10000%Z 10000%Z. apply Qle_antisym; lra. }
  unfold Fairness.monitor_fairness.
  destruct (detect_anomaly_nonempty decision similar_cases Hne)
    as (m & n & Hm & Hdet). rewrite Hdet.
  destruct (majority_is_an_outcome _ _ _ Hm) as (case & Hin & <-).
  rewrite equal_sym, (Hall case "outcome" Hin (or_introl eq_refl)).
  rewrite andb_false_r. cbn [bind fst snd].
  eexists. split; [reflexivity|]. cbn. split; [reflexivity|].
  split; [exact Hscore|]. split; [reflexivity|].
  unfold _generate_recommendation.
  assert (Hge : Qltb (calculate_consistency_score decision similar_cases)
                  0.90 = false)
    by (apply Qltb_ge; rewrite Hscore; discriminate).
  rewrite Hge. reflexivity.
Qed.

(** X24: a submitted grievance is compared with itself.  The in-memory
    [find_similar_cases] has no filter on the status or on the
    identifier, and the grievance and its decision are stored before the
    monitor runs; with new identifiers the cases of the report are the
    first ten of the earlier cases of the type followed by the
    submission's own decision.  So the first decided grievance of a type
    is scored against itself alone: one case, score 1, no anomaly,
    CONSISTENT; and from ten earlier cases on, the cases are the ten
    oldest ones. *)
Theorem submitted_grievance_is_compared_with_itself
    (fairness_service : FairnessService) (database : db) (draw : draws)
    (ambiguity : ambiguity_report) (grievance : payload) (res : evaluation) :
  evaluate_grievance (start_time draw) (end_time draw)
    {| grievance_type := Some (p_grievance_type grievance);
       parameters := Some (p_parameters grievance) |} = Ok res ->
  get_grievance database (uuid_grievance draw) = None ->
  get_decision database (uuid_decision draw) = None ->
  get_decision_by_grievance database (uuid_grievance draw) = None ->
  let earlier :=
    similar_of database (p_grievance_type grievance) (grievances database) in
  let own :=
    {| sc_grievance_id := uuid_grievance draw;
       sc_outcome := d_outcome (ev_decision res);
       sc_applicable_rule := applicable_rule (ev_decision res);
       sc_hierarchy_level := d_hierarchy_level (ev_decision res);
       sc_parameters := p_parameters grievance |} in
  exists stored r report,
    submit_grievance fairness_service database draw ambiguity grievance =
      (stored, Created r) /\
    r_fairness r = Some report /\
    Fairness.monitor_fairness fairness_service
      (decision_dict (ev_decision res) (uuid_decision draw))
      (map case_dict (firstn 10 (earlier ++ [own]))) = Ok report /\
    similar_cases_count report = Nat.min 10 (S (length earlier)) /\
    (10 <= length earlier ->
       firstn 10 (earlier ++ [own]) = firstn 10 earlier) /\
    (earlier = [] ->
       similar_cases_count report = 1 /\
       (consistency_score report == 1)%Q /\
       anomaly_detected report = false /\
       recommendation report = CONSISTENT).
Proof.
  intros Heval Hg Hd Hby earlier own.
  destruct (submit_grievance_ok fairness_service database draw ambiguity
              grievance res Heval) as (report & Hreport & Hsubmit).
  rewrite Hsubmit. clear Hsubmit.
  unfold find_similar_cases, slice_to in Hreport.
  change (0 <=? 10)%Z with true in Hreport.
  change (Z.to_nat 10) with 10 in Hreport. cbv iota in Hreport.
  match type of Hreport with context [similar_of ?db3 _ _] =>
  pose proof (similar_of_own_case database db3 (uuid_grievance draw)
             {| g_id := uuid_grievance draw;
                g_student_id := p_student_id grievance;
                g_grievance_type := p_grievance_type grievance;
                g_narrative := p_narrative grievance;
                g_parameters := p_parameters grievance;
                g_status := "PENDING";
                g_submitted_at := now_grievance draw;
                g_created_at := now_grievance draw;
                g_updated_at := now_grievance draw |}
             (uuid_decision draw)
             {| dr_id := uuid_decision draw;
                dr_grievance_id := uuid_grievance draw;
                dr_outcome := d_outcome (ev_decision res);
                dr_applicable_rule := applicable_rule (ev_decision res);
                dr_regulatory_source := regulatory_source (ev_decision res);
                dr_hierarchy_level := d_hierarchy_level (ev_decision res);
                dr_salience := d_salience (ev_decision res);
                dr_reason := reason (ev_decision res);
                dr_explanation := Some (explanation (ev_decision res));
                dr_action_required := action_required (ev_decision res);
                dr_human_review_required :=
                  human_review_required (ev_decision res)
                  || requires_human_review ambiguity;
                dr_decided_at := now_decision draw;
                dr_created_at := now_decision draw |}
             Hg Hd Hby eq_refl eq_refl eq_refl) as Hcases
  end.
  cbn [dr_outcome dr_applicable_rule dr_hierarchy_level g_parameters
         g_grievance_type] in Hcases.
  rewrite Hcases in Hreport. clear Hcases.
  fold earlier own in Hreport.
  eexists. eexists. exists report. split; [reflexivity|].
  cbn [r_fairness]. split; [reflexivity|]. split; [exact Hreport|].
  assert (Hcount : similar_cases_count report =
                   Nat.min 10 (S (length earlier))).
  { unfold Fairness.monitor_fairness in Hreport.
    destruct (detect_anomaly _ _ _ _) as [anomaly|]; [|discriminate].
    cbn [bind] in Hreport. injection Hreport as <-.
    cbn [similar_cases_count].
    rewrite length_map, length_firstn, length_app. cbn [length]. lia. }
  split; [exact Hcount|]. split.
  - intros Hten. rewrite firstn_app.
    replace (10 - length earlier) with 0 by lia.
    cbn [firstn]. apply app_nil_r.
  - intros Hnone.
    destruct (monitor_fairness_agreement fairness_service
                (decision_dict (ev_decision res) (uuid_decision draw))
                (map case_dict (firstn 10 (earlier ++ [own]))))
      as (report' & Hreport' & _ & Hscore & Hanomaly & Hrec).
    + rewrite Hnone. discriminate.
    + rewrite Hnone. intros case key [<- | []] [-> | [-> | ->]];
        apply equal_refl.
    + rewrite Hreport in Hreport'. injection Hreport' as <-.
      rewrite Hcount, Hnone. auto.
Qed.

Lemma submitted_grievance_is_compared_with_itself_witness :
  exists stored r report,
    submit_grievance __init__ empty_db sample_draws no_ambiguity
      attendance_70 = (stored, Created r) /\
    r_fairness r = Some report /\
    similar_cases_count report = 1 /\
    (consistency_score report == 1)%Q /\
    recommendation report = CONSISTENT.
Proof.
  destruct (evaluate_grievance (start_time sample_draws)
              (end_time sample_draws)
              {| grievance_type := Some (p_grievance_type attendance_70);
                 parameters := Some (p_parameters attendance_70) |})
    as [res|e] eqn:E; [|vm_compute in E; discriminate].
  destruct (submitted_grievance_is_compared_with_itself __init__ empty_db
              sample_draws no_ambiguity attendance_70 res E eq_refl eq_refl
              eq_refl)
    as (stored & r & report & Hsubmit & Hfair & _ & _ & _ & Hfirst).
  destruct (Hfirst eq_refl) as (Hcount & Hscore & _ & Hrec).
  exists stored, r, report. auto.
Defined.

End GrievanceRouteFacts.
